(** * Schedule-change workflow and slot synchronizer

    A shallow embedding of the schedule-slot part of the school-management
    backend: the helper [syncTeacherSlotToCourseSlot], the admin routes
    [PUT /timetable/teachers/slots/:slotId],
    [POST /schedule-change/:requestId/approve] and
    [POST /schedule-change/:requestId/decline], and the teacher route
    [POST /timetable/request-change].

    The store (Supabase) is modelled as a record of tables, every call to it
    may succeed, return an error object or throw, and the handlers are written
    in a small state-and-exception monad so that they follow the JavaScript
    statement by statement. *)

From Stdlib Require Import String List Bool Arith Lia Permutation.
Import ListNotations.
Open Scope string_scope.
Open Scope list_scope.

(** ** JavaScript values that flow through the handlers *)

Module Js.

(** A nullable column or an optional property whose non-null values are
    strings: [None] is [null]. *)
Definition value := option string.

(** ToBoolean: [null] and the empty string are falsy. *)
Definition truthy (v : value) : bool :=
  match v with
  | Some s => negb (s =? EmptyString)
  | None => false
  end.

(** [a === b] on null-or-string values. *)
Definition strict_eq (a b : value) : bool :=
  match a, b with
  | Some x, Some y => x =? y
  | None, None => true
  | _, _ => false
  end.

(** [v || null]. *)
Definition or_null (v : value) : value := if truthy v then v else None.

(** A value interpolated in a template literal. *)
Definition show (v : value) : string :=
  match v with
  | Some s => s
  | None => "null"
  end.

(** A property of a JSON request body: missing, [null] or a string. *)
Inductive field := Undefined | Null | Str (s : string).

Definition field_truthy (f : field) : bool :=
  match f with
  | Str s => negb (s =? EmptyString)
  | _ => false
  end.

(** [f || null] for a body property. *)
Definition field_or_null (f : field) : value :=
  match f with
  | Str s => if s =? EmptyString then None else Some s
  | _ => None
  end.

End Js.

(** ** Rows *)

(** A row of [teacher_schedule_slots] or of [course_schedule_slots]; the
    two tables have the same columns as far as these handlers go. *)
Module Slot.
Record t := mk {
  id : string;
  teacher_id : Js.value;
  course_id : Js.value;
  day_of_week : Js.value;
  start_time : Js.value;
  end_time : Js.value;
  location : Js.value;
  notes : Js.value
}.
End Slot.

(** What [.select("id, day_of_week, start_time, end_time")] returns for a
    course slot. *)
Module Candidate.
Record t := mk {
  id : string;
  day_of_week : Js.value;
  start_time : Js.value;
  end_time : Js.value
}.

Definition of_row (r : Slot.t) : t :=
  mk (Slot.id r) (Slot.day_of_week r) (Slot.start_time r) (Slot.end_time r).
End Candidate.

(** The [oldValues] object handed to the synchronizer. *)
Module OldValues.
Record t := mk {
  day_of_week : Js.value;
  start_time : Js.value;
  end_time : Js.value
}.
End OldValues.

(** The object [courseSlotUpdate] written over a chosen course slot. *)
Module CourseSlotUpdate.
Record t := mk {
  day_of_week : Js.value;
  start_time : Js.value;
  end_time : Js.value;
  location : Js.value;
  notes : Js.value
}.
End CourseSlotUpdate.

(** The object inserted in [course_schedule_slots]. *)
Module CourseSlotInsert.
Record t := mk {
  course_id : Js.value;
  teacher_id : Js.value;
  day_of_week : Js.value;
  start_time : Js.value;
  end_time : Js.value;
  location : Js.value;
  notes : Js.value
}.
End CourseSlotInsert.

(** The object written over a teacher slot: [updates] in the approve route,
    [payload] in the slot-edit route. [None] is an absent key. *)
Module Updates.
Record t := mk {
  day_of_week : option string;
  start_time : option string;
  end_time : option string;
  course_id : option Js.value;
  location : option Js.value;
  notes : option Js.value
}.

(** [Object.keys(updates).length > 0] *)
Definition nonempty (u : t) : bool :=
  match day_of_week u, start_time u, end_time u,
        course_id u, location u, notes u with
  | None, None, None, None, None, None => false
  | _, _, _, _, _, _ => true
  end.
End Updates.

(** A row of [schedule_change_requests]. *)
Module Request.
Record t := mk {
  id : string;
  slot_id : string;
  teacher_id : string;
  course_id : Js.value;
  current_day_of_week : Js.value;
  current_start_time : Js.value;
  current_end_time : Js.value;
  requested_day_of_week : Js.value;
  requested_start_time : Js.value;
  requested_end_time : Js.value;
  reason : string;
  status : string;
  approved_by : Js.value;
  approved_at : Js.value;
  declined_by : Js.value;
  declined_at : Js.value;
  declined_reason : Js.value
}.

Definition set_approved (by_ at_ : string) (r : t) : t :=
  mk (id r) (slot_id r) (teacher_id r) (course_id r)
     (current_day_of_week r) (current_start_time r) (current_end_time r)
     (requested_day_of_week r) (requested_start_time r)
     (requested_end_time r) (reason r)
     "approved" (Some by_) (Some at_)
     (declined_by r) (declined_at r) (declined_reason r).

Definition set_declined (by_ at_ : string) (why : Js.value) (r : t) : t :=
  mk (id r) (slot_id r) (teacher_id r) (course_id r)
     (current_day_of_week r) (current_start_time r) (current_end_time r)
     (requested_day_of_week r) (requested_start_time r)
     (requested_end_time r) (reason r)
     "declined" (approved_by r) (approved_at r)
     (Some by_) (Some at_) why.
End Request.

(** A row inserted in [notifications]. *)
Module Notification.
Record t := mk {
  recipient_id : string;
  sender_id : string;
  title : string;
  message : string;
  channels : list string;
  audience_scope : string;
  course_id : Js.value
}.
End Notification.

(** A row of [courses] (the columns read here). *)
Module Course.
Record t := mk { id : string; name : Js.value }.
End Course.

(** A row of [course_students]. *)
Module Enrollment.
Record t := mk { course_id : Js.value; student_id : Js.value }.
End Enrollment.

(** An [io.emit(topic, payload)] call. *)
Module Event.
Record t := mk { topic : string; payload : list (string * Js.value) }.
End Event.

(** ** The store and the calls made to it *)

(** The filter [.eq(column, v)]: a null column matches nothing. *)
Definition sql_eq (column v : Js.value) : bool :=
  match column, v with
  | Some x, Some y => x =? y
  | _, _ => false
  end.

(** A patch written on a request row. *)
Inductive RequestPatch :=
| MarkApproved (approved_by approved_at : string)
| MarkDeclined (declined_by declined_at : string) (declined_reason : Js.value).

(** The write statements the handlers send to the store. *)
Inductive Write :=
| update_course_schedule_slots (id : string) (set : CourseSlotUpdate.t)
| insert_course_schedule_slots (row : CourseSlotInsert.t)
| update_teacher_schedule_slots (id : string) (set : Updates.t)
| update_schedule_change_requests (id : string) (set : RequestPatch)
| insert_schedule_change_requests (row : Request.t)
| insert_notifications (rows : list Notification.t).

(** The tables, the events published so far and the write statements sent
    so far (oldest first; a statement is recorded when it is sent, whatever
    the store then answers). *)
Record World := mkWorld {
  schedule_change_requests : list Request.t;
  teacher_schedule_slots : list Slot.t;
  course_schedule_slots : list Slot.t;
  notifications : list Notification.t;
  courses : list Course.t;
  course_students : list Enrollment.t;
  emitted : list Event.t;
  issued : list Write
}.

(** The store calls of the handlers, one name per call site. *)
Inductive Op :=
| SelectCourseSlots | UpdateCourseSlot | InsertCourseSlot
| SelectRequest | UpdateTeacherSlot | UpdateRequest
| SelectCourse | InsertTeacherNotification
| SelectEnrolled | InsertStudentNotifications
| SelectTeacherSlot | SelectUser | InsertRequest.

(** What the store does with a call: it runs it, answers [{ error }]
    without running it, or the awaited promise rejects. *)
Inductive Outcome :=
| Succeeds
| ReturnsError (e : string)
| Throws (e : string).

(** Everything a handler reads from its surroundings. *)
Record Env := mkEnv {
  outcome : Op -> Outcome;
  supabase : bool;        (* the client is configured *)
  io : bool;              (* req.app.get("io") is set *)
  now : string;           (* new Date().toISOString() *)
  new_id : string;        (* the key the store gives an inserted row *)
  development : bool      (* process.env.NODE_ENV === 'development' *)
}.

(** The [{ data, error }] object a store call resolves to. *)
Inductive Reply (A : Type) :=
| Data (a : A)
| Error (e : string).
Arguments Data {A} a.
Arguments Error {A} e.

(** ** The handler monad: state that survives a throw *)

Inductive Res (A : Type) :=
| Val (a : A)
| Exn (e : string).
Arguments Val {A} a.
Arguments Exn {A} e.

Definition M (A : Type) := World -> Res A * World.

Definition ret {A} (a : A) : M A := fun w => (Val a, w).

Definition bind {A B} (m : M A) (k : A -> M B) : M B :=
  fun w =>
    match m w with
    | (Val a, w') => k a w'
    | (Exn e, w') => (Exn e, w')
    end.

Definition throw {A} (e : string) : M A := fun w => (Exn e, w).

(** [try { m } catch (error) { h error }] *)
Definition try_catch {A} (m : M A) (h : string -> M A) : M A :=
  fun w =>
    match m w with
    | (Val a, w') => (Val a, w')
    | (Exn e, w') => h e w'
    end.

Declare Scope js_scope.
Delimit Scope js_scope with js.
Notation "x <- m ;; k" := (bind m (fun x => k))
  (at level 100, m at next level, right associativity) : js_scope.
Notation "m ;;; k" := (bind m (fun _ => k))
  (at level 100, right associativity) : js_scope.
Open Scope js_scope.

Definition modify (f : World -> World) : M unit := fun w => (Val tt, f w).

Definition record (s : Write) : World -> World :=
  fun w => mkWorld (schedule_change_requests w) (teacher_schedule_slots w)
                   (course_schedule_slots w) (notifications w) (courses w)
                   (course_students w) (emitted w) (issued w ++ [s]).

Definition emit (topic : string) (payload : list (string * Js.value)) : M unit :=
  modify (fun w =>
    mkWorld (schedule_change_requests w) (teacher_schedule_slots w)
            (course_schedule_slots w) (notifications w) (courses w)
            (course_students w) (emitted w ++ [Event.mk topic payload])
            (issued w)).

Definition set_course_schedule_slots (t : list Slot.t) (w : World) : World :=
  mkWorld (schedule_change_requests w) (teacher_schedule_slots w) t
          (notifications w) (courses w) (course_students w) (emitted w)
          (issued w).

Definition set_teacher_schedule_slots (t : list Slot.t) (w : World) : World :=
  mkWorld (schedule_change_requests w) t (course_schedule_slots w)
          (notifications w) (courses w) (course_students w) (emitted w)
          (issued w).

Definition set_schedule_change_requests (t : list Request.t) (w : World) : World :=
  mkWorld t (teacher_schedule_slots w) (course_schedule_slots w)
          (notifications w) (courses w) (course_students w) (emitted w)
          (issued w).

Definition set_notifications (t : list Notification.t) (w : World) : World :=
  mkWorld (schedule_change_requests w) (teacher_schedule_slots w)
          (course_schedule_slots w) t (courses w) (course_students w)
          (emitted w) (issued w).

Section Handlers.

Variable env : Env.

(** A read: [q] computes the reply from the tables. *)
Definition query {A} (op : Op) (q : World -> Reply A) : M (Reply A) :=
  fun w =>
    match outcome env op with
    | Succeeds => (Val (q w), w)
    | ReturnsError e => (Val (Error e), w)
    | Throws e => (Exn e, w)
    end.

(** A write: the statement [s] is sent, and [run] is what the store does
    with it when it succeeds. *)
Definition statement {A} (op : Op) (s : Write)
           (run : World -> Reply A * World) : M (Reply A) :=
  fun w =>
    let w1 := record s w in
    match outcome env op with
    | Succeeds => let (r, w2) := run w1 in (Val r, w2)
    | ReturnsError e => (Val (Error e), w1)
    | Throws e => (Exn e, w1)
    end.

(** *** The slot synchronizer *)

(** [.from("course_schedule_slots").select(...).eq("course_id", c)
    .eq("teacher_id", t)] *)
Definition same_pair (c t : Js.value) (r : Slot.t) : bool :=
  sql_eq (Slot.course_id r) c && sql_eq (Slot.teacher_id r) t.

Definition select_course_slots (c t : Js.value) (w : World)
  : Reply (list Candidate.t) :=
  Data (map Candidate.of_row (filter (same_pair c t) (course_schedule_slots w))).

(** [s.day_of_week === d && s.start_time === b && s.end_time === e] *)
Definition exact (d b e : Js.value) (s : Candidate.t) : bool :=
  Js.strict_eq (Candidate.day_of_week s) d
  && Js.strict_eq (Candidate.start_time s) b
  && Js.strict_eq (Candidate.end_time s) e.

Definition same_day (d : Js.value) (s : Candidate.t) : bool :=
  Js.strict_eq (Candidate.day_of_week s) d.

(** [oldValues && oldValues.day_of_week && oldValues.start_time &&
    oldValues.end_time] *)
Definition complete (oldValues : option OldValues.t) : bool :=
  match oldValues with
  | Some o => Js.truthy (OldValues.day_of_week o)
              && Js.truthy (OldValues.start_time o)
              && Js.truthy (OldValues.end_time o)
  | None => false
  end.

(** How the first half of the function ends: with an early [return], or
    with a value of [courseSlotToUpdate] ([None] is [null]). *)
Inductive Choice :=
| Return
| Go (courseSlotToUpdate : option Candidate.t).

(** Strategy 1, the branch taken with a complete [oldValues]. *)
Definition strategy_old (o : OldValues.t) (allCourseSlots : list Candidate.t)
  : Choice :=
  if (0 <? List.length allCourseSlots)%nat then
    match find (exact (OldValues.day_of_week o) (OldValues.start_time o)
                      (OldValues.end_time o)) allCourseSlots with
    | Some exactMatch => Go (Some exactMatch)
    | None =>
        match find (same_day (OldValues.day_of_week o)) allCourseSlots with
        | Some dayMatch =>
            if (List.length allCourseSlots =? 1)%nat then Go (Some dayMatch)
            else Go None
        | None =>
            if (List.length allCourseSlots =? 1)%nat then Go (nth_error allCourseSlots 0)
            else Go None
        end
    end
  else Go None.

(** The [else] branch: no usable [oldValues]. *)
Definition strategy_new (teacherSlot : Slot.t)
           (allCourseSlots : list Candidate.t) : Choice :=
  if (0 <? List.length allCourseSlots)%nat then
    match find (exact (Slot.day_of_week teacherSlot)
                      (Slot.start_time teacherSlot)
                      (Slot.end_time teacherSlot)) allCourseSlots with
    | Some matchingNew => Return
    | None =>
        if (List.length allCourseSlots =? 1)%nat then Go (nth_error allCourseSlots 0)
        else Go None
    end
  else Go None.

Definition choose (teacherSlot : Slot.t) (oldValues : option OldValues.t)
           (allCourseSlots : list Candidate.t) : Choice :=
  match oldValues with
  | Some o =>
      if complete oldValues then strategy_old o allCourseSlots
      else strategy_new teacherSlot allCourseSlots
  | None => strategy_new teacherSlot allCourseSlots
  end.

Definition courseSlotUpdate (teacherSlot : Slot.t) : CourseSlotUpdate.t :=
  CourseSlotUpdate.mk
    (Slot.day_of_week teacherSlot) (Slot.start_time teacherSlot)
    (Slot.end_time teacherSlot)
    (Js.or_null (Slot.location teacherSlot))
    (Js.or_null (Slot.notes teacherSlot)).

Definition courseSlotInsert (teacherSlot : Slot.t) : CourseSlotInsert.t :=
  CourseSlotInsert.mk
    (Slot.course_id teacherSlot) (Slot.teacher_id teacherSlot)
    (Slot.day_of_week teacherSlot) (Slot.start_time teacherSlot)
    (Slot.end_time teacherSlot)
    (Js.or_null (Slot.location teacherSlot))
    (Js.or_null (Slot.notes teacherSlot)).

(** What the store does with [.update(u).eq("id", i)] on a course slot. *)
Definition apply_update (u : CourseSlotUpdate.t) (r : Slot.t) : Slot.t :=
  Slot.mk (Slot.id r) (Slot.teacher_id r) (Slot.course_id r)
          (CourseSlotUpdate.day_of_week u) (CourseSlotUpdate.start_time u)
          (CourseSlotUpdate.end_time u) (CourseSlotUpdate.location u)
          (CourseSlotUpdate.notes u).

Definition update_where_id {R} (key : R -> string) (i : string)
           (f : R -> R) (rows : list R) : list R :=
  map (fun r => if key r =? i then f r else r) rows.

Definition run_update_course_slot (i : string) (u : CourseSlotUpdate.t)
           (w : World) : Reply (list Candidate.t) * World :=
  let t := update_where_id Slot.id i (apply_update u) (course_schedule_slots w) in
  (Data (map Candidate.of_row (filter (fun r => Slot.id r =? i) t)),
   set_course_schedule_slots t w).

Definition inserted_row (r : CourseSlotInsert.t) : Slot.t :=
  Slot.mk (new_id env) (CourseSlotInsert.teacher_id r)
          (CourseSlotInsert.course_id r) (CourseSlotInsert.day_of_week r)
          (CourseSlotInsert.start_time r) (CourseSlotInsert.end_time r)
          (CourseSlotInsert.location r) (CourseSlotInsert.notes r).

Definition run_insert_course_slot (r : CourseSlotInsert.t) (w : World)
  : Reply Candidate.t * World :=
  (Data (Candidate.of_row (inserted_row r)),
   set_course_schedule_slots (course_schedule_slots w ++ [inserted_row r]) w).

(** The body of the [try] block, from the second lookup of the new values
    on: reached when no slot was chosen. *)
Definition create_unless_present (teacherSlot : Slot.t)
           (allCourseSlots : list Candidate.t) : M unit :=
  let existingNew :=
    if (0 <? List.length allCourseSlots)%nat then
      find (exact (Slot.day_of_week teacherSlot) (Slot.start_time teacherSlot)
                  (Slot.end_time teacherSlot)) allCourseSlots
    else None in
  match existingNew with
  | Some _ => ret tt
  | None =>
      _ <- statement InsertCourseSlot
             (insert_course_schedule_slots (courseSlotInsert teacherSlot))
             (run_insert_course_slot (courseSlotInsert teacherSlot)) ;;
      ret tt
  end.

Definition syncTeacherSlotToCourseSlot (teacherSlot : Slot.t)
           (oldValues : option OldValues.t) : M unit :=
  if negb (Js.truthy (Slot.course_id teacherSlot))
     || negb (Js.truthy (Slot.teacher_id teacherSlot))
  then ret tt
  else
    try_catch
      (found <- query SelectCourseSlots
                  (select_course_slots (Slot.course_id teacherSlot)
                                       (Slot.teacher_id teacherSlot)) ;;
       match found with
       | Error findAllError => ret tt
       | Data allCourseSlots =>
           match choose teacherSlot oldValues allCourseSlots with
           | Return => ret tt
           | Go (Some courseSlotToUpdate) =>
               _ <- statement UpdateCourseSlot
                      (update_course_schedule_slots
                         (Candidate.id courseSlotToUpdate)
                         (courseSlotUpdate teacherSlot))
                      (run_update_course_slot
                         (Candidate.id courseSlotToUpdate)
                         (courseSlotUpdate teacherSlot)) ;;
               ret tt
           | Go None => create_unless_present teacherSlot allCourseSlots
           end
       end)
      (fun error => ret tt).

End Handlers.

(** ** The routes *)

(** What a route answers: [res.status(s).json({ message, slot, error })]. *)
Record Response := mkResponse {
  status : nat;
  message : string;
  slot : option Slot.t;
  error : option string
}.

Definition json (s : nat) (m : string) : Response := mkResponse s m None None.

(** [.maybeSingle()]: no row is [null], two rows or more are an error. *)
Definition maybeSingle {R} (rows : list R) : Reply (option R) :=
  match rows with
  | [] => Data None
  | [r] => Data (Some r)
  | _ => Error "JSON object requested, multiple (or no) rows returned"
  end.

(** [.single()]: anything but one row is an error. *)
Definition single {R} (rows : list R) : Reply R :=
  match rows with
  | [r] => Data r
  | _ => Error "JSON object requested, multiple (or no) rows returned"
  end.

(** [if (error) throw error], then the data. *)
Definition or_throw {A} (r : Reply A) : M A :=
  match r with
  | Data a => ret a
  | Error e => throw e
  end.

(** [const { data } = await ...] with the error ignored. *)
Definition data_of {A} (r : Reply (option A)) : option A :=
  match r with
  | Data a => a
  | Error _ => None
  end.

(** [when c m]: [if (c) { m }]. *)
Definition when (c : bool) (m : M unit) : M unit := if c then m else ret tt.

(** The body of a JSON request, per route. *)
Module EditBody.
Record t := mk {
  dayOfWeek : Js.field;
  startTime : Js.field;
  endTime : Js.field;
  courseId : Js.field;
  location : Js.field;
  notes : Js.field
}.
End EditBody.

Module SubmitBody.
Record t := mk {
  slotId : Js.field;
  requestedDayOfWeek : Js.field;
  requestedStartTime : Js.field;
  requestedEndTime : Js.field;
  reason : Js.field
}.
End SubmitBody.

(** [req.user] as the authentication middleware leaves it. *)
Module User.
Record t := mk { id : Js.value; name : Js.value }.
End User.

Section Routes.

Variable env : Env.

(** *** Store statements of the routes *)

Definition select_pending_request (requestId : string) (w : World)
  : Reply (option Request.t) :=
  maybeSingle
    (filter (fun r => (Request.id r =? requestId)
                      && (Request.status r =? "pending"))
            (schedule_change_requests w)).

Definition apply_updates (u : Updates.t) (r : Slot.t) : Slot.t :=
  Slot.mk (Slot.id r) (Slot.teacher_id r)
          (match Updates.course_id u with Some v => v | None => Slot.course_id r end)
          (match Updates.day_of_week u with Some v => Some v | None => Slot.day_of_week r end)
          (match Updates.start_time u with Some v => Some v | None => Slot.start_time r end)
          (match Updates.end_time u with Some v => Some v | None => Slot.end_time r end)
          (match Updates.location u with Some v => v | None => Slot.location r end)
          (match Updates.notes u with Some v => v | None => Slot.notes r end).

(** [.update(u).eq("id", i).select(...).single()] on a teacher slot. *)
Definition run_update_teacher_slot (i : string) (u : Updates.t) (w : World)
  : Reply Slot.t * World :=
  let t := update_where_id Slot.id i (apply_updates u) (teacher_schedule_slots w) in
  (single (filter (fun r => Slot.id r =? i) t), set_teacher_schedule_slots t w).

Definition apply_patch (p : RequestPatch) (r : Request.t) : Request.t :=
  match p with
  | MarkApproved by_ at_ => Request.set_approved by_ at_ r
  | MarkDeclined by_ at_ why => Request.set_declined by_ at_ why r
  end.

Definition run_update_request (i : string) (p : RequestPatch) (w : World)
  : Reply unit * World :=
  (Data tt,
   set_schedule_change_requests
     (update_where_id Request.id i (apply_patch p) (schedule_change_requests w)) w).

Definition run_insert_notifications (rows : list Notification.t) (w : World)
  : Reply unit * World :=
  (Data tt, set_notifications (notifications w ++ rows) w).

Definition select_course (i : Js.value) (w : World) : Reply (option Course.t) :=
  maybeSingle (filter (fun c => sql_eq (Some (Course.id c)) i) (courses w)).

Definition select_enrolled (c : Js.value) (w : World) : Reply (list Js.value) :=
  Data (map Enrollment.student_id
            (filter (fun e => sql_eq (Enrollment.course_id e) c) (course_students w))).

Definition select_teacher_slot (i : string) (w : World) : Reply (option Slot.t) :=
  maybeSingle (filter (fun r => Slot.id r =? i) (teacher_schedule_slots w)).

Definition select_own_teacher_slot (i : string) (teacher : Js.value) (w : World)
  : Reply (option Slot.t) :=
  maybeSingle (filter (fun r => (Slot.id r =? i) && sql_eq (Slot.teacher_id r) teacher)
                      (teacher_schedule_slots w)).

Definition run_insert_request (r : Request.t) (w : World) : Reply Request.t * World :=
  (Data r, set_schedule_change_requests (schedule_change_requests w ++ [r]) w).

(** [.filter(Boolean)] on a list of ids. *)
Fixpoint filter_Boolean (l : list Js.value) : list string :=
  match l with
  | [] => []
  | Some s :: l' => if s =? EmptyString then filter_Boolean l' else s :: filter_Boolean l'
  | None :: l' => filter_Boolean l'
  end.

(** The double quote character, as a string. *)
Definition quote : string := String (Ascii.ascii_of_nat 34) EmptyString.

(** [${d} ${b}-${e}] *)
Definition schedule_text (d b e : Js.value) : string :=
  (Js.show d ++ " " ++ Js.show b ++ "-" ++ Js.show e)%string.

(** *** POST /schedule-change/:requestId/approve *)

Definition approve_updates (request : Request.t) : Updates.t :=
  Updates.mk
    (if Js.truthy (Request.requested_day_of_week request)
     then Request.requested_day_of_week request else None)
    (if Js.truthy (Request.requested_start_time request)
     then Request.requested_start_time request else None)
    (if Js.truthy (Request.requested_end_time request)
     then Request.requested_end_time request else None)
    None None None.

Definition approved_notification (user_id : string) (request : Request.t)
           (text : string) : Notification.t :=
  Notification.mk (Request.teacher_id request) user_id
                  "Schedule Change Approved" text ["in_app"] "custom"
                  (Request.course_id request).

Definition student_notification (user_id : string) (request : Request.t)
           (courseName : Js.value) (oldSchedule newSchedule : string)
           (studentId : string) : Notification.t :=
  Notification.mk studentId user_id "Class Schedule Changed"
    ("Your class " ++ quote ++ Js.show courseName ++ quote
       ++ " schedule has been rescheduled from " ++ oldSchedule ++ " to "
       ++ newSchedule ++ ". Please update your calendar accordingly.")%string
    ["in_app"] "course" (Request.course_id request).

Definition approve_with_changes (requestId user_id : string)
           (request : Request.t) (updates : Updates.t) : M Response :=
  updated <- statement env UpdateTeacherSlot
               (update_teacher_schedule_slots (Request.slot_id request) updates)
               (run_update_teacher_slot (Request.slot_id request) updates) ;;
  updatedSlot <- or_throw updated ;;
  let oldValues :=
    OldValues.mk (Request.current_day_of_week request)
                 (Request.current_start_time request)
                 (Request.current_end_time request) in
  syncTeacherSlotToCourseSlot env updatedSlot (Some oldValues) ;;;
  _ <- statement env UpdateRequest
         (update_schedule_change_requests requestId (MarkApproved user_id (now env)))
         (run_update_request requestId (MarkApproved user_id (now env))) ;;
  courseName <-
    (if Js.truthy (Request.course_id request) then
       found <- query env SelectCourse (select_course (Request.course_id request)) ;;
       match data_of found with
       | Some courseData => ret (Course.name courseData)
       | None => ret (Some "the course")
       end
     else ret (Some "the course")) ;;
  let oldSchedule :=
    schedule_text (Request.current_day_of_week request)
                  (Request.current_start_time request)
                  (Request.current_end_time request) in
  let newSchedule :=
    schedule_text (Slot.day_of_week updatedSlot) (Slot.start_time updatedSlot)
                  (Slot.end_time updatedSlot) in
  let text :=
    ("Your schedule change request has been approved. Your slot has been updated from "
       ++ oldSchedule ++ " to " ++ newSchedule ++ ".")%string in
  _ <- statement env InsertTeacherNotification
         (insert_notifications [approved_notification user_id request text])
         (run_insert_notifications [approved_notification user_id request text]) ;;
  when (Js.truthy (Request.course_id request))
    (enrolled <- query env SelectEnrolled (select_enrolled (Request.course_id request)) ;;
     match enrolled with
     | Data (e :: es) =>
         let studentIds := filter_Boolean (e :: es) in
         let studentNotifications :=
           map (student_notification user_id request courseName oldSchedule newSchedule)
               studentIds in
         _ <- statement env InsertStudentNotifications
                (insert_notifications studentNotifications)
                (run_insert_notifications studentNotifications) ;;
         ret tt
     | _ => ret tt
     end) ;;;
  when (io env)
    (emit "schedule-updated"
          [("teacherId", Some (Request.teacher_id request));
           ("slotId", Some (Request.slot_id request));
           ("courseId", Request.course_id request)] ;;;
     emit "teacher-notifications-refresh"
          [("teacherId", Some (Request.teacher_id request))] ;;;
     emit "admin-notifications-refresh"
          [("type", Some "schedule_change_approved")] ;;;
     when (Js.truthy (Request.course_id request))
       (emit "student-timetable-refresh" [("courseId", Request.course_id request)] ;;;
        emit "student-notifications-refresh" [("courseId", Request.course_id request)])) ;;;
  ret (mkResponse 200 "Schedule change approved and slot updated successfully"
                  (Some updatedSlot) None).

Definition approve_without_changes (requestId user_id : string)
           (request : Request.t) : M Response :=
  _ <- statement env UpdateRequest
         (update_schedule_change_requests requestId (MarkApproved user_id (now env)))
         (run_update_request requestId (MarkApproved user_id (now env))) ;;
  let text := "Your schedule change request has been approved. No changes were needed." in
  _ <- statement env InsertTeacherNotification
         (insert_notifications [approved_notification user_id request text])
         (run_insert_notifications [approved_notification user_id request text]) ;;
  when (io env)
    (emit "teacher-notifications-refresh"
          [("teacherId", Some (Request.teacher_id request))]) ;;;
  ret (json 200 "Schedule change request approved").

Definition approve (requestId user_id : string) : M Response :=
  if negb (supabase env) then ret (json 500 "Supabase client is not configured")
  else
    try_catch
      (found <- query env SelectRequest (select_pending_request requestId) ;;
       request <- or_throw found ;;
       match request with
       | None => ret (json 404 "Schedule change request not found or already processed")
       | Some request =>
           let updates := approve_updates request in
           if Updates.nonempty updates
           then approve_with_changes requestId user_id request updates
           else approve_without_changes requestId user_id request
       end)
      (fun error => ret (mkResponse 500 "Server error" None (Some error))).

(** *** POST /schedule-change/:requestId/decline *)

Definition decline_text (declineReason : Js.value) : string :=
  ("Your schedule change request has been declined."
     ++ (if Js.truthy declineReason then " Reason: " ++ Js.show declineReason else EmptyString))%string.

Definition declined_notification (user_id : string) (request : Request.t)
           (declineReason : Js.value) : Notification.t :=
  Notification.mk (Request.teacher_id request) user_id
                  "Schedule Change Declined" (decline_text declineReason)
                  ["in_app"] "custom" (Request.course_id request).

Definition decline (requestId user_id : string) (declineReason : Js.value)
  : M Response :=
  if negb (supabase env) then ret (json 500 "Supabase client is not configured")
  else
    try_catch
      (found <- query env SelectRequest (select_pending_request requestId) ;;
       request <- or_throw found ;;
       match request with
       | None => ret (json 404 "Schedule change request not found or already processed")
       | Some request =>
           let patch := MarkDeclined user_id (now env) (Js.or_null declineReason) in
           _ <- statement env UpdateRequest
                  (update_schedule_change_requests requestId patch)
                  (run_update_request requestId patch) ;;
           _ <- statement env InsertTeacherNotification
                  (insert_notifications [declined_notification user_id request declineReason])
                  (run_insert_notifications
                     [declined_notification user_id request declineReason]) ;;
           when (io env)
             (emit "teacher-notifications-refresh"
                   [("teacherId", Some (Request.teacher_id request))] ;;;
              emit "admin-notifications-refresh"
                   [("type", Some "schedule_change_declined")]) ;;;
           ret (json 200 "Schedule change request declined")
       end)
      (fun error => ret (mkResponse 500 "Server error" None (Some error))).

(** *** PUT /timetable/teachers/slots/:slotId *)

Definition edit_payload (body : EditBody.t) (existing : Slot.t)
           (courseRow : option Course.t) : Updates.t :=
  Updates.mk
    (Js.field_or_null (EditBody.dayOfWeek body))
    (Js.field_or_null (EditBody.startTime body))
    (Js.field_or_null (EditBody.endTime body))
    (Some match courseRow with
          | Some c => Some (Course.id c)
          | None =>
              match EditBody.courseId body with
              | Js.Str EmptyString => None
              | _ => Slot.course_id existing
              end
          end)
    (Some match EditBody.location body with
          | Js.Undefined => Slot.location existing
          | Js.Null => None
          | Js.Str s => Some s
          end)
    (Some match EditBody.notes body with
          | Js.Undefined => Slot.notes existing
          | Js.Null => None
          | Js.Str s => Some s
          end).

Definition edit_after_lookup (slotId : string) (body : EditBody.t)
           (existing : Slot.t) (courseRow : option Course.t) : M Response :=
  let payload := edit_payload body existing courseRow in
  updated <- statement env UpdateTeacherSlot
               (update_teacher_schedule_slots slotId payload)
               (run_update_teacher_slot slotId payload) ;;
  slotRow <- or_throw updated ;;
  let oldValues :=
    OldValues.mk (Slot.day_of_week existing) (Slot.start_time existing)
                 (Slot.end_time existing) in
  syncTeacherSlotToCourseSlot env slotRow (Some oldValues) ;;;
  when (io env)
    (emit "admin-timetable-refresh"
          [("scope", Some "teacher"); ("teacherId", Slot.teacher_id slotRow);
           ("slotId", Some (Slot.id slotRow)); ("action", Some "update")]) ;;;
  when (Js.truthy (Slot.course_id slotRow) && io env)
    (emit "student-timetable-refresh" [("courseId", Slot.course_id slotRow)]) ;;;
  ret (mkResponse 200 "Slot updated successfully" (Some slotRow) None).

(** The slot of the answer is [mapTeacherTimetableSlot(slotRow)], a
    renaming of the columns of [slotRow]; the row itself stands for it.
    The generic catch of this route answers without an [error] field. *)
Definition edit_teacher_slot (slotId : string) (body : EditBody.t) : M Response :=
  if negb (supabase env) then ret (json 500 "Supabase client is not configured")
  else
    try_catch
      (found <- query env SelectTeacherSlot (select_teacher_slot slotId) ;;
       existing <- or_throw found ;;
       match existing with
       | None => ret (json 404 "Slot not found")
       | Some existing =>
           if Js.field_truthy (EditBody.courseId body) then
             looked <- query env SelectCourse
                         (select_course (Js.field_or_null (EditBody.courseId body))) ;;
             data <- or_throw looked ;;
             match data with
             | None => ret (json 404 "Course not found")
             | Some courseRow => edit_after_lookup slotId body existing (Some courseRow)
             end
           else edit_after_lookup slotId body existing None
       end)
      (fun error => ret (json 500 "Server error")).

(** *** POST /timetable/request-change (teacher routes) *)

Definition requestData (slotId : string) (teacher : string) (slotRow : Slot.t)
           (body : SubmitBody.t) (why : string) : Request.t :=
  Request.mk (new_id env) slotId teacher
             (Js.or_null (Slot.course_id slotRow))
             (Slot.day_of_week slotRow) (Slot.start_time slotRow)
             (Slot.end_time slotRow)
             (Js.field_or_null (SubmitBody.requestedDayOfWeek body))
             (Js.field_or_null (SubmitBody.requestedStartTime body))
             (Js.field_or_null (SubmitBody.requestedEndTime body))
             why "pending" None None None None None.

(** The lookup of the teacher's name in [users] reads a table that no
    statement here writes, and its result is not used afterwards: only
    its outcome matters. *)
Definition select_user_name (w : World) : Reply (option Js.value) := Data None.

Definition request_change (user : option User.t) (body : SubmitBody.t)
  : M Response :=
  try_catch
    (match Js.field_or_null (SubmitBody.slotId body),
           Js.field_or_null (SubmitBody.reason body) with
     | Some slotId, Some why =>
         match user with
         | Some u =>
             match Js.or_null (User.id u) with
             | Some teacher =>
                 found <- query env SelectTeacherSlot
                            (select_own_teacher_slot slotId (User.id u)) ;;
                 slotRow <- or_throw found ;;
                 match slotRow with
                 | None => ret (json 404 "Slot not found or you don't have permission")
                 | Some slotRow =>
                     when (negb (Js.truthy (User.name u)))
                       (_ <- query env SelectUser select_user_name ;; ret tt) ;;;
                     let row := requestData slotId teacher slotRow body why in
                     created <- statement env InsertRequest
                                  (insert_schedule_change_requests row)
                                  (run_insert_request row) ;;
                     _ <- or_throw created ;;
                     when (io env)
                       (emit "admin-notifications-refresh"
                             [("type", Some "schedule_change_request");
                              ("teacherId", User.id u)]) ;;;
                     ret (json 200 "Schedule change request submitted successfully")
                 end
             | None => ret (json 401 "User not authenticated")
             end
         | None => ret (json 401 "User not authenticated")
         end
     | _, _ => ret (json 400 "Slot ID and reason are required")
     end)
    (fun error =>
       ret (mkResponse 500 "Server error" None
                       (if development env then Some error else None))).

End Routes.

(** *** POST /timetable/request-change from its first statement

    [request_change] takes a body whose reason is absent, null or a
    string, and starts at the check of the slot id and the reason. The
    route's first statement, inside its [try], logs the request, and the
    log entry holds [reason?.substring(0, 50)]: on a reason that is
    neither nullish nor a string (a number, a boolean, an array or an
    object of the JSON body) [substring] is undefined, the call throws a
    TypeError before any check, and the [catch] of the route answers it.
    The other entries of the log ([req.user?.id], [req.user?.name] and the
    body's fields as they are) cannot throw. *)

Module Reason.
Inductive t :=
| Plain (f : Js.field)
| NotAString.
End Reason.

(** [req.body] as the JSON parser leaves it. *)
Module Posted.
Record t := mk {
  slotId : Js.field;
  requestedDayOfWeek : Js.field;
  requestedStartTime : Js.field;
  requestedEndTime : Js.field;
  reason : Reason.t
}.
End Posted.

Section Submit.

Variable env : Env.

(** The message of the TypeError raised by the call of an undefined
    [substring]. *)
Variable not_a_function : string.

Definition post_request_change (user : option User.t) (body : Posted.t)
  : M Response :=
  try_catch
    (match Posted.reason body with
     | Reason.NotAString => throw not_a_function
     | Reason.Plain reason =>
         request_change env user
           (SubmitBody.mk (Posted.slotId body) (Posted.requestedDayOfWeek body)
                          (Posted.requestedStartTime body)
                          (Posted.requestedEndTime body) reason)
     end)
    (fun error =>
       ret (mkResponse 500 "Server error" None
                       (if development env then Some error else None))).

End Submit.

(** ** Running a handler *)

Definition candidates (teacherSlot : Slot.t) (w : World) : list Candidate.t :=
  map Candidate.of_row
      (filter (same_pair (Slot.course_id teacherSlot) (Slot.teacher_id teacherSlot))
              (course_schedule_slots w)).

(** The world a computation leaves behind, and what it returns. *)
Definition after {A} (m : M A) (w : World) : World := snd (m w).
Definition result {A} (m : M A) (w : World) : Res A := fst (m w).

(** [m] run [n] times in a row. *)
Fixpoint repeat_run {A} (n : nat) (m : M A) (w : World) : World :=
  match n with
  | O => w
  | S k => repeat_run k m (after m w)
  end.

(** The course-slot table after the update statement of the synchronizer,
    and after its insert statement. *)
Definition after_update (env : Env) (i : string) (u : CourseSlotUpdate.t)
           (w : World) : World :=
  match outcome env UpdateCourseSlot with
  | Succeeds =>
      set_course_schedule_slots
        (update_where_id Slot.id i (apply_update u) (course_schedule_slots w))
        (record (update_course_schedule_slots i u) w)
  | _ => record (update_course_schedule_slots i u) w
  end.

Definition after_insert (env : Env) (r : CourseSlotInsert.t) (w : World) : World :=
  match outcome env InsertCourseSlot with
  | Succeeds =>
      set_course_schedule_slots
        (course_schedule_slots w ++ [inserted_row env r])
        (record (insert_course_schedule_slots r) w)
  | _ => record (insert_course_schedule_slots r) w
  end.

(** The new values of a teacher slot, looked up among the candidates. *)
Definition find_new (teacherSlot : Slot.t) (l : list Candidate.t) : option Candidate.t :=
  find (exact (Slot.day_of_week teacherSlot) (Slot.start_time teacherSlot)
              (Slot.end_time teacherSlot)) l.

Definition find_old (o : OldValues.t) (l : list Candidate.t) : option Candidate.t :=
  find (exact (OldValues.day_of_week o) (OldValues.start_time o)
              (OldValues.end_time o)) l.

(** The request [request] is the pending row of key [requestId]; keys are
    unique, as for a primary key. *)
Definition is_pending (w : World) (requestId : string) (request : Request.t) : Prop :=
  In request (schedule_change_requests w)
  /\ Request.id request = requestId
  /\ Request.status request = "pending"
  /\ NoDup (map Request.id (schedule_change_requests w)).

(** The teacher slot [s] is the row of key [slotId]. *)
Definition is_teacher_slot (w : World) (slotId : string) (s : Slot.t) : Prop :=
  In s (teacher_schedule_slots w)
  /\ Slot.id s = slotId
  /\ NoDup (map Slot.id (teacher_schedule_slots w)).

(** A requested field is present when it is truthy. *)
Definition any_requested (request : Request.t) : bool :=
  Js.truthy (Request.requested_day_of_week request)
  || Js.truthy (Request.requested_start_time request)
  || Js.truthy (Request.requested_end_time request).

(** [w'] has the statements of [w] and possibly more. *)
Definition extends (w w' : World) : Prop := exists ws, issued w' = issued w ++ ws.

(** A computation that only adds to the statements sent. *)
Definition appends {A} (m : M A) : Prop := forall w, extends w (after m w).

(** A computation that does not throw. *)
Definition total {A} (m : M A) : Prop := forall w, exists a, result m w = Val a.

(** A computation that returns [r]. *)
Definition returns {A} (r : A) (m : M A) : Prop := forall w, result m w = Val r.

(** The calls the synchronizer makes to the store. *)
Definition sync_op (op : Op) : bool :=
  match op with
  | SelectCourseSlots | UpdateCourseSlot | InsertCourseSlot => true
  | _ => false
  end.

(** The course lookup of the slot-edit route: it is made when the body
    names a course, and [courseRow] is what it finds. *)
Definition course_lookup (w : World) (body : EditBody.t)
           (courseRow : option Course.t) : Prop :=
  match courseRow with
  | Some c =>
      Js.field_truthy (EditBody.courseId body) = true
      /\ select_course (Js.field_or_null (EditBody.courseId body)) w = Data (Some c)
  | None => Js.field_truthy (EditBody.courseId body) = false
  end.

(** ** Sample data

    A store that never fails, one course [C1] taught by [T1], and a few
    course slots; used to run the handlers on concrete inputs. *)

Module Sample.

Definition env : Env :=
  mkEnv (fun _ => Succeeds) true true "2024-03-01T08:00:00.000Z" "generated-id" false.

Definition slot (i d b e : string) : Slot.t :=
  Slot.mk i (Some "T1") (Some "C1") (Some d) (Some b) (Some e) None None.

Definition world (course_slots : list Slot.t) : World :=
  mkWorld [] [] course_slots [] [] [] [] [].

(** The teacher slot after its move to Wednesday afternoon. *)
Definition moved : Slot.t := slot "S1" "Wednesday" "14:00" "15:00".

Definition monday_early : Slot.t := slot "a" "Monday" "08:00" "09:00".
Definition tuesday : Slot.t := slot "b" "Tuesday" "09:00" "10:00".
Definition wednesday : Slot.t := slot "c" "Wednesday" "14:00" "15:00".

(** A course slot of another teacher of the same course. *)
Definition other_pair : Slot.t :=
  Slot.mk "z" (Some "T2") (Some "C1") (Some "Monday") (Some "08:00")
          (Some "09:00") None None.

Definition old_monday : OldValues.t :=
  OldValues.mk (Some "Monday") (Some "09:00") (Some "10:00").

(** A pending request of teacher [T1] on slot [S1], with the given
    requested day, start and end. *)
Definition request (d b e : Js.value) : Request.t :=
  Request.mk "R1" "S1" "T1" (Some "C1")
             (Some "Tuesday") (Some "10:00") (Some "11:00")
             d b e "room conflict" "pending" None None None None None.

Definition teacher_slot : Slot.t := slot "S1" "Tuesday" "10:00" "11:00".

Definition school (r : Request.t) : World :=
  mkWorld [r] [teacher_slot] [slot "k" "Tuesday" "10:00" "11:00"] []
          [Course.mk "C1" (Some "Algebra")]
          [Enrollment.mk (Some "C1") (Some "P1")] [] [].

(** A store where every call of the synchronizer fails. *)
Definition env_sync_down : Env :=
  mkEnv (fun op => if sync_op op then ReturnsError "unavailable" else Succeeds)
        true true "2024-03-01T08:00:00.000Z" "generated-id" false.

(** A store where the update of a teacher slot fails. *)
Definition env_slot_update_down : Env :=
  mkEnv (fun op => match op with
                   | UpdateTeacherSlot => ReturnsError "unavailable"
                   | _ => Succeeds
                   end)
        true true "2024-03-01T08:00:00.000Z" "generated-id" false.

(** Teacher [T1] asks to move slot [S1] to Wednesday afternoon. *)
Definition teacher : User.t := User.mk (Some "T1") (Some "Ms. Tan").

Definition change_body : SubmitBody.t :=
  SubmitBody.mk (Js.Str "S1") (Js.Str "Wednesday") (Js.Str "14:00")
                (Js.Str "15:00") (Js.Str "room conflict").

Definition before_request : World :=
  mkWorld [] [teacher_slot] [slot "k" "Tuesday" "10:00" "11:00"] []
          [Course.mk "C1" (Some "Algebra")]
          [Enrollment.mk (Some "C1") (Some "P1")] [] [].

End Sample.

(** A computation that leaves the part [f] of the world as it was. *)
Definition preserves {A X} (f : World -> X) (m : M A) : Prop :=
  forall w, f (after m w) = f w.

(** [r] is a course slot of the pair of [ts] that carries its day, start
    and end. *)
Definition mirrors (ts r : Slot.t) : Prop :=
  same_pair (Slot.course_id ts) (Slot.teacher_id ts) r = true
  /\ exact (Slot.day_of_week ts) (Slot.start_time ts) (Slot.end_time ts)
           (Candidate.of_row r) = true.

(** What the approve route computes on its way, read from the tables: the
    name put in the student notifications, the students notified, and the
    two schedule texts. *)
Definition approval_course_name (request : Request.t) (w : World) : Js.value :=
  if Js.truthy (Request.course_id request) then
    match data_of (select_course (Request.course_id request) w) with
    | Some courseData => Course.name courseData
    | None => Some "the course"
    end
  else Some "the course".

Definition enrolled_ids (course : Js.value) (w : World) : list Js.value :=
  map Enrollment.student_id
      (filter (fun e => sql_eq (Enrollment.course_id e) course) (course_students w)).

Definition notified_students (request : Request.t) (w : World) : list string :=
  if Js.truthy (Request.course_id request)
  then filter_Boolean (enrolled_ids (Request.course_id request) w)
  else [].

Definition old_schedule (request : Request.t) : string :=
  schedule_text (Request.current_day_of_week request)
                (Request.current_start_time request)
                (Request.current_end_time request).

Definition new_schedule (updatedSlot : Slot.t) : string :=
  schedule_text (Slot.day_of_week updatedSlot) (Slot.start_time updatedSlot)
                (Slot.end_time updatedSlot).

(** The snapshot of the request, as the approve route hands it to the
    synchronizer. *)
Definition snapshot (request : Request.t) : OldValues.t :=
  OldValues.mk (Request.current_day_of_week request)
               (Request.current_start_time request)
               (Request.current_end_time request).

(** The events of an approval that changed the slot. *)
Definition approval_events (request : Request.t) : list Event.t :=
  [Event.mk "schedule-updated"
     [("teacherId", Some (Request.teacher_id request));
      ("slotId", Some (Request.slot_id request));
      ("courseId", Request.course_id request)];
   Event.mk "teacher-notifications-refresh"
     [("teacherId", Some (Request.teacher_id request))];
   Event.mk "admin-notifications-refresh"
     [("type", Some "schedule_change_approved")]]
  ++ (if Js.truthy (Request.course_id request)
      then [Event.mk "student-timetable-refresh"
              [("courseId", Request.course_id request)];
            Event.mk "student-notifications-refresh"
              [("courseId", Request.course_id request)]]
      else []).

(** Further stores for sample runs. *)
Module Cases.

(** Only the lookup of the request and the update of the teacher slot
    work; every other call replies with an error. *)
Definition env_secondary_down : Env :=
  mkEnv (fun op => match op with
                   | SelectRequest | UpdateTeacherSlot => Succeeds
                   | _ => ReturnsError "unavailable"
                   end)
        true true "2024-03-01T08:00:00.000Z" "generated-id" false.

(** The write of the status of a request is refused. *)
Definition env_status_write_down : Env :=
  mkEnv (fun op => match op with
                   | UpdateRequest => ReturnsError "unavailable"
                   | _ => Succeeds
                   end)
        true true "2024-03-01T08:00:00.000Z" "generated-id" false.

Definition move_to_wednesday : Request.t :=
  Sample.request (Some "Wednesday") (Some "14:00") (Some "15:00").

(** The insert of the teacher's notification throws. *)
Definition env_notification_throws : Env :=
  mkEnv (fun op => match op with
                   | InsertTeacherNotification => Throws "socket hang up"
                   | _ => Succeeds
                   end)
        true true "2024-03-01T08:00:00.000Z" "generated-id" false.

(** The request is there, the slot it names is gone. *)
Definition slot_gone : World :=
  mkWorld [move_to_wednesday] [] [Sample.slot "k" "Tuesday" "10:00" "11:00"] []
          [] [] [] [].

End Cases.

(** The old values the slot-edit route hands to the synchronizer. *)
Definition old_values (existing : Slot.t) : OldValues.t :=
  OldValues.mk (Slot.day_of_week existing) (Slot.start_time existing)
               (Slot.end_time existing).

(** A body that names nothing. *)
Definition empty_body : EditBody.t :=
  EditBody.mk Js.Undefined Js.Undefined Js.Undefined Js.Undefined Js.Undefined
              Js.Undefined.

(** ** More of the two route files *)

(** *** normalizeChannels (admin routes)

    The argument is [None] when it is not an array; an element stands for
    [String(channel)]. Strings are byte strings here: [toLowerCase] maps the
    letters A to Z and leaves every other byte as it is, which is all that
    membership in the allowed set depends on. *)

Definition lower (c : Ascii.ascii) : Ascii.ascii :=
  let n := Ascii.nat_of_ascii c in
  if ((65 <=? n) && (n <=? 90))%nat then Ascii.ascii_of_nat (n + 32) else c.

Fixpoint toLowerCase (s : string) : string :=
  match s with
  | EmptyString => EmptyString
  | String c rest => String (lower c) (toLowerCase rest)
  end.

(** [allowed.has(channel)] for [new Set(["in_app", "email"])] *)
Definition allowed (channel : string) : bool :=
  (channel =? "in_app") || (channel =? "email").

Definition normalizeChannels (channels : option (list string)) : list string :=
  match channels with
  | None => ["in_app"]
  | Some [] => ["in_app"]
  | Some l =>
      match filter allowed (map toLowerCase l) with
      | [] => ["in_app"]
      | filtered => filtered
      end
  end.

(** *** ensureCourseOwnership (teacher routes)

    The table of courses with the column [teacher_id], which the rows of
    [courses] above leave out, is an argument, as are the outcomes of the
    two lookups. *)

Module OwnedCourse.
Record t := mk { id : string; name : Js.value; teacher_id : Js.value }.
End OwnedCourse.

(** [{ course }] or [{ course: null, error: { status, message } }] *)
Inductive Ownership :=
| Owned (course : OwnedCourse.t)
| Refused (status : nat) (message : string).

Definition lookup {R} (o : Outcome) (rows : list R) : Res (option R) :=
  match o with
  | Succeeds =>
      match maybeSingle rows with
      | Data r => Val r
      | Error e => Exn e
      end
  | ReturnsError e => Exn e
  | Throws e => Exn e
  end.

Definition ensureCourseOwnership (first second : Outcome)
           (table : list OwnedCourse.t) (teacherId courseId : Js.value)
  : Res Ownership :=
  match lookup first
          (filter (fun c => sql_eq (Some (OwnedCourse.id c)) courseId
                            && sql_eq (OwnedCourse.teacher_id c) teacherId) table) with
  | Exn e => Exn e
  | Val (Some data) => Val (Owned data)
  | Val None =>
      match lookup second
              (filter (fun c => sql_eq (Some (OwnedCourse.id c)) courseId) table) with
      | Exn e => Exn e
      | Val None => Val (Refused 404 "Course not found")
      | Val (Some _) => Val (Refused 403 "You do not manage this course")
      end
  end.

(** *** GET /schedule-change-requests (admin routes)

    The rows of [users] are an argument, the route only reads them. The
    column [created_at] is not part of the request rows above: the order it
    gives to the pending rows is the argument [newest_first], and the
    [createdAt] of an entry is left out. The three reads are named by the
    table they read. *)

Module Account.
Record t := mk { id : string; name : Js.value; email : Js.value; role : Js.value }.
End Account.

Module TeacherRef.
Record t := mk { id : string; name : Js.value; email : Js.value }.
End TeacherRef.

Module CourseRef.
Record t := mk { id : string; name : Js.value }.
End CourseRef.

Module SlotTimes.
Record t := mk { dayOfWeek : Js.value; startTime : Js.value; endTime : Js.value }.
End SlotTimes.

(** An entry of the answer. *)
Module Listed.
Record t := mk {
  id : string;
  notificationId : string;
  slotId : string;
  teacher : option TeacherRef.t;
  course : option CourseRef.t;
  currentSlot : SlotTimes.t;
  requestedSlot : SlotTimes.t;
  reason : string;
  status : string
}.
End Listed.

(** [res.json({ requests })], or the answer of the catch block. *)
Inductive Listing :=
| Requests (requests : list Listed.t)
| Failure (status : nat) (message : string) (error : option string).

(** [a || b] *)
Definition or_else (a b : Js.value) : Js.value := if Js.truthy a then a else b.

(** [map.get(key)] after [rows.forEach(r => map.set(r.id, r))]: the last
    row set under the key. *)
Definition map_get {R} (key : R -> string) (rows : list R) (k : string) : option R :=
  find (fun r => key r =? k) (rev rows).

(** [[...new Set(ids)]]: the first occurrence of each id, in order. *)
Fixpoint unique (seen ids : list string) : list string :=
  match ids with
  | [] => []
  | i :: rest =>
      if existsb (String.eqb i) seen then unique seen rest
      else i :: unique (i :: seen) rest
  end.

(** [[...new Set(ids.filter(Boolean))]] *)
Definition distinct (ids : list Js.value) : list string :=
  unique [] (filter_Boolean ids).

Definition mappedRequest (teachers : list Account.t) (found : list Course.t)
           (request : Request.t) : Listed.t :=
  Listed.mk (Request.id request) (Request.id request) (Request.slot_id request)
    match map_get Account.id teachers (Request.teacher_id request) with
    | Some t => Some (TeacherRef.mk (Account.id t) (Account.name t) (Account.email t))
    | None => None
    end
    (if Js.truthy (Request.course_id request) then
       match map_get Course.id found (Js.show (Request.course_id request)) with
       | Some c => Some (CourseRef.mk (Course.id c) (Course.name c))
       | None => None
       end
     else None)
    (SlotTimes.mk (Request.current_day_of_week request)
                  (Request.current_start_time request)
                  (Request.current_end_time request))
    (SlotTimes.mk
       (or_else (Request.requested_day_of_week request)
                (Request.current_day_of_week request))
       (or_else (Request.requested_start_time request)
                (Request.current_start_time request))
       (or_else (Request.requested_end_time request)
                (Request.current_end_time request)))
    (Request.reason request) (Request.status request).

Definition is_pending_row (r : Request.t) : bool := Request.status r =? "pending".

Section Listing.

Variable env : Env.
Variable users : list Account.t.
Variable newest_first : list Request.t -> list Request.t.

(** [.eq("status", "pending").order("created_at", { ascending: false })] *)
Definition select_pending (w : World) : Reply (list Request.t) :=
  Data (newest_first (filter is_pending_row (schedule_change_requests w))).

(** [.from("users").select(...).in("id", ids)] *)
Definition select_users_in (ids : list string) (w : World) : Reply (list Account.t) :=
  Data (filter (fun u => existsb (String.eqb (Account.id u)) ids) users).

Definition select_courses_in (ids : list string) (w : World) : Reply (list Course.t) :=
  Data (filter (fun c => existsb (String.eqb (Course.id c)) ids) (courses w)).

(** The rows a lookup contributes to its map: none when it is skipped or
    replies with an error. *)
Definition fetched {R} (op : Op) (ids : list string)
           (q : list string -> World -> Reply (list R)) : M (list R) :=
  if (0 <? List.length ids)%nat then
    found <- query env op (q ids) ;;
    match found with
    | Data rows => ret rows
    | Error _ => ret []
    end
  else ret [].

Definition list_schedule_change_requests : M Listing :=
  if negb (supabase env) then ret (Failure 500 "Supabase client is not configured" None)
  else
    try_catch
      (found <- query env SelectRequest select_pending ;;
       requests <- or_throw found ;;
       match requests with
       | [] => ret (Requests [])
       | _ =>
           let teacherIds :=
             distinct (map (fun r => Some (Request.teacher_id r)) requests) in
           let courseIds := distinct (map Request.course_id requests) in
           teachers <- fetched SelectUser teacherIds select_users_in ;;
           found <- fetched SelectCourse courseIds select_courses_in ;;
           ret (Requests (map (mappedRequest teachers found) requests))
       end)
      (fun error => ret (Failure 500 "Server error" (Some error))).

End Listing.

(** * Properties *)

(** ** Generic facts *)


Lemma find_some_of_exists {A} (f : A -> bool) (l : list A) :
  (exists x, In x l /\ f x = true) -> exists y, find f l = Some y.
Proof.
  intros [x [Hx Hf]]. destruct (find f l) eqn:E; [eauto|].
  rewrite (find_none f l E x Hx) in Hf. discriminate.
Qed.

(** ** What one run of the synchronizer does *)

Lemma sync_skipped env ts old w :
  Js.truthy (Slot.course_id ts) = false \/ Js.truthy (Slot.teacher_id ts) = false
  \/ outcome env SelectCourseSlots <> Succeeds ->
  syncTeacherSlotToCourseSlot env ts old w = (Val tt, w).
Proof.
  intros H. unfold syncTeacherSlotToCourseSlot.
  destruct (Js.truthy (Slot.course_id ts)); simpl; [|reflexivity].
  destruct (Js.truthy (Slot.teacher_id ts)); simpl; [|reflexivity].
  unfold try_catch, bind, query.
  destruct (outcome env SelectCourseSlots); try reflexivity.
  destruct H as [H|[H|H]]; try discriminate. congruence.
Qed.

Lemma sync_run env ts old w :
  Js.truthy (Slot.course_id ts) = true ->
  Js.truthy (Slot.teacher_id ts) = true ->
  outcome env SelectCourseSlots = Succeeds ->
  syncTeacherSlotToCourseSlot env ts old w =
  (Val tt,
   match choose ts old (candidates ts w) with
   | Return => w
   | Go (Some c) => after_update env (Candidate.id c) (courseSlotUpdate ts) w
   | Go None =>
       match find_new ts (candidates ts w) with
       | Some _ => w
       | None => after_insert env (courseSlotInsert ts) w
       end
   end).
Proof.
  intros Hc Ht Hf. unfold syncTeacherSlotToCourseSlot.
  rewrite Hc, Ht. simpl. unfold try_catch, bind, query. rewrite Hf.
  unfold select_course_slots. fold (candidates ts w).
  destruct (choose ts old (candidates ts w)) as [|[c|]].
  - reflexivity.
  - unfold statement, after_update, ret.
    destruct (outcome env UpdateCourseSlot); reflexivity.
  - unfold create_unless_present, find_new.
    destruct (candidates ts w) as [|c l]; simpl.
    + unfold bind, statement, after_insert, ret.
      destruct (outcome env InsertCourseSlot); reflexivity.
    + destruct (exact _ _ _ c); [reflexivity|].
      destruct (find _ l); [reflexivity|].
      unfold bind, statement, after_insert, ret.
      destruct (outcome env InsertCourseSlot); reflexivity.
Qed.

(** ** The choice of the slot to update *)

Lemma choose_complete ts o l :
  complete (Some o) = true -> choose ts (Some o) l = strategy_old o l.
Proof. intros H. unfold choose. now rewrite H. Qed.

Lemma choose_incomplete ts old l :
  complete old = false -> choose ts old l = strategy_new ts l.
Proof. intros H. unfold choose. destruct old; [now rewrite H|reflexivity]. Qed.

(** With two candidates or more and no exact match of the old values, no
    slot is chosen, whatever the days of the candidates. *)
Lemma strategy_old_many o l :
  2 <= List.length l -> find_old o l = None -> strategy_old o l = Go None.
Proof.
  intros Hl Hf. unfold strategy_old. fold (find_old o l). rewrite Hf.
  destruct l as [|a [|b l]]; simpl in Hl; try lia.
  change (List.length (a :: b :: l)) with (S (S (List.length l))).
  cbn [Nat.ltb Nat.leb Nat.eqb].
  now destruct (find (same_day (OldValues.day_of_week o)) (a :: b :: l)).
Qed.

(** A sole candidate that is not an exact match is chosen, by its day or
    as the last resort. *)
Lemma strategy_old_single o c :
  exact (OldValues.day_of_week o) (OldValues.start_time o) (OldValues.end_time o) c = false ->
  strategy_old o [c] = Go (Some c).
Proof.
  intros He. unfold strategy_old. simpl. rewrite He.
  now destruct (same_day _ c).
Qed.

Lemma strategy_new_present ts l c :
  find_new ts l = Some c -> strategy_new ts l = Return.
Proof.
  intros H. unfold strategy_new. fold (find_new ts l). rewrite H.
  destruct l; [discriminate|reflexivity].
Qed.

Lemma chosen_is_candidate ts old l c :
  choose ts old l = Go (Some c) -> In c l.
Proof.
  assert (Hnth : forall c', nth_error l 0 = Some c' -> In c' l).
  { intros c' H. destruct l; [discriminate|]. injection H as ->. now left. }
  assert (Hnew : strategy_new ts l = Go (Some c) -> In c l).
  { unfold strategy_new. destruct (0 <? List.length l)%nat; [|discriminate].
    destruct (find _ l); [discriminate|].
    destruct (List.length l =? 1)%nat; [|discriminate].
    intros H. apply Hnth. congruence. }
  unfold choose. destruct old as [o|]; [|exact Hnew].
  destruct (complete (Some o)); [|exact Hnew].
  unfold strategy_old. destruct (0 <? List.length l)%nat; [|discriminate].
  destruct (find (exact _ _ _) l) eqn:E1.
  - intros H. injection H as <-. exact (proj1 (find_some _ _ E1)).
  - destruct (find (same_day _) l) eqn:E2;
      (destruct (List.length l =? 1)%nat; [|discriminate]); intros H.
    + injection H as <-. exact (proj1 (find_some _ _ E2)).
    + apply Hnth. congruence.
Qed.

(** ** C1: two candidates or more, none matching the old snapshot *)




(** ** C2: a candidate on the old day *)

(** C2, as amended. In the update-intent path, when the candidate on the
    old day (not an exact match) is the only candidate fetched, it is the
    slot updated, with the new values; when two or more candidates are
    fetched and none matches the old snapshot exactly, no update is sent,
    whether or not one of them is on the old day. *)
Theorem sync_day_match_only_when_sole env ts o w :
  Js.truthy (Slot.course_id ts) = true ->
  Js.truthy (Slot.teacher_id ts) = true ->
  outcome env SelectCourseSlots = Succeeds ->
  complete (Some o) = true ->
  find_old o (candidates ts w) = None ->
  let w' := after (syncTeacherSlotToCourseSlot env ts (Some o)) w in
  (forall c,
     candidates ts w = [c] ->
     same_day (OldValues.day_of_week o) c = true ->
     issued w' =
       issued w ++ [update_course_schedule_slots (Candidate.id c) (courseSlotUpdate ts)]
     /\ (outcome env UpdateCourseSlot = Succeeds ->
         course_schedule_slots w' =
           update_where_id Slot.id (Candidate.id c)
                           (apply_update (courseSlotUpdate ts))
                           (course_schedule_slots w)))
  /\ (2 <= List.length (candidates ts w) ->
      forall i u,
        In (update_course_schedule_slots i u) (issued w') ->
        In (update_course_schedule_slots i u) (issued w)).
Proof.
  intros Hc Ht Hf Ho Hex w'. subst w'. unfold after.
  rewrite (sync_run env ts (Some o) w Hc Ht Hf).
  rewrite (choose_complete ts o _ Ho). split.
  - intros c Hl _. rewrite Hl in *.
    assert (He : exact (OldValues.day_of_week o) (OldValues.start_time o)
                       (OldValues.end_time o) c = false).
    { apply (find_none _ _ Hex). now left. }
    rewrite (strategy_old_single o c He). simpl. unfold after_update.
    split.
    + now destruct (outcome env UpdateCourseSlot).
    + now intros ->.
  - intros Hl i u. rewrite (strategy_old_many o _ Hl Hex). simpl.
    destruct (find_new ts (candidates ts w)); [trivial|].
    unfold after_insert.
    destruct (outcome env InsertCourseSlot); simpl; intros H;
      apply in_app_or in H; destruct H as [H|[H|[]]]; trivial; discriminate.
Qed.

Lemma sync_day_match_only_when_sole_witness :
  let w := Sample.world [Sample.monday_early; Sample.other_pair] in
  let w' := after (syncTeacherSlotToCourseSlot Sample.env Sample.moved
                     (Some Sample.old_monday)) w in
  issued w' = [update_course_schedule_slots "a" (courseSlotUpdate Sample.moved)]
  /\ course_schedule_slots w' =
       [Sample.slot "a" "Wednesday" "14:00" "15:00"; Sample.other_pair].
Proof.
  pose proof (sync_day_match_only_when_sole Sample.env Sample.moved
                Sample.old_monday
                (Sample.world [Sample.monday_early; Sample.other_pair])
                eq_refl eq_refl eq_refl eq_refl eq_refl) as [H _].
  destruct (H (Candidate.of_row Sample.monday_early) eq_refl eq_refl) as [H1 H2].
  split; [exact H1 | exact (H2 eq_refl)].
Defined.

(** C2, as the claim states it, fails: the candidates are Monday
    08:00-09:00 and Tuesday 09:00-10:00 and the old snapshot is Monday
    09:00-10:00. No candidate matches exactly, exactly one (the first) is on
    the old day, and the synchronizer does not update it: it inserts a new
    row and leaves the Monday slot as it was. *)
Lemma sync_day_match_ignored_with_two_candidates :
  let w := Sample.world [Sample.monday_early; Sample.tuesday] in
  let w' := after (syncTeacherSlotToCourseSlot Sample.env Sample.moved
                     (Some Sample.old_monday)) w in
  complete (Some Sample.old_monday) = true
  /\ find_old Sample.old_monday (candidates Sample.moved w) = None
  /\ filter (same_day (OldValues.day_of_week Sample.old_monday))
            (candidates Sample.moved w)
     = [Candidate.of_row Sample.monday_early]
  /\ issued w' = [insert_course_schedule_slots (courseSlotInsert Sample.moved)]
  /\ course_schedule_slots w' =
       [Sample.monday_early; Sample.tuesday;
        Sample.slot "generated-id" "Wednesday" "14:00" "15:00"]
  /\ ~ In (update_course_schedule_slots "a" (courseSlotUpdate Sample.moved))
          (issued w').
Proof.
  repeat split; try reflexivity.
  intros [H|[]]. discriminate.
Qed.

(** ** C6: create intent, new values already present *)

Lemma sync_present_is_noop env ts old w :
  complete old = false ->
  (exists r, In r (course_schedule_slots w)
             /\ same_pair (Slot.course_id ts) (Slot.teacher_id ts) r = true
             /\ exact (Slot.day_of_week ts) (Slot.start_time ts) (Slot.end_time ts)
                      (Candidate.of_row r) = true) ->
  syncTeacherSlotToCourseSlot env ts old w = (Val tt, w).
Proof.
  intros Ho [r [Hin [Hp He]]].
  destruct (Js.truthy (Slot.course_id ts)) eqn:Hc;
    [|apply sync_skipped; now left].
  destruct (Js.truthy (Slot.teacher_id ts)) eqn:Ht;
    [|apply sync_skipped; right; now left].
  destruct (outcome env SelectCourseSlots) eqn:Hf;
    try (apply sync_skipped; right; right; congruence).
  rewrite (sync_run env ts old w Hc Ht Hf).
  destruct (find_some_of_exists
              (exact (Slot.day_of_week ts) (Slot.start_time ts) (Slot.end_time ts))
              (candidates ts w)) as [c Hfind].
  { exists (Candidate.of_row r). split; [|exact He].
    unfold candidates. apply in_map. apply filter_In. now split. }
  rewrite (choose_incomplete ts old _ Ho).
  now rewrite (strategy_new_present ts _ _ Hfind).
Qed.

(** C6. When some course slot of the pair carries exactly the new day, start
    and end of the teacher slot, running the synchronizer without an old
    snapshot, any number of times, leaves the whole store as it was: no
    statement is sent, no row is updated, no row is inserted. *)
Theorem sync_create_intent_idempotent env ts w n :
  (exists r, In r (course_schedule_slots w)
             /\ same_pair (Slot.course_id ts) (Slot.teacher_id ts) r = true
             /\ exact (Slot.day_of_week ts) (Slot.start_time ts) (Slot.end_time ts)
                      (Candidate.of_row r) = true) ->
  repeat_run n (syncTeacherSlotToCourseSlot env ts None) w = w.
Proof.
  intros H. induction n as [|n IH]; simpl; [reflexivity|].
  unfold after. now rewrite (sync_present_is_noop env ts None w eq_refl H).
Qed.

Lemma sync_create_intent_idempotent_witness :
  let w := Sample.world [Sample.monday_early; Sample.wednesday] in
  repeat_run 3 (syncTeacherSlotToCourseSlot Sample.env Sample.moved None) w = w.
Proof.
  apply (sync_create_intent_idempotent Sample.env Sample.moved
           (Sample.world [Sample.monday_early; Sample.wednesday]) 3).
  exists Sample.wednesday. split; [right; now left|]. split; reflexivity.
Defined.

(** ** C7: the sole candidate *)

(** C7. With a complete old snapshot and exactly one candidate fetched for
    the pair, matching the old snapshot neither exactly nor by day, the
    synchronizer sends one statement, the update of that candidate with the
    new day, start, end, location and notes (an empty location or note is
    written as null), and no insert; when the store runs the update, the
    table is the old one with that row rewritten. *)
Theorem sync_sole_candidate_updated env ts o w c :
  Js.truthy (Slot.course_id ts) = true ->
  Js.truthy (Slot.teacher_id ts) = true ->
  outcome env SelectCourseSlots = Succeeds ->
  complete (Some o) = true ->
  candidates ts w = [c] ->
  exact (OldValues.day_of_week o) (OldValues.start_time o) (OldValues.end_time o) c = false ->
  same_day (OldValues.day_of_week o) c = false ->
  let w' := after (syncTeacherSlotToCourseSlot env ts (Some o)) w in
  issued w' =
    issued w ++ [update_course_schedule_slots (Candidate.id c)
                   (CourseSlotUpdate.mk (Slot.day_of_week ts) (Slot.start_time ts)
                      (Slot.end_time ts) (Js.or_null (Slot.location ts))
                      (Js.or_null (Slot.notes ts)))]
  /\ List.length (course_schedule_slots w') = List.length (course_schedule_slots w)
  /\ (outcome env UpdateCourseSlot = Succeeds ->
      course_schedule_slots w' =
        map (fun r =>
               if Slot.id r =? Candidate.id c
               then Slot.mk (Slot.id r) (Slot.teacher_id r) (Slot.course_id r)
                            (Slot.day_of_week ts) (Slot.start_time ts)
                            (Slot.end_time ts) (Js.or_null (Slot.location ts))
                            (Js.or_null (Slot.notes ts))
               else r)
            (course_schedule_slots w)).
Proof.
  intros Hc Ht Hf Ho Hl He _ w'. subst w'. unfold after.
  rewrite (sync_run env ts (Some o) w Hc Ht Hf).
  rewrite (choose_complete ts o _ Ho), Hl, (strategy_old_single o c He).
  simpl. unfold after_update.
  destruct (outcome env UpdateCourseSlot); simpl; repeat split;
    try reflexivity; try discriminate;
    unfold update_where_id; now rewrite length_map.
Qed.

Lemma sync_sole_candidate_updated_witness :
  let w := Sample.world [Sample.tuesday; Sample.other_pair] in
  let w' := after (syncTeacherSlotToCourseSlot Sample.env Sample.moved
                     (Some Sample.old_monday)) w in
  issued w' =
    [update_course_schedule_slots "b"
       (CourseSlotUpdate.mk (Some "Wednesday") (Some "14:00") (Some "15:00") None None)]
  /\ course_schedule_slots w' =
       [Sample.slot "b" "Wednesday" "14:00" "15:00"; Sample.other_pair].
Proof.
  destruct (sync_sole_candidate_updated Sample.env Sample.moved Sample.old_monday
              (Sample.world [Sample.tuesday; Sample.other_pair])
              (Candidate.of_row Sample.tuesday)
              eq_refl eq_refl eq_refl eq_refl eq_refl eq_refl eq_refl)
    as [H1 [_ H2]].
  split; [exact H1 | exact (H2 eq_refl)].
Defined.

(** ** C10: the shape of the writes of the synchronizer *)

Lemma sync_outcomes env ts old w :
  let w' := after (syncTeacherSlotToCourseSlot env ts old) w in
  w' = w
  \/ (exists c, In c (candidates ts w)
                /\ w' = after_update env (Candidate.id c) (courseSlotUpdate ts) w)
  \/ w' = after_insert env (courseSlotInsert ts) w.
Proof.
  unfold after.
  destruct (Js.truthy (Slot.course_id ts)) eqn:Hc;
    [|left; rewrite sync_skipped; [reflexivity|now left]].
  destruct (Js.truthy (Slot.teacher_id ts)) eqn:Ht;
    [|left; rewrite sync_skipped; [reflexivity|right; now left]].
  destruct (outcome env SelectCourseSlots) eqn:Hf;
    try (left; rewrite sync_skipped; [reflexivity|right; right; congruence]).
  rewrite (sync_run env ts old w Hc Ht Hf). simpl.
  destruct (choose ts old (candidates ts w)) as [|[c|]] eqn:E.
  - now left.
  - right; left. exists c. split; [|reflexivity].
    exact (chosen_is_candidate ts old _ _ E).
  - destruct (find_new ts (candidates ts w)); [now left|now right; right].
Qed.

Lemma NoDup_map_eq {A B} (f : A -> B) (l : list A) (a b : A) :
  NoDup (map f l) -> In a l -> In b l -> f a = f b -> a = b.
Proof.
  induction l as [|x l IH]; simpl; intros Hn Ha Hb Hf; [contradiction|].
  inversion Hn as [|? ? Hx Hl]; subst.
  destruct Ha as [->|Ha], Hb as [->|Hb]; trivial.
  - exfalso. apply Hx. rewrite Hf. now apply in_map.
  - exfalso. apply Hx. rewrite <- Hf. now apply in_map.
  - now apply IH.
Qed.

Lemma candidate_has_row ts w c :
  In c (candidates ts w) ->
  exists r, In r (course_schedule_slots w)
            /\ same_pair (Slot.course_id ts) (Slot.teacher_id ts) r = true
            /\ Slot.id r = Candidate.id c.
Proof.
  unfold candidates. intros H. apply in_map_iff in H as [r [<- H]].
  apply filter_In in H as [H1 H2]. now exists r.
Qed.

(** C10. Whatever its arguments and whatever the store answers, one run of
    the synchronizer sends at most one write statement: the update of one
    of the candidates fetched for the pair, or one insert for the pair,
    both carrying the new day, start and end of the teacher slot and its
    location and notes (null when absent or empty). No row leaves the
    table: every position keeps its row, unchanged or rewritten with these
    values, and a position added holds the inserted row. With unique row
    keys, the rows of other (course, teacher) pairs are unchanged. *)
Theorem sync_write_shape env ts old w :
  let w' := after (syncTeacherSlotToCourseSlot env ts old) w in
  exists ws,
    issued w' = issued w ++ ws
    /\ List.length ws <= 1
    /\ (forall s, In s ws ->
          (exists c, In c (candidates ts w)
             /\ s = update_course_schedule_slots (Candidate.id c)
                      (CourseSlotUpdate.mk (Slot.day_of_week ts) (Slot.start_time ts)
                         (Slot.end_time ts) (Js.or_null (Slot.location ts))
                         (Js.or_null (Slot.notes ts))))
          \/ s = insert_course_schedule_slots
                   (CourseSlotInsert.mk (Slot.course_id ts) (Slot.teacher_id ts)
                      (Slot.day_of_week ts) (Slot.start_time ts) (Slot.end_time ts)
                      (Js.or_null (Slot.location ts)) (Js.or_null (Slot.notes ts))))
    /\ (forall n r,
          nth_error (course_schedule_slots w) n = Some r ->
          nth_error (course_schedule_slots w') n = Some r
          \/ nth_error (course_schedule_slots w') n =
               Some (Slot.mk (Slot.id r) (Slot.teacher_id r) (Slot.course_id r)
                       (Slot.day_of_week ts) (Slot.start_time ts) (Slot.end_time ts)
                       (Js.or_null (Slot.location ts)) (Js.or_null (Slot.notes ts))))
    /\ (forall n r',
          List.length (course_schedule_slots w) <= n ->
          nth_error (course_schedule_slots w') n = Some r' ->
          r' = Slot.mk (new_id env) (Slot.teacher_id ts) (Slot.course_id ts)
                 (Slot.day_of_week ts) (Slot.start_time ts) (Slot.end_time ts)
                 (Js.or_null (Slot.location ts)) (Js.or_null (Slot.notes ts)))
    /\ (NoDup (map Slot.id (course_schedule_slots w)) ->
        forall n r,
          nth_error (course_schedule_slots w) n = Some r ->
          same_pair (Slot.course_id ts) (Slot.teacher_id ts) r = false ->
          nth_error (course_schedule_slots w') n = Some r).
Proof.
  intros w'. subst w'.
  destruct (sync_outcomes env ts old w) as [E|[[c [Hc E]]|E]]; rewrite E; clear E.
  - exists []. rewrite app_nil_r. repeat split; simpl; auto.
    + intros s [].
    + intros n r' Hn H. apply nth_error_None in Hn. congruence.
  - exists [update_course_schedule_slots (Candidate.id c) (courseSlotUpdate ts)].
    assert (Hstay : forall n r,
               nth_error (course_schedule_slots w) n = Some r ->
               nth_error (update_where_id Slot.id (Candidate.id c)
                            (apply_update (courseSlotUpdate ts))
                            (course_schedule_slots w)) n
               = Some (if Slot.id r =? Candidate.id c
                       then apply_update (courseSlotUpdate ts) r else r)).
    { intros n r H. unfold update_where_id. rewrite nth_error_map, H. reflexivity. }
    unfold after_update.
    split; [now destruct (outcome env UpdateCourseSlot)|].
    split; [simpl; lia|].
    split; [intros s [<-|[]]; left; exists c; now split|].
    split; [|split].
    + intros n r H.
      destruct (outcome env UpdateCourseSlot); simpl; auto.
      rewrite (Hstay n r H). destruct (Slot.id r =? Candidate.id c); auto.
    + intros n r' Hn H. exfalso.
      assert (nth_error (course_schedule_slots w) n = None) as Hnone
          by now apply nth_error_None.
      destruct (outcome env UpdateCourseSlot); simpl in H; try congruence.
      unfold update_where_id in H. rewrite nth_error_map, Hnone in H. discriminate.
    + intros Hnd n r H Hp.
      destruct (outcome env UpdateCourseSlot); simpl; auto.
      rewrite (Hstay n r H).
      destruct (String.eqb_spec (Slot.id r) (Candidate.id c)) as [Heq|]; auto.
      exfalso. destruct (candidate_has_row ts w c Hc) as [r0 [Hin [Hp0 Hid]]].
      assert (r = r0).
      { apply (NoDup_map_eq Slot.id (course_schedule_slots w)); trivial.
        - exact (nth_error_In _ _ H).
        - congruence. }
      subst r0. congruence.
  - exists [insert_course_schedule_slots (courseSlotInsert ts)].
    unfold after_insert.
    split; [now destruct (outcome env InsertCourseSlot)|].
    split; [simpl; lia|].
    split; [intros s [<-|[]]; now right|].
    assert (Hkeep : forall n r,
               nth_error (course_schedule_slots w) n = Some r ->
               nth_error (course_schedule_slots w
                            ++ [inserted_row env (courseSlotInsert ts)]) n = Some r).
    { intros n r H. rewrite nth_error_app1; trivial.
      apply nth_error_Some. congruence. }
    split; [|split].
    + intros n r H. left.
      destruct (outcome env InsertCourseSlot); simpl; auto.
    + intros n r' Hn H.
      assert (nth_error (course_schedule_slots w) n = None) as Hnone
          by now apply nth_error_None.
      destruct (outcome env InsertCourseSlot); simpl in H; try congruence.
      rewrite nth_error_app2 in H by exact Hn.
      destruct (n - List.length (course_schedule_slots w)) as [|k]; simpl in H.
      * now injection H as <-.
      * destruct k; discriminate.
    + intros _ n r H _.
      destruct (outcome env InsertCourseSlot); simpl; auto.
Qed.

Lemma sync_write_shape_witness :
  let w := Sample.world [Sample.tuesday; Sample.other_pair] in
  let w' := after (syncTeacherSlotToCourseSlot Sample.env Sample.moved
                     (Some Sample.old_monday)) w in
  nth_error (course_schedule_slots w') 1 = Some Sample.other_pair.
Proof.
  destruct (sync_write_shape Sample.env Sample.moved (Some Sample.old_monday)
              (Sample.world [Sample.tuesday; Sample.other_pair]))
    as [ws [_ [_ [_ [_ [_ H]]]]]].
  apply H.
  - simpl. repeat constructor; simpl; intuition discriminate.
  - reflexivity.
  - reflexivity.
Defined.

(** ** Lookups by key *)

Lemma filter_none {A} (p : A -> bool) (l : list A) :
  (forall x, In x l -> p x = false) -> filter p l = [].
Proof.
  induction l as [|a l IH]; intros H; simpl; [reflexivity|].
  rewrite (H a (or_introl eq_refl)). apply IH. intros x Hx. apply H. now right.
Qed.

Lemma filter_unique {A} (key : A -> string) (p : A -> bool) (l : list A) (r : A) :
  NoDup (map key l) -> In r l -> p r = true ->
  (forall x, In x l -> p x = true -> key x = key r) ->
  filter p l = [r].
Proof.
  induction l as [|a l IH]; simpl; intros Hn Hin Hp Hk; [contradiction|].
  inversion Hn as [|? ? Ha Hl]; subst.
  destruct Hin as [->|Hin].
  - rewrite Hp. f_equal. apply filter_none. intros x Hx.
    destruct (p x) eqn:E; [|reflexivity]. exfalso. apply Ha.
    rewrite <- (Hk x (or_intror Hx) E). now apply in_map.
  - destruct (p a) eqn:E.
    + exfalso. apply Ha. rewrite (Hk a (or_introl eq_refl) E). now apply in_map.
    + apply IH; auto.
Qed.

Lemma filter_update_where_id {R} (key : R -> string) (i : string) (f : R -> R)
      (l : list R) :
  (forall r, key (f r) = key r) ->
  filter (fun r => key r =? i) (update_where_id key i f l)
  = map f (filter (fun r => key r =? i) l).
Proof.
  intros Hf. induction l as [|a l IH]; simpl; [reflexivity|].
  destruct (key a =? i) eqn:E; simpl.
  - rewrite Hf, E. simpl. now f_equal.
  - now rewrite E.
Qed.

Lemma select_pending_found w requestId request :
  is_pending w requestId request ->
  select_pending_request requestId w = Data (Some request).
Proof.
  intros [Hin [Hid [Hst Hn]]]. unfold select_pending_request.
  rewrite (filter_unique Request.id _ (schedule_change_requests w) request Hn Hin).
  - reflexivity.
  - rewrite Hid, Hst, String.eqb_refl. reflexivity.
  - intros x _ Hx. apply andb_prop in Hx as [Hx _].
    apply String.eqb_eq in Hx. congruence.
Qed.

Lemma select_pending_processed w requestId :
  (forall r, In r (schedule_change_requests w) -> Request.id r = requestId ->
             Request.status r = "approved" \/ Request.status r = "declined") ->
  select_pending_request requestId w = Data None.
Proof.
  intros H. unfold select_pending_request. rewrite filter_none; [reflexivity|].
  intros r Hr. destruct (String.eqb_spec (Request.id r) requestId) as [E|]; simpl;
    [|reflexivity].
  destruct (H r Hr E) as [-> | ->]; reflexivity.
Qed.

Lemma update_teacher_slot_found w slotId s u :
  is_teacher_slot w slotId s ->
  run_update_teacher_slot slotId u w =
  (Data (apply_updates u s),
   set_teacher_schedule_slots
     (update_where_id Slot.id slotId (apply_updates u) (teacher_schedule_slots w)) w).
Proof.
  intros [Hin [Hid Hn]]. unfold run_update_teacher_slot.
  rewrite filter_update_where_id by reflexivity.
  rewrite (filter_unique Slot.id _ (teacher_schedule_slots w) s Hn Hin).
  - reflexivity.
  - rewrite Hid. apply String.eqb_refl.
  - intros x _ Hx. apply String.eqb_eq in Hx. congruence.
Qed.

(** ** C5: a processed request stays as it is *)

(** C5. When every row of key [requestId] is approved or declined, approve
    and decline change nothing whatever the store answers: no row, no
    statement sent, no event; and when the client is configured and the
    lookup of the request succeeds, both answer 404, not found or already
    processed. *)
Theorem processed_request_is_terminal env requestId user_id declineReason w :
  (forall r, In r (schedule_change_requests w) -> Request.id r = requestId ->
             Request.status r = "approved" \/ Request.status r = "declined") ->
  after (approve env requestId user_id) w = w
  /\ after (decline env requestId user_id declineReason) w = w
  /\ (supabase env = true -> outcome env SelectRequest = Succeeds ->
      result (approve env requestId user_id) w
        = Val (json 404 "Schedule change request not found or already processed")
      /\ result (decline env requestId user_id declineReason) w
        = Val (json 404 "Schedule change request not found or already processed")).
Proof.
  intros H. pose proof (select_pending_processed w requestId H) as Hsel.
  unfold after, result, approve, decline.
  destruct (supabase env); simpl.
  - unfold try_catch, bind, query. rewrite Hsel.
    destruct (outcome env SelectRequest); simpl; repeat split; trivial; discriminate.
  - repeat split; discriminate.
Qed.

Lemma processed_request_is_terminal_witness :
  let r := Request.set_approved "A1" "2024-02-01T00:00:00.000Z"
             (Sample.request (Some "Wednesday") None None) in
  let w := Sample.school r in
  after (approve Sample.env "R1" "A2") w = w
  /\ after (decline Sample.env "R1" "A2" (Some "too late")) w = w
  /\ result (approve Sample.env "R1" "A2") w
       = Val (json 404 "Schedule change request not found or already processed")
  /\ result (decline Sample.env "R1" "A2" (Some "too late")) w
       = Val (json 404 "Schedule change request not found or already processed").
Proof.
  destruct (processed_request_is_terminal Sample.env "R1" "A2" (Some "too late")
              (Sample.school
                 (Request.set_approved "A1" "2024-02-01T00:00:00.000Z"
                    (Sample.request (Some "Wednesday") None None))))
    as [H1 [H2 H3]].
  - intros r [<-|[]] _. now left.
  - destruct (H3 eq_refl eq_refl) as [H4 H5]. repeat split; assumption.
Defined.

(** ** C8: decline *)

Lemma in_update_where_id {R} (key : R -> string) (i : string) (f : R -> R)
      (l : list R) (r : R) :
  In r l -> key r = i -> In (f r) (update_where_id key i f l).
Proof.
  intros Hin Hk. unfold update_where_id.
  apply in_map_iff. exists r. split; [|exact Hin].
  rewrite Hk, String.eqb_refl. reflexivity.
Qed.

Lemma or_null_cases v :
  Js.or_null v
  = match v with
    | Some s => if s =? EmptyString then None else Some s
    | None => None
    end.
Proof.
  destruct v as [s|]; [|reflexivity]. unfold Js.or_null. simpl.
  now destruct (s =? EmptyString).
Qed.

(** The request table after the patches of approve and of decline, row by
    row. *)
Lemma approved_rows i by_ at_ l :
  update_where_id Request.id i (Request.set_approved by_ at_) l
  = map (fun r =>
           if Request.id r =? i
           then Request.mk (Request.id r) (Request.slot_id r) (Request.teacher_id r)
                  (Request.course_id r) (Request.current_day_of_week r)
                  (Request.current_start_time r) (Request.current_end_time r)
                  (Request.requested_day_of_week r) (Request.requested_start_time r)
                  (Request.requested_end_time r) (Request.reason r)
                  "approved" (Some by_) (Some at_)
                  (Request.declined_by r) (Request.declined_at r)
                  (Request.declined_reason r)
           else r) l.
Proof. reflexivity. Qed.

Lemma approved_row_in i by_ at_ l r :
  In r l -> Request.id r = i ->
  In (Request.mk (Request.id r) (Request.slot_id r) (Request.teacher_id r)
        (Request.course_id r) (Request.current_day_of_week r)
        (Request.current_start_time r) (Request.current_end_time r)
        (Request.requested_day_of_week r) (Request.requested_start_time r)
        (Request.requested_end_time r) (Request.reason r)
        "approved" (Some by_) (Some at_)
        (Request.declined_by r) (Request.declined_at r) (Request.declined_reason r))
     (update_where_id Request.id i (Request.set_approved by_ at_) l).
Proof.
  intros Hin Hid.
  exact (in_update_where_id Request.id i (Request.set_approved by_ at_) l r Hin Hid).
Qed.

Lemma declined_rows i by_ at_ why l :
  update_where_id Request.id i (apply_patch (MarkDeclined by_ at_ (Js.or_null why))) l
  = map (fun r =>
           if Request.id r =? i
           then Request.mk (Request.id r) (Request.slot_id r) (Request.teacher_id r)
                  (Request.course_id r) (Request.current_day_of_week r)
                  (Request.current_start_time r) (Request.current_end_time r)
                  (Request.requested_day_of_week r) (Request.requested_start_time r)
                  (Request.requested_end_time r) (Request.reason r)
                  "declined" (Request.approved_by r) (Request.approved_at r)
                  (Some by_) (Some at_)
                  match why with
                  | Some s => if s =? EmptyString then None else Some s
                  | None => None
                  end
           else r) l.
Proof. rewrite or_null_cases. reflexivity. Qed.

Lemma in_map_if {R} (key : R -> string) (i : string) (f : R -> R) (l : list R) (r : R) :
  In r l -> key r = i -> In (f r) (map (fun x => if key x =? i then f x else x) l).
Proof.
  intros Hin Hk. apply in_map_iff. exists r. split; [|exact Hin].
  now rewrite Hk, String.eqb_refl.
Qed.

(** C8. Decline never changes a schedule slot: whatever the request and
    whatever the store answers, the teacher-slot table and the course-slot
    table are the same before and after. On a pending request, with the
    store and the live channel working, it answers 200, rewrites the request
    as declined with [declined_by], [declined_at] and the reason (null when
    none is given), adds one notification for the requesting teacher whose
    text ends with the reason when one is given, and publishes a teacher
    refresh and an admin refresh of type [schedule_change_declined]. Row
    by row: the rows of the request's key get status "declined", the
    caller as [declined_by], the current time as [declined_at] and the
    reason (null when missing or empty) as [declined_reason], every other
    column and every other row being kept. *)
Theorem decline_marks_notifies_and_keeps_slots
        env requestId user_id declineReason request w :
  let w' := after (decline env requestId user_id declineReason) w in
  (teacher_schedule_slots w' = teacher_schedule_slots w
   /\ course_schedule_slots w' = course_schedule_slots w)
  /\ (supabase env = true -> io env = true ->
      outcome env SelectRequest = Succeeds ->
      outcome env UpdateRequest = Succeeds ->
      outcome env InsertTeacherNotification = Succeeds ->
      is_pending w requestId request ->
      result (decline env requestId user_id declineReason) w
        = Val (json 200 "Schedule change request declined")
      /\ schedule_change_requests w' =
           update_where_id Request.id requestId
             (Request.set_declined user_id (now env) (Js.or_null declineReason))
             (schedule_change_requests w)
      /\ In (Request.set_declined user_id (now env) (Js.or_null declineReason) request)
            (schedule_change_requests w')
      /\ notifications w' =
           notifications w
             ++ [Notification.mk (Request.teacher_id request) user_id
                   "Schedule Change Declined" (decline_text declineReason)
                   ["in_app"] "custom" (Request.course_id request)]
      /\ (forall s, declineReason = Some s -> s <> EmptyString ->
            decline_text declineReason
            = ("Your schedule change request has been declined. Reason: " ++ s)%string)
      /\ emitted w' =
           emitted w
             ++ [Event.mk "teacher-notifications-refresh"
                   [("teacherId", Some (Request.teacher_id request))];
                 Event.mk "admin-notifications-refresh"
                   [("type", Some "schedule_change_declined")]]
      /\ issued w' =
           issued w
             ++ [update_schedule_change_requests requestId
                   (MarkDeclined user_id (now env) (Js.or_null declineReason));
                 insert_notifications
                   [declined_notification user_id request declineReason]]
      /\ (let declined (r : Request.t) :=
            Request.mk (Request.id r) (Request.slot_id r) (Request.teacher_id r)
              (Request.course_id r) (Request.current_day_of_week r)
              (Request.current_start_time r) (Request.current_end_time r)
              (Request.requested_day_of_week r) (Request.requested_start_time r)
              (Request.requested_end_time r) (Request.reason r)
              "declined" (Request.approved_by r) (Request.approved_at r)
              (Some user_id) (Some (now env))
              match declineReason with
              | Some s => if s =? EmptyString then None else Some s
              | None => None
              end in
          schedule_change_requests w' =
            map (fun r => if Request.id r =? requestId then declined r else r)
                (schedule_change_requests w)
          /\ In (declined request) (schedule_change_requests w'))).
Proof.
  intros w'. subst w'. split.
  - unfold after, decline. destruct (supabase env); simpl; [|now split].
    unfold try_catch, bind, query, statement, or_throw, when, emit, modify, ret, throw.
    destruct (outcome env SelectRequest); simpl; try (now split).
    destruct (select_pending_request requestId w) as [[r|]|e]; simpl; try (now split).
    destruct (outcome env UpdateRequest); simpl; try (now split);
      destruct (outcome env InsertTeacherNotification); simpl; try (now split);
      destruct (io env); simpl; now split.
  - intros Hs Hio H1 H2 H3 Hp.
    pose proof (select_pending_found w requestId request Hp) as Hsel.
    unfold after, result, decline. rewrite Hs. simpl.
    unfold try_catch, bind, query, statement, or_throw, when, emit, modify, ret.
    rewrite H1, Hsel. simpl. rewrite H2. simpl. rewrite H3. simpl.
    rewrite Hio. simpl.
    pose proof (declined_rows requestId user_id (now env) declineReason
                  (schedule_change_requests w)) as Hrows.
    destruct Hp as [Hin [Hid _]].
    split; [reflexivity|]. split; [reflexivity|].
    split; [now apply in_update_where_id|].
    split; [reflexivity|].
    split.
    { intros s -> Hne. unfold decline_text. simpl.
      destruct (String.eqb_spec s EmptyString); [contradiction|reflexivity]. }
    split; [now rewrite <- app_assoc|].
    split; [now rewrite <- app_assoc|].
    split; [exact Hrows|].
    rewrite Hrows.
    exact (in_map_if Request.id requestId _ _ request Hin Hid).
Qed.

Lemma decline_marks_notifies_and_keeps_slots_witness :
  let r := Sample.request (Some "Wednesday") (Some "14:00") (Some "15:00") in
  let w := Sample.school r in
  let w' := after (decline Sample.env "R1" "A1" (Some "instructor unavailable")) w in
  teacher_schedule_slots w' = teacher_schedule_slots w
  /\ course_schedule_slots w' = course_schedule_slots w
  /\ schedule_change_requests w' =
       [Request.mk "R1" "S1" "T1" (Some "C1")
          (Some "Tuesday") (Some "10:00") (Some "11:00")
          (Some "Wednesday") (Some "14:00") (Some "15:00")
          "room conflict" "declined" None None
          (Some "A1") (Some "2024-03-01T08:00:00.000Z")
          (Some "instructor unavailable")]
  /\ map Notification.message (notifications w') =
       ["Your schedule change request has been declined. Reason: instructor unavailable"]
  /\ map Event.topic (emitted w') =
       ["teacher-notifications-refresh"; "admin-notifications-refresh"].
Proof.
  destruct (decline_marks_notifies_and_keeps_slots Sample.env "R1" "A1"
              (Some "instructor unavailable")
              (Sample.request (Some "Wednesday") (Some "14:00") (Some "15:00"))
              (Sample.school
                 (Sample.request (Some "Wednesday") (Some "14:00") (Some "15:00"))))
    as [[F1 F2] H].
  destruct (H eq_refl eq_refl eq_refl eq_refl eq_refl)
    as [_ [_ [_ [H4 [_ [H6 [_ [H8 _]]]]]]]].
  - repeat split; try reflexivity; try (now left).
    simpl. repeat constructor; simpl; intuition.
  - split; [exact F1|]. split; [exact F2|]. split; [exact H8|].
    split; [now rewrite H4 | now rewrite H6].
Defined.

(** ** The statements sent only grow *)

Lemma extends_refl w : extends w w.
Proof. exists []. now rewrite app_nil_r. Qed.

Lemma extends_trans w1 w2 w3 : extends w1 w2 -> extends w2 w3 -> extends w1 w3.
Proof.
  intros [a Ha] [b Hb]. exists (a ++ b). now rewrite Hb, Ha, app_assoc.
Qed.

Lemma appends_ret {A} (a : A) : appends (ret a).
Proof. intros w. apply extends_refl. Qed.

Lemma appends_throw {A} e : appends (@throw A e).
Proof. intros w. apply extends_refl. Qed.

Lemma appends_bind {A B} (m : M A) (k : A -> M B) :
  appends m -> (forall a, appends (k a)) -> appends (bind m k).
Proof.
  intros Hm Hk w. specialize (Hm w). unfold after, bind in *.
  destruct (m w) as [[a|e] w1]; simpl in *; [|exact Hm].
  exact (extends_trans _ _ _ Hm (Hk a w1)).
Qed.

Lemma appends_try_catch {A} (m : M A) (h : string -> M A) :
  appends m -> (forall e, appends (h e)) -> appends (try_catch m h).
Proof.
  intros Hm Hh w. specialize (Hm w). unfold after, try_catch in *.
  destruct (m w) as [[a|e] w1]; simpl in *; [exact Hm|].
  exact (extends_trans _ _ _ Hm (Hh e w1)).
Qed.

Lemma appends_when c m : appends m -> appends (when c m).
Proof. intros H. destruct c; simpl; [exact H|apply appends_ret]. Qed.

Lemma appends_query {A} env op (q : World -> Reply A) : appends (query env op q).
Proof.
  intros w. unfold after, query.
  destruct (outcome env op); simpl; apply extends_refl.
Qed.

Lemma appends_statement {A} env op s (run : World -> Reply A * World) :
  (forall w, issued (snd (run w)) = issued w) ->
  appends (statement env op s run).
Proof.
  intros Hrun w. unfold after, statement.
  destruct (outcome env op); simpl; try (now exists [s]).
  specialize (Hrun (record s w)). destruct (run (record s w)) as [r w2].
  simpl in *. exists [s]. exact Hrun.
Qed.

Lemma appends_emit t p : appends (emit t p).
Proof. intros w. exists []. simpl. now rewrite app_nil_r. Qed.

Lemma appends_or_throw {A} (r : Reply A) : appends (or_throw r).
Proof. destruct r; [apply appends_ret|apply appends_throw]. Qed.

Lemma appends_sync env ts old : appends (syncTeacherSlotToCourseSlot env ts old).
Proof.
  intros w.
  destruct (sync_outcomes env ts old w) as [E|[[c [_ E]]|E]]; rewrite E.
  - apply extends_refl.
  - unfold after_update.
    destruct (outcome env UpdateCourseSlot); simpl; eexists; reflexivity.
  - unfold after_insert.
    destruct (outcome env InsertCourseSlot); simpl; eexists; reflexivity.
Qed.

Ltac appends_step :=
  first
    [ apply appends_ret | apply appends_throw | apply appends_emit
    | apply appends_query | apply appends_or_throw | apply appends_sync
    | apply appends_statement; intros; reflexivity
    | apply appends_when
    | apply appends_bind; [|intros]
    | apply appends_try_catch; [|intros]
    | match goal with
      | |- appends (match ?x with _ => _ end) => destruct x
      end ].

Ltac appends_tac := cbv zeta; repeat appends_step.

(** A computation that starts with a statement sends it first. *)
Lemma bind_statement_issued {A B} env op s (run : World -> Reply A * World)
      (k : Reply A -> M B) w :
  (forall w, issued (snd (run w)) = issued w) ->
  (forall a, appends (k a)) ->
  exists rest, issued (after (bind (statement env op s run) k) w) = issued w ++ s :: rest.
Proof.
  intros Hrun Hk. unfold after, bind, statement.
  destruct (outcome env op).
  - specialize (Hrun (record s w)). destruct (run (record s w)) as [r w2].
    simpl in Hrun. destruct (Hk r w2) as [ws Hws]. unfold after in Hws.
    exists ws. rewrite Hws, Hrun. simpl. now rewrite <- app_assoc.
  - destruct (Hk (Error e) (record s w)) as [ws Hws]. unfold after in Hws.
    exists ws. rewrite Hws. simpl. now rewrite <- app_assoc.
  - exists []. reflexivity.
Qed.

(** ** C3: approve, with and without requested fields *)

Lemma nonempty_approve_updates request :
  Updates.nonempty (approve_updates request) = any_requested request.
Proof.
  unfold approve_updates, any_requested, Updates.nonempty. simpl.
  destruct (Request.requested_day_of_week request) as [d|],
           (Request.requested_start_time request) as [b|],
           (Request.requested_end_time request) as [e|]; simpl;
    repeat match goal with
           | |- context [?x =? EmptyString] => destruct (x =? EmptyString); simpl
           end; reflexivity.
Qed.

Lemma approve_pending env requestId user_id request w :
  supabase env = true ->
  outcome env SelectRequest = Succeeds ->
  is_pending w requestId request ->
  approve env requestId user_id w =
  try_catch
    (if any_requested request
     then approve_with_changes env requestId user_id request (approve_updates request)
     else approve_without_changes env requestId user_id request)
    (fun error => ret (mkResponse 500 "Server error" None (Some error))) w.
Proof.
  intros Hs Hq Hp. unfold approve. rewrite Hs. simpl.
  unfold try_catch, bind at 1. unfold bind at 1. unfold query. rewrite Hq.
  rewrite (select_pending_found w requestId request Hp). simpl.
  now rewrite nonempty_approve_updates.
Qed.

Lemma after_try_catch_ret {A} (m : M A) (h : string -> A) w :
  after (try_catch m (fun e => ret (h e))) w = after m w.
Proof. unfold after, try_catch. now destruct (m w) as [[a|e] w1]. Qed.

Lemma approve_with_changes_issued env requestId user_id request u w :
  exists rest,
    issued (after (approve_with_changes env requestId user_id request u) w)
    = issued w ++ update_teacher_schedule_slots (Request.slot_id request) u :: rest.
Proof.
  unfold approve_with_changes.
  apply bind_statement_issued; [reflexivity|].
  intros a. appends_tac.
Qed.

Lemma approve_without_changes_issued env requestId user_id request w :
  exists ws,
    issued (after (approve_without_changes env requestId user_id request) w)
    = issued w ++ ws
    /\ forall s, In s ws ->
         s = update_schedule_change_requests requestId (MarkApproved user_id (now env))
         \/ s = insert_notifications
                  [approved_notification user_id request
                     "Your schedule change request has been approved. No changes were needed."].
Proof.
  unfold after, approve_without_changes, bind, statement, when, emit, modify, ret.
  destruct (outcome env UpdateRequest); simpl;
    destruct (outcome env InsertTeacherNotification); simpl;
    destruct (io env); simpl; rewrite <- ?app_assoc; simpl;
    eexists; (split; [reflexivity|]); simpl; intuition.
Qed.

(** ** Computations that do not throw *)

Lemma result_bind_val {A B} (m : M A) (k : A -> M B) w a w1 :
  m w = (Val a, w1) -> result (bind m k) w = result (k a) w1.
Proof. intros H. unfold result, bind. now rewrite H. Qed.

Lemma result_try_catch_val {A} (m : M A) (h : string -> M A) w a :
  result m w = Val a -> result (try_catch m h) w = Val a.
Proof.
  unfold result, try_catch. destruct (m w) as [[x|e] w1]; simpl; congruence.
Qed.

Lemma returns_ret {A} (r : A) : returns r (ret r).
Proof. intros w. reflexivity. Qed.

Lemma returns_bind {A B} (m : M A) (k : A -> M B) (r : B) :
  total m -> (forall a, returns r (k a)) -> returns r (bind m k).
Proof.
  intros Hm Hk w. destruct (Hm w) as [a Ha]. unfold result, bind in *.
  destruct (m w) as [[x|e] w1]; simpl in *; [apply Hk|discriminate].
Qed.

Lemma total_ret {A} (a : A) : total (ret a).
Proof. intros w. now exists a. Qed.

Lemma total_bind {A B} (m : M A) (k : A -> M B) :
  total m -> (forall a, total (k a)) -> total (bind m k).
Proof.
  intros Hm Hk w. destruct (Hm w) as [a Ha]. unfold result, bind in *.
  destruct (m w) as [[x|e] w1]; simpl in *; [apply Hk|discriminate].
Qed.

Lemma total_when c m : total m -> total (when c m).
Proof. intros H. destruct c; simpl; [exact H|apply total_ret]. Qed.

Lemma total_emit t p : total (emit t p).
Proof. intros w. now exists tt. Qed.

Lemma total_query {A} env op (q : World -> Reply A) :
  outcome env op = Succeeds -> total (query env op q).
Proof. intros H w. unfold result, query. rewrite H. simpl. eauto. Qed.

Lemma total_statement {A} env op s (run : World -> Reply A * World) :
  outcome env op = Succeeds -> total (statement env op s run).
Proof.
  intros H w. unfold result, statement. rewrite H.
  destruct (run (record s w)). simpl. eauto.
Qed.

(** The synchronizer never throws, whatever the store does. *)
Lemma total_sync env ts old : total (syncTeacherSlotToCourseSlot env ts old).
Proof.
  intros w. exists tt. unfold result.
  destruct (Js.truthy (Slot.course_id ts)) eqn:Hc;
    [|rewrite sync_skipped; [reflexivity|now left]].
  destruct (Js.truthy (Slot.teacher_id ts)) eqn:Ht;
    [|rewrite sync_skipped; [reflexivity|right; now left]].
  destruct (outcome env SelectCourseSlots) eqn:Hf;
    try (rewrite sync_skipped; [reflexivity|right; right; congruence]).
  now rewrite (sync_run env ts old w Hc Ht Hf).
Qed.

Ltac total_step H :=
  first
    [ apply total_ret | apply total_emit | apply total_sync
    | apply total_query; apply H; reflexivity
    | apply total_statement; apply H; reflexivity
    | apply total_when
    | apply total_bind; [|intros]
    | match goal with
      | |- total (match ?x with _ => _ end) => destruct x
      end ].

Ltac returns_tac H :=
  cbv zeta;
  repeat (apply returns_bind; [repeat total_step H | intros]);
  apply returns_ret.

(** Reads a goal [forall w, result m w = Val r] as [returns r m]. *)
Ltac as_returns :=
  match goal with
  | |- forall w0, result ?m w0 = Val ?r => change (returns r m)
  end.

Lemma select_teacher_slot_found w slotId s :
  is_teacher_slot w slotId s -> select_teacher_slot slotId w = Data (Some s).
Proof.
  intros [Hin [Hid Hn]]. unfold select_teacher_slot.
  rewrite (filter_unique Slot.id _ (teacher_schedule_slots w) s Hn Hin).
  - reflexivity.
  - rewrite Hid. apply String.eqb_refl.
  - intros x _ Hx. apply String.eqb_eq in Hx. congruence.
Qed.

Lemma update_teacher_slot_statement env slotId u s w :
  outcome env UpdateTeacherSlot = Succeeds ->
  is_teacher_slot w slotId s ->
  exists w1,
    statement env UpdateTeacherSlot (update_teacher_schedule_slots slotId u)
              (run_update_teacher_slot slotId u) w
    = (Val (Data (apply_updates u s)), w1).
Proof.
  intros H Hs. unfold statement. rewrite H.
  rewrite (update_teacher_slot_found (record (update_teacher_schedule_slots slotId u) w)
             slotId s u Hs).
  eauto.
Qed.

(** ** C4: which failures reach the caller *)

Lemma approve_with_changes_returns env requestId user_id request s w :
  (forall op, sync_op op = false -> outcome env op = Succeeds) ->
  is_teacher_slot w (Request.slot_id request) s ->
  result (approve_with_changes env requestId user_id request (approve_updates request)) w
  = Val (mkResponse 200 "Schedule change approved and slot updated successfully"
                    (Some (apply_updates (approve_updates request) s)) None).
Proof.
  intros H Hs. unfold approve_with_changes.
  destruct (update_teacher_slot_statement env (Request.slot_id request)
              (approve_updates request) s w (H UpdateTeacherSlot eq_refl) Hs)
    as [w1 Hw1].
  rewrite (result_bind_val _ _ w _ w1 Hw1).
  rewrite (result_bind_val _ _ w1 (apply_updates (approve_updates request) s) w1 eq_refl).
  clear Hw1. revert w1. as_returns. returns_tac H.
Qed.

Lemma edit_after_lookup_returns env slotId body existing courseRow w :
  (forall op, sync_op op = false -> outcome env op = Succeeds) ->
  is_teacher_slot w slotId existing ->
  result (edit_after_lookup env slotId body existing courseRow) w
  = Val (mkResponse 200 "Slot updated successfully"
                    (Some (apply_updates (edit_payload body existing courseRow) existing))
                    None).
Proof.
  intros H Hs. unfold edit_after_lookup. cbv zeta.
  destruct (update_teacher_slot_statement env slotId
              (edit_payload body existing courseRow) existing w
              (H UpdateTeacherSlot eq_refl) Hs)
    as [w1 Hw1].
  rewrite (result_bind_val _ _ w _ w1 Hw1).
  rewrite (result_bind_val _ _ w1
             (apply_updates (edit_payload body existing courseRow) existing) w1 eq_refl).
  clear Hw1. revert w1. as_returns. returns_tac H.
Qed.

(** C4. On a pending request with a requested field, when the store
    refuses the update of the teacher slot (an error reply or a rejected
    call), approve answers 500 with that error and does nothing after the
    refused statement. When the other store calls succeed, approve answers
    200 with the updated slot, and the slot-edit route answers 200 with the
    updated slot, whatever the three store calls of the synchronizer do
    (succeed, reply with an error, or throw). *)
Theorem slot_update_failure_fatal_sync_failure_swallowed env w :
  (forall requestId user_id request,
     supabase env = true ->
     outcome env SelectRequest = Succeeds ->
     is_pending w requestId request ->
     any_requested request = true ->
     (forall e,
        outcome env UpdateTeacherSlot = ReturnsError e
        \/ outcome env UpdateTeacherSlot = Throws e ->
        approve env requestId user_id w
        = (Val (mkResponse 500 "Server error" None (Some e)),
           record (update_teacher_schedule_slots (Request.slot_id request)
                     (approve_updates request)) w))
     /\ (forall s,
           is_teacher_slot w (Request.slot_id request) s ->
           (forall op, sync_op op = false -> outcome env op = Succeeds) ->
           result (approve env requestId user_id) w
           = Val (mkResponse 200 "Schedule change approved and slot updated successfully"
                             (Some (apply_updates (approve_updates request) s)) None)))
  /\ (forall slotId body existing courseRow,
        supabase env = true ->
        is_teacher_slot w slotId existing ->
        course_lookup w body courseRow ->
        (forall op, sync_op op = false -> outcome env op = Succeeds) ->
        result (edit_teacher_slot env slotId body) w
        = Val (mkResponse 200 "Slot updated successfully"
                          (Some (apply_updates (edit_payload body existing courseRow)
                                               existing))
                          None)).
Proof.
  split.
  - intros requestId user_id request Hs Hq Hp Hany. split.
    + intros e He.
      rewrite (approve_pending env requestId user_id request w Hs Hq Hp), Hany.
      unfold try_catch, approve_with_changes, bind at 1. unfold statement.
      destruct He as [-> | ->]; reflexivity.
    + intros s Hslot H. unfold result.
      rewrite (approve_pending env requestId user_id request w Hs Hq Hp), Hany.
      apply result_try_catch_val.
      exact (approve_with_changes_returns env requestId user_id request s w H Hslot).
  - intros slotId body existing courseRow Hs Hslot Hc H.
    unfold edit_teacher_slot. rewrite Hs. simpl.
    apply result_try_catch_val.
    assert (Hfound : query env SelectTeacherSlot (select_teacher_slot slotId) w
                     = (Val (Data (Some existing)), w)).
    { unfold query. rewrite (H SelectTeacherSlot eq_refl).
      now rewrite (select_teacher_slot_found w slotId existing Hslot). }
    rewrite (result_bind_val _ _ w _ w Hfound).
    rewrite (result_bind_val _ _ w (Some existing) w eq_refl).
    destruct courseRow as [c|]; simpl in Hc.
    + destruct Hc as [Ht Hsel]. rewrite Ht.
      assert (Hlook : query env SelectCourse
                        (select_course (Js.field_or_null (EditBody.courseId body))) w
                      = (Val (Data (Some c)), w)).
      { unfold query. rewrite (H SelectCourse eq_refl). now rewrite Hsel. }
      rewrite (result_bind_val _ _ w _ w Hlook).
      rewrite (result_bind_val _ _ w (Some c) w eq_refl).
      exact (edit_after_lookup_returns env slotId body existing (Some c) w H Hslot).
    + rewrite Hc.
      exact (edit_after_lookup_returns env slotId body existing None w H Hslot).
Qed.

Lemma slot_update_failure_fatal_sync_failure_swallowed_witness :
  let r := Sample.request (Some "Wednesday") (Some "14:00") (Some "15:00") in
  let w := Sample.school r in
  let body := EditBody.mk (Js.Str "Wednesday") Js.Undefined Js.Undefined
                          Js.Undefined Js.Undefined Js.Undefined in
  result (approve Sample.env_slot_update_down "R1" "A1") w
  = Val (mkResponse 500 "Server error" None (Some "unavailable"))
  /\ schedule_change_requests (after (approve Sample.env_slot_update_down "R1" "A1") w)
     = [r]
  /\ result (approve Sample.env_sync_down "R1" "A1") w
     = Val (mkResponse 200 "Schedule change approved and slot updated successfully"
                       (Some (Sample.slot "S1" "Wednesday" "14:00" "15:00")) None)
  /\ result (edit_teacher_slot Sample.env_sync_down "S1" body) w
     = Val (mkResponse 200 "Slot updated successfully"
                       (Some (Sample.slot "S1" "Wednesday" "10:00" "11:00")) None).
Proof.
  assert (Hp : is_pending
                 (Sample.school
                    (Sample.request (Some "Wednesday") (Some "14:00") (Some "15:00")))
                 "R1"
                 (Sample.request (Some "Wednesday") (Some "14:00") (Some "15:00"))).
  { repeat split; [now left|]. simpl. repeat constructor. intros []. }
  assert (Hs : is_teacher_slot
                 (Sample.school
                    (Sample.request (Some "Wednesday") (Some "14:00") (Some "15:00")))
                 "S1" Sample.teacher_slot).
  { repeat split; [now left|]. simpl. repeat constructor. intros []. }
  assert (Hops : forall op, sync_op op = false ->
                            outcome Sample.env_sync_down op = Succeeds).
  { intros op. destruct op; simpl; intros E; try reflexivity; discriminate. }
  destruct (slot_update_failure_fatal_sync_failure_swallowed
              Sample.env_slot_update_down
              (Sample.school
                 (Sample.request (Some "Wednesday") (Some "14:00") (Some "15:00"))))
    as [A _].
  destruct (A "R1" "A1" (Sample.request (Some "Wednesday") (Some "14:00") (Some "15:00"))
              eq_refl eq_refl Hp eq_refl) as [A1 _].
  destruct (slot_update_failure_fatal_sync_failure_swallowed
              Sample.env_sync_down
              (Sample.school
                 (Sample.request (Some "Wednesday") (Some "14:00") (Some "15:00"))))
    as [B C].
  destruct (B "R1" "A1" (Sample.request (Some "Wednesday") (Some "14:00") (Some "15:00"))
              eq_refl eq_refl Hp eq_refl) as [_ B2].
  cbv zeta. unfold after, result.
  rewrite (A1 "unavailable" (or_introl eq_refl)).
  split; [reflexivity|]. split; [reflexivity|].
  split.
  - exact (B2 Sample.teacher_slot Hs Hops).
  - exact (C "S1"
             (EditBody.mk (Js.Str "Wednesday") Js.Undefined Js.Undefined
                          Js.Undefined Js.Undefined Js.Undefined)
             Sample.teacher_slot None eq_refl Hs eq_refl Hops).
Defined.

(** ** C9: what a submitted request leaves behind *)

Lemma or_null_some v s : Js.or_null v = Some s -> v = Some s.
Proof. unfold Js.or_null. destruct (Js.truthy v); congruence. Qed.

(** C9, as amended. A submit that answers 200 has appended one pending
    request row (one insert statement, nothing else sent), has inserted no
    notification and changed no schedule slot, and has published one
    [admin-notifications-refresh] event of type [schedule_change_request]
    carrying the teacher id when the live channel is configured (no event
    otherwise). *)
Theorem submit_persists_and_refreshes_admins env user body w resp :
  result (request_change env user body) w = Val resp ->
  status resp = 200 ->
  let w' := after (request_change env user body) w in
  exists slotId teacher why slotRow,
    Js.field_or_null (SubmitBody.slotId body) = Some slotId
    /\ Js.field_or_null (SubmitBody.reason body) = Some why
    /\ option_map User.id user = Some (Some teacher)
    /\ select_own_teacher_slot slotId (Some teacher) w = Data (Some slotRow)
    /\ schedule_change_requests w' =
         schedule_change_requests w ++ [requestData env slotId teacher slotRow body why]
    /\ issued w' =
         issued w
           ++ [insert_schedule_change_requests
                 (requestData env slotId teacher slotRow body why)]
    /\ notifications w' = notifications w
    /\ teacher_schedule_slots w' = teacher_schedule_slots w
    /\ course_schedule_slots w' = course_schedule_slots w
    /\ emitted w' =
         emitted w
           ++ (if io env
               then [Event.mk "admin-notifications-refresh"
                       [("type", Some "schedule_change_request");
                        ("teacherId", Some teacher)]]
               else []).
Proof.
  intros Hres Hst w'. subst w'.
  unfold result, after, request_change, try_catch in *.
  destruct (Js.field_or_null (SubmitBody.slotId body)) as [slotId|];
    [|destruct (Js.field_or_null (SubmitBody.reason body));
      simpl in Hres; injection Hres as <-; discriminate].
  destruct (Js.field_or_null (SubmitBody.reason body)) as [why|];
    [|simpl in Hres; injection Hres as <-; discriminate].
  destruct user as [u|]; [|simpl in Hres; injection Hres as <-; discriminate].
  destruct (Js.or_null (User.id u)) as [teacher|] eqn:Eid;
    [|simpl in Hres; injection Hres as <-; discriminate].
  apply or_null_some in Eid.
  exists slotId, teacher, why.
  unfold bind, query, statement, or_throw, when, emit, modify, ret, throw in *.
  rewrite Eid in *.
  destruct (outcome env SelectTeacherSlot);
    [|simpl in Hres; injection Hres as <-; discriminate
     |simpl in Hres; injection Hres as <-; discriminate].
  destruct (select_own_teacher_slot slotId (Some teacher) w) as [[slotRow|]|e];
    [|simpl in Hres; injection Hres as <-; discriminate
     |simpl in Hres; injection Hres as <-; discriminate].
  exists slotRow.
  destruct (Js.truthy (User.name u)); simpl in *;
    try destruct (outcome env SelectUser); simpl in *;
    destruct (outcome env InsertRequest); simpl in *;
    try (injection Hres as <-; discriminate);
    destruct (io env); simpl in *;
    rewrite ?app_nil_r; repeat split; simpl; rewrite ?Eid; reflexivity.
Qed.

Lemma submit_persists_and_refreshes_admins_witness :
  let w' := after (request_change Sample.env (Some Sample.teacher) Sample.change_body)
                  Sample.before_request in
  map Request.status (schedule_change_requests w') = ["pending"]
  /\ notifications w' = []
  /\ emitted w' =
       [Event.mk "admin-notifications-refresh"
          [("type", Some "schedule_change_request"); ("teacherId", Some "T1")]].
Proof.
  destruct (submit_persists_and_refreshes_admins Sample.env (Some Sample.teacher)
              Sample.change_body Sample.before_request
              (json 200 "Schedule change request submitted successfully")
              eq_refl eq_refl)
    as [slotId [teacher [why [slotRow [H1 [H2 [H3 [H4 [H5 [_ [H7 [_ [_ H10]]]]]]]]]]]]].
  injection H3 as <-.
  split; [now rewrite H5|]. split; [exact H7|exact H10].
Defined.

(** C9, as the claim states it, fails: teacher [T1] submits a request on her
    slot [S1]; the route answers 200, and besides the new request row it has
    published an [admin-notifications-refresh] event. *)
Lemma submit_publishes_an_admin_refresh :
  let w := Sample.before_request in
  let w' := after (request_change Sample.env (Some Sample.teacher) Sample.change_body) w in
  result (request_change Sample.env (Some Sample.teacher) Sample.change_body) w
  = Val (json 200 "Schedule change request submitted successfully")
  /\ emitted w = []
  /\ emitted w' =
       [Event.mk "admin-notifications-refresh"
          [("type", Some "schedule_change_request"); ("teacherId", Some "T1")]]
  /\ emitted w' <> emitted w.
Proof. repeat split; try reflexivity. discriminate. Qed.

(** * Further properties of the synchronizer *)

Lemma strict_eq_refl v : Js.strict_eq v v = true.
Proof. destruct v; simpl; [apply String.eqb_refl|reflexivity]. Qed.

Lemma sql_eq_refl v : Js.truthy v = true -> sql_eq v v = true.
Proof. destruct v; simpl; [intros _; apply String.eqb_refl|discriminate]. Qed.

Lemma candidate_row ts w c :
  In c (candidates ts w) ->
  exists r, In r (course_schedule_slots w)
            /\ same_pair (Slot.course_id ts) (Slot.teacher_id ts) r = true
            /\ Candidate.of_row r = c.
Proof.
  unfold candidates. intros H. apply in_map_iff in H as [r [E H]].
  apply filter_In in H as [H1 H2]. now exists r.
Qed.

Lemma strategy_old_exact o l c :
  find_old o l = Some c -> strategy_old o l = Go (Some c).
Proof.
  intros H. unfold strategy_old. fold (find_old o l). rewrite H.
  destruct l; [discriminate|reflexivity].
Qed.

(** A candidate that carries exactly the old day, start and end is the
    slot updated, however many candidates there are: with a complete old
    snapshot, the first such candidate in store order receives the one
    statement sent, an update with the new values, and nothing is
    inserted. *)
Theorem sync_exact_old_match_updated env ts o w c :
  Js.truthy (Slot.course_id ts) = true ->
  Js.truthy (Slot.teacher_id ts) = true ->
  outcome env SelectCourseSlots = Succeeds ->
  complete (Some o) = true ->
  find_old o (candidates ts w) = Some c ->
  let w' := after (syncTeacherSlotToCourseSlot env ts (Some o)) w in
  issued w' =
    issued w ++ [update_course_schedule_slots (Candidate.id c) (courseSlotUpdate ts)]
  /\ List.length (course_schedule_slots w') = List.length (course_schedule_slots w)
  /\ (outcome env UpdateCourseSlot = Succeeds ->
      course_schedule_slots w' =
        update_where_id Slot.id (Candidate.id c) (apply_update (courseSlotUpdate ts))
                        (course_schedule_slots w)).
Proof.
  intros Hc Ht Hf Ho Hfind w'. subst w'. unfold after.
  rewrite (sync_run env ts (Some o) w Hc Ht Hf).
  rewrite (choose_complete ts o _ Ho), (strategy_old_exact o _ c Hfind).
  simpl. unfold after_update.
  destruct (outcome env UpdateCourseSlot); simpl; repeat split;
    try reflexivity; try discriminate;
    unfold update_where_id; now rewrite length_map.
Qed.

Lemma sync_exact_old_match_updated_witness :
  let w := Sample.world [Sample.monday_early; Sample.tuesday; Sample.other_pair] in
  let o := OldValues.mk (Some "Tuesday") (Some "09:00") (Some "10:00") in
  let w' := after (syncTeacherSlotToCourseSlot Sample.env Sample.moved (Some o)) w in
  issued w' = [update_course_schedule_slots "b" (courseSlotUpdate Sample.moved)]
  /\ course_schedule_slots w' =
       [Sample.monday_early; Sample.slot "b" "Wednesday" "14:00" "15:00";
        Sample.other_pair].
Proof.
  destruct (sync_exact_old_match_updated Sample.env Sample.moved
              (OldValues.mk (Some "Tuesday") (Some "09:00") (Some "10:00"))
              (Sample.world [Sample.monday_early; Sample.tuesday; Sample.other_pair])
              (Candidate.of_row Sample.tuesday)
              eq_refl eq_refl eq_refl eq_refl eq_refl)
    as [H1 [_ H2]].
  split; [exact H1 | exact (H2 eq_refl)].
Defined.

(** With no course slot at all for the pair, the synchronizer inserts one:
    whatever the old snapshot, the one statement sent is the insert of the
    new values for the pair, and when the store runs it the table is the
    old one followed by that row. *)
Theorem sync_no_candidate_inserts env ts old w :
  Js.truthy (Slot.course_id ts) = true ->
  Js.truthy (Slot.teacher_id ts) = true ->
  outcome env SelectCourseSlots = Succeeds ->
  candidates ts w = [] ->
  let w' := after (syncTeacherSlotToCourseSlot env ts old) w in
  issued w' = issued w ++ [insert_course_schedule_slots (courseSlotInsert ts)]
  /\ (outcome env InsertCourseSlot = Succeeds ->
      course_schedule_slots w' =
        course_schedule_slots w
          ++ [Slot.mk (new_id env) (Slot.teacher_id ts) (Slot.course_id ts)
                (Slot.day_of_week ts) (Slot.start_time ts) (Slot.end_time ts)
                (Js.or_null (Slot.location ts)) (Js.or_null (Slot.notes ts))]).
Proof.
  intros Hc Ht Hf Hl w'. subst w'. unfold after.
  rewrite (sync_run env ts old w Hc Ht Hf), Hl.
  assert (Hch : choose ts old [] = Go None).
  { unfold choose. destruct old as [o|]; [destruct (complete (Some o))|]; reflexivity. }
  rewrite Hch. simpl. unfold after_insert. split.
  - now destruct (outcome env InsertCourseSlot).
  - now intros ->.
Qed.

Lemma sync_no_candidate_inserts_witness :
  let w := Sample.world [Sample.other_pair] in
  let w' := after (syncTeacherSlotToCourseSlot Sample.env Sample.moved
                     (Some Sample.old_monday)) w in
  issued w' = [insert_course_schedule_slots (courseSlotInsert Sample.moved)]
  /\ course_schedule_slots w' =
       [Sample.other_pair; Sample.slot "generated-id" "Wednesday" "14:00" "15:00"].
Proof.
  destruct (sync_no_candidate_inserts Sample.env Sample.moved (Some Sample.old_monday)
              (Sample.world [Sample.other_pair]) eq_refl eq_refl eq_refl eq_refl)
    as [H1 H2].
  split; [exact H1 | exact (H2 eq_refl)].
Defined.

(** Whatever it is given and whatever the store answers, the synchronizer
    touches nothing but the course-slot table: requests, teacher slots,
    notifications, courses, enrolments and the events published are the
    same before and after. *)
Theorem sync_touches_only_course_slots env ts old w :
  let w' := after (syncTeacherSlotToCourseSlot env ts old) w in
  schedule_change_requests w' = schedule_change_requests w
  /\ teacher_schedule_slots w' = teacher_schedule_slots w
  /\ notifications w' = notifications w
  /\ courses w' = courses w
  /\ course_students w' = course_students w
  /\ emitted w' = emitted w.
Proof.
  intros w'. subst w'.
  destruct (sync_outcomes env ts old w) as [E|[[c [_ E]]|E]]; rewrite E.
  - repeat split.
  - unfold after_update. destruct (outcome env UpdateCourseSlot); repeat split.
  - unfold after_insert. destruct (outcome env InsertCourseSlot); repeat split.
Qed.

(** When the store works, a run of the synchronizer for a teacher slot with
    a course and a teacher always ends with a course slot of the pair that
    carries the new day, start and end; a further run without an old
    snapshot then changes nothing. *)
Theorem sync_establishes_mirror env ts old w :
  Js.truthy (Slot.course_id ts) = true ->
  Js.truthy (Slot.teacher_id ts) = true ->
  (forall op, sync_op op = true -> outcome env op = Succeeds) ->
  let w' := after (syncTeacherSlotToCourseSlot env ts old) w in
  (exists r, In r (course_schedule_slots w') /\ mirrors ts r)
  /\ after (syncTeacherSlotToCourseSlot env ts None) w' = w'.
Proof.
  intros Hc Ht Hops w'.
  assert (Hm : exists r, In r (course_schedule_slots w') /\ mirrors ts r).
  { subst w'. unfold after.
    rewrite (sync_run env ts old w Hc Ht (Hops SelectCourseSlots eq_refl)).
    assert (Hpresent : forall c, find_new ts (candidates ts w) = Some c ->
              exists r, In r (course_schedule_slots w) /\ mirrors ts r).
    { intros c Hfind. apply find_some in Hfind as [Hin Hex].
      destruct (candidate_row ts w c Hin) as [r [Hr [Hp <-]]].
      exists r. now repeat split. }
    simpl.
    destruct (choose ts old (candidates ts w)) as [|[c|]] eqn:E.
    - destruct (find_some_of_exists
                  (exact (Slot.day_of_week ts) (Slot.start_time ts) (Slot.end_time ts))
                  (candidates ts w)) as [c Hfind]; [|exact (Hpresent c Hfind)].
      unfold choose in E.
      assert (Hnew : strategy_new ts (candidates ts w) = Return ->
                exists x, In x (candidates ts w)
                          /\ exact (Slot.day_of_week ts) (Slot.start_time ts)
                                   (Slot.end_time ts) x = true).
      { unfold strategy_new.
        destruct (0 <? List.length (candidates ts w))%nat; [|discriminate].
        destruct (find _ (candidates ts w)) as [x|] eqn:Ex.
        - intros _. exists x. exact (find_some _ _ Ex).
        - destruct (List.length (candidates ts w) =? 1)%nat; discriminate. }
      destruct old as [o|]; [|exact (Hnew E)].
      destruct (complete (Some o)); [|exact (Hnew E)].
      exfalso. unfold strategy_old in E.
      destruct (0 <? List.length (candidates ts w))%nat; [|discriminate].
      destruct (find (exact _ _ _) (candidates ts w)); [discriminate|].
      destruct (find (same_day _) (candidates ts w));
        destruct (List.length (candidates ts w) =? 1)%nat; discriminate.
    - destruct (candidate_row ts w c (chosen_is_candidate ts old _ _ E))
        as [r [Hr [Hp Hid]]].
      exists (apply_update (courseSlotUpdate ts) r). split.
      + unfold after_update. rewrite (Hops UpdateCourseSlot eq_refl). simpl.
        apply in_update_where_id; [exact Hr|]. now rewrite <- Hid.
      + split; [exact Hp|]. unfold exact. simpl. now rewrite !strict_eq_refl.
    - destruct (find_new ts (candidates ts w)) as [c|] eqn:Efind.
      + exact (Hpresent c eq_refl).
      + exists (inserted_row env (courseSlotInsert ts)). split.
        * unfold after_insert. rewrite (Hops InsertCourseSlot eq_refl). simpl.
          apply in_or_app. right. now left.
        * split.
          -- unfold same_pair. simpl. now rewrite !sql_eq_refl.
          -- unfold exact. simpl. now rewrite !strict_eq_refl. }
  split; [exact Hm|].
  destruct Hm as [r [Hr [Hp He]]]. unfold after.
  rewrite (sync_present_is_noop env ts None w' eq_refl); [reflexivity|].
  exists r. now repeat split.
Qed.

Lemma sync_establishes_mirror_witness :
  let w := Sample.world [Sample.monday_early; Sample.tuesday] in
  let w' := after (syncTeacherSlotToCourseSlot Sample.env Sample.moved
                     (Some Sample.old_monday)) w in
  (exists r, In r (course_schedule_slots w') /\ mirrors Sample.moved r)
  /\ after (syncTeacherSlotToCourseSlot Sample.env Sample.moved None) w' = w'.
Proof.
  apply (sync_establishes_mirror Sample.env Sample.moved (Some Sample.old_monday)
           (Sample.world [Sample.monday_early; Sample.tuesday]) eq_refl eq_refl).
  intros op _. reflexivity.
Defined.

(** * Parts of the world a computation leaves alone *)

Section Preserves.

Variables (X : Type) (f : World -> X).
Hypothesis f_record : forall s w, f (record s w) = f w.
Hypothesis f_emit : forall t p w, f (after (emit t p) w) = f w.

Lemma preserves_ret {A} (a : A) : preserves f (ret a).
Proof. intros w. reflexivity. Qed.

Lemma preserves_throw {A} e : preserves f (@throw A e).
Proof. intros w. reflexivity. Qed.

Lemma preserves_or_throw {A} (r : Reply A) : preserves f (or_throw r).
Proof. destruct r; intros w; reflexivity. Qed.

Lemma preserves_bind {A B} (m : M A) (k : A -> M B) :
  preserves f m -> (forall a, preserves f (k a)) -> preserves f (bind m k).
Proof.
  intros Hm Hk w. specialize (Hm w). unfold after, bind in *.
  destruct (m w) as [[a|e] w1]; simpl in *; [|exact Hm].
  rewrite <- Hm. apply Hk.
Qed.

Lemma preserves_try_catch {A} (m : M A) (h : string -> M A) :
  preserves f m -> (forall e, preserves f (h e)) -> preserves f (try_catch m h).
Proof.
  intros Hm Hh w. specialize (Hm w). unfold after, try_catch in *.
  destruct (m w) as [[a|e] w1]; simpl in *; [exact Hm|].
  rewrite <- Hm. apply Hh.
Qed.

Lemma preserves_when c m : preserves f m -> preserves f (when c m).
Proof. intros H. destruct c; simpl; [exact H|apply preserves_ret]. Qed.

Lemma preserves_query {A} env op (q : World -> Reply A) : preserves f (query env op q).
Proof. intros w. unfold after, query. now destruct (outcome env op). Qed.

Lemma preserves_emit t p : preserves f (emit t p).
Proof. intros w. apply f_emit. Qed.

Lemma preserves_statement {A} env op s (run : World -> Reply A * World) :
  (forall w, f (snd (run w)) = f w) -> preserves f (statement env op s run).
Proof.
  intros Hrun w. unfold after, statement.
  destruct (outcome env op); simpl; try apply f_record.
  specialize (Hrun (record s w)). destruct (run (record s w)) as [r w2].
  simpl in *. now rewrite Hrun.
Qed.

(** A statement the store does not run changes nothing but the trace. *)
Lemma preserves_statement_refused {A} env op s (run : World -> Reply A * World) :
  outcome env op <> Succeeds -> preserves f (statement env op s run).
Proof.
  intros H w. unfold after, statement.
  destruct (outcome env op); simpl; try apply f_record. congruence.
Qed.

Lemma preserves_sync env ts old :
  (forall t w, f (set_course_schedule_slots t w) = f w) ->
  preserves f (syncTeacherSlotToCourseSlot env ts old).
Proof.
  intros Hset w.
  destruct (sync_outcomes env ts old w) as [E|[[c [_ E]]|E]]; rewrite E.
  - reflexivity.
  - unfold after_update.
    destruct (outcome env UpdateCourseSlot); rewrite ?Hset; apply f_record.
  - unfold after_insert.
    destruct (outcome env InsertCourseSlot); rewrite ?Hset; apply f_record.
Qed.

End Preserves.

Ltac preserves_step :=
  first
    [ apply preserves_ret | apply preserves_throw | apply preserves_or_throw
    | apply preserves_query
    | apply preserves_emit; intros; reflexivity
    | apply preserves_sync; intros; reflexivity
    | apply preserves_statement; intros; reflexivity
    | apply preserves_when
    | apply preserves_bind; [|intros]
    | apply preserves_try_catch; [|intros]
    | match goal with
      | |- preserves _ (match ?x with _ => _ end) => destruct x
      end ].

Ltac preserves_tac := cbv zeta; repeat preserves_step.

Lemma after_bind_val {A B} (m : M A) (k : A -> M B) w a w1 :
  m w = (Val a, w1) -> after (bind m k) w = after (k a) w1.
Proof. intros H. unfold after, bind. now rewrite H. Qed.

Lemma sync_runs env ts old w :
  syncTeacherSlotToCourseSlot env ts old w
  = (Val tt, after (syncTeacherSlotToCourseSlot env ts old) w).
Proof.
  destruct (total_sync env ts old w) as [[] H]. unfold result, after in *.
  destruct (syncTeacherSlotToCourseSlot env ts old w) as [r w1]. simpl in *.
  now subst r.
Qed.

(** * The approve route, end to end *)

Lemma update_teacher_slot_statement_runs env slotId u s w :
  outcome env UpdateTeacherSlot = Succeeds ->
  is_teacher_slot w slotId s ->
  statement env UpdateTeacherSlot (update_teacher_schedule_slots slotId u)
            (run_update_teacher_slot slotId u) w
  = (Val (Data (apply_updates u s)),
     set_teacher_schedule_slots
       (update_where_id Slot.id slotId (apply_updates u) (teacher_schedule_slots w))
       (record (update_teacher_schedule_slots slotId u) w)).
Proof.
  intros H Hs. unfold statement. rewrite H.
  now rewrite (update_teacher_slot_found (record (update_teacher_schedule_slots slotId u) w)
                 slotId s u Hs).
Qed.

Lemma sync_frame env ts old w :
  let w' := after (syncTeacherSlotToCourseSlot env ts old) w in
  schedule_change_requests w' = schedule_change_requests w
  /\ teacher_schedule_slots w' = teacher_schedule_slots w
  /\ notifications w' = notifications w
  /\ courses w' = courses w
  /\ course_students w' = course_students w
  /\ emitted w' = emitted w.
Proof.
  intros w'. subst w'.
  destruct (sync_outcomes env ts old w) as [E|[[c [_ E]]|E]]; rewrite E.
  - repeat split.
  - unfold after_update. destruct (outcome env UpdateCourseSlot); repeat split.
  - unfold after_insert. destruct (outcome env InsertCourseSlot); repeat split.
Qed.

(** The world an approval with changes leaves when every store call
    succeeds. *)
Lemma approve_with_changes_world env requestId user_id request s w :
  (forall op, outcome env op = Succeeds) ->
  is_teacher_slot w (Request.slot_id request) s ->
  let u := approve_updates request in
  let w1 :=
    set_teacher_schedule_slots
      (update_where_id Slot.id (Request.slot_id request) (apply_updates u)
                       (teacher_schedule_slots w))
      (record (update_teacher_schedule_slots (Request.slot_id request) u) w) in
  let w' := after (approve_with_changes env requestId user_id request u) w in
  teacher_schedule_slots w' =
    update_where_id Slot.id (Request.slot_id request) (apply_updates u)
                    (teacher_schedule_slots w)
  /\ course_schedule_slots w' =
       course_schedule_slots
         (after (syncTeacherSlotToCourseSlot env (apply_updates u s)
                   (Some (snapshot request))) w1)
  /\ schedule_change_requests w' =
       update_where_id Request.id requestId (Request.set_approved user_id (now env))
                       (schedule_change_requests w)
  /\ notifications w' =
       notifications w
         ++ approved_notification user_id request
              ("Your schedule change request has been approved. Your slot has been updated from "
                 ++ old_schedule request ++ " to " ++ new_schedule (apply_updates u s)
                 ++ ".")%string
            :: map (student_notification user_id request (approval_course_name request w)
                      (old_schedule request) (new_schedule (apply_updates u s)))
                   (notified_students request w)
  /\ emitted w' = emitted w ++ (if io env then approval_events request else []).
Proof.
  intros H Hs u w1 w'. subst w'. unfold approve_with_changes.
  rewrite (after_bind_val _ _ w _ _
             (update_teacher_slot_statement_runs env (Request.slot_id request)
                u s w (H UpdateTeacherSlot) Hs)).
  fold w1.
  rewrite (after_bind_val _ _ w1 (apply_updates u s) w1 eq_refl).
  rewrite (after_bind_val _ _ w1 tt _ (sync_runs env _ _ w1)).
  fold (snapshot request).
  destruct (sync_frame env (apply_updates u s) (Some (snapshot request)) w1)
    as [Hr [Ht [Hn [Hc [Hst He]]]]].
  set (w2 := after (syncTeacherSlotToCourseSlot env (apply_updates u s)
                      (Some (snapshot request))) w1) in *.
  clearbody w2. simpl in Hr, Ht, Hn, Hc, Hst, He.
  unfold after, bind, statement, query, when, emit, modify, ret.
  rewrite !H.
  unfold approval_course_name, notified_students, approval_events, enrolled_ids,
    select_course, select_enrolled, old_schedule, new_schedule.
  destruct (Js.truthy (Request.course_id request)); simpl.
  - rewrite Hc.
    destruct (data_of (maybeSingle _)); simpl; rewrite Hst;
      destruct (map Enrollment.student_id _) as [|e es]; simpl;
      destruct (io env); simpl;
      rewrite ?Hr, ?Ht, ?Hn, ?He, <- ?app_assoc, ?app_nil_r; simpl;
      repeat split; reflexivity.
  - destruct (io env); simpl;
      rewrite ?Hr, ?Ht, ?Hn, ?He, <- ?app_assoc, ?app_nil_r; simpl;
      repeat split; reflexivity.
Qed.

Lemma apply_approve_updates request s :
  apply_updates (approve_updates request) s =
  Slot.mk (Slot.id s) (Slot.teacher_id s) (Slot.course_id s)
    (if Js.truthy (Request.requested_day_of_week request)
     then Request.requested_day_of_week request else Slot.day_of_week s)
    (if Js.truthy (Request.requested_start_time request)
     then Request.requested_start_time request else Slot.start_time s)
    (if Js.truthy (Request.requested_end_time request)
     then Request.requested_end_time request else Slot.end_time s)
    (Slot.location s) (Slot.notes s).
Proof.
  unfold apply_updates, approve_updates. simpl.
  destruct (Request.requested_day_of_week request) as [d|],
           (Request.requested_start_time request) as [b|],
           (Request.requested_end_time request) as [e|]; simpl;
    repeat match goal with
           | |- context [?x =? EmptyString] => destruct (x =? EmptyString); simpl
           end; reflexivity.
Qed.

Lemma all_succeed_but_sync env :
  (forall op, outcome env op = Succeeds) ->
  forall op, sync_op op = false -> outcome env op = Succeeds.
Proof. intros H op _. apply H. Qed.

Lemma approve_with_changes_runs env requestId user_id request w :
  supabase env = true ->
  outcome env SelectRequest = Succeeds ->
  is_pending w requestId request ->
  any_requested request = true ->
  after (approve env requestId user_id) w
  = after (approve_with_changes env requestId user_id request (approve_updates request)) w.
Proof.
  intros Hs Hq Hp Hany. unfold after at 1.
  rewrite (approve_pending env requestId user_id request w Hs Hq Hp), Hany.
  exact (after_try_catch_ret _
           (fun error => mkResponse 500 "Server error" None (Some error)) w).
Qed.

(** What an approval with changes answers and leaves in the teacher-slot
    and request tables when every store call succeeds. *)
Lemma approve_with_changes_outcome env requestId user_id request s w :
  supabase env = true ->
  (forall op, outcome env op = Succeeds) ->
  is_pending w requestId request ->
  any_requested request = true ->
  is_teacher_slot w (Request.slot_id request) s ->
  result (approve env requestId user_id) w
  = Val (mkResponse 200 "Schedule change approved and slot updated successfully"
                    (Some (apply_updates (approve_updates request) s)) None)
  /\ teacher_schedule_slots (after (approve env requestId user_id) w) =
       map (fun r => if Slot.id r =? Request.slot_id request
                     then apply_updates (approve_updates request) s else r)
           (teacher_schedule_slots w)
  /\ In (apply_updates (approve_updates request) s)
        (teacher_schedule_slots (after (approve env requestId user_id) w))
  /\ schedule_change_requests (after (approve env requestId user_id) w) =
       update_where_id Request.id requestId (Request.set_approved user_id (now env))
                       (schedule_change_requests w).
Proof.
  intros Hs H Hp Hany Hslot.
  rewrite (approve_with_changes_runs env requestId user_id request w Hs
             (H SelectRequest) Hp Hany).
  destruct (approve_with_changes_world env requestId user_id request s w H Hslot)
    as [Ht [_ [Hr _]]].
  split.
  - unfold result.
    rewrite (approve_pending env requestId user_id request w Hs (H SelectRequest) Hp), Hany.
    apply result_try_catch_val.
    exact (approve_with_changes_returns env requestId user_id request s w
             (all_succeed_but_sync env H) Hslot).
  - rewrite Ht, Hr. split; [|split; [|reflexivity]].
    + destruct Hslot as [Hs0 [Hid Hn]]. unfold update_where_id.
      apply map_ext_in. intros r Hin.
      destruct (String.eqb_spec (Slot.id r) (Request.slot_id request)) as [E|];
        [|reflexivity].
      f_equal.
      apply (NoDup_map_eq Slot.id (teacher_schedule_slots w)); trivial.
      congruence.
    + destruct Hslot as [Hin [Hid _]]. now apply in_update_where_id.
Qed.

Lemma sample_pending r :
  Request.id r = "R1" -> Request.status r = "pending" ->
  is_pending (Sample.school r) "R1" r.
Proof.
  intros Hid Hst. repeat split; trivial; [now left|].
  simpl. repeat constructor. intros [].
Qed.

Lemma sample_teacher_slot r : is_teacher_slot (Sample.school r) "S1" Sample.teacher_slot.
Proof. repeat split; [now left|]. simpl. repeat constructor. intros []. Qed.

(** C3. On a pending request, approve sends the teacher-slot update, as its
    first statement and with the requested fields, when at least one of the
    requested day, start and end is present (truthy), whatever the current
    snapshot holds; when none is present it sends no slot statement at all,
    so neither the teacher-slot table nor the course-slot table changes and
    the synchronizer has nothing to write: with the store working it marks
    the request approved with [approved_by] and [approved_at], adds one
    notification for the teacher, answers 200 and publishes only the
    teacher-notifications refresh. With a requested field and the store
    working, the teacher slot of the request becomes the row with each
    requested field written over it and the other columns kept, the other
    teacher slots are kept, and that row is the one answered. In both
    cases the rows of the request's key get status "approved", the caller
    as [approved_by] and the current time as [approved_at], every other
    column and every other row being kept. *)
Theorem approve_updates_slot_iff_requested env requestId user_id request w :
  supabase env = true ->
  outcome env SelectRequest = Succeeds ->
  is_pending w requestId request ->
  let w' := after (approve env requestId user_id) w in
  let approved (r : Request.t) :=
    Request.mk (Request.id r) (Request.slot_id r) (Request.teacher_id r)
      (Request.course_id r) (Request.current_day_of_week r)
      (Request.current_start_time r) (Request.current_end_time r)
      (Request.requested_day_of_week r) (Request.requested_start_time r)
      (Request.requested_end_time r) (Request.reason r)
      "approved" (Some user_id) (Some (now env))
      (Request.declined_by r) (Request.declined_at r) (Request.declined_reason r) in
  (exists ws,
     issued w' = issued w ++ ws
     /\ (any_requested request = true ->
         exists rest,
           ws = update_teacher_schedule_slots (Request.slot_id request)
                  (approve_updates request) :: rest)
     /\ (any_requested request = false ->
         forall s, In s ws ->
           s = update_schedule_change_requests requestId (MarkApproved user_id (now env))
           \/ s = insert_notifications
                    [approved_notification user_id request
                       "Your schedule change request has been approved. No changes were needed."]))
  /\ (any_requested request = false ->
      outcome env UpdateRequest = Succeeds ->
      outcome env InsertTeacherNotification = Succeeds ->
      result (approve env requestId user_id) w
        = Val (json 200 "Schedule change request approved")
      /\ teacher_schedule_slots w' = teacher_schedule_slots w
      /\ course_schedule_slots w' = course_schedule_slots w
      /\ schedule_change_requests w' =
           update_where_id Request.id requestId
             (Request.set_approved user_id (now env)) (schedule_change_requests w)
      /\ In (Request.set_approved user_id (now env) request)
            (schedule_change_requests w')
      /\ notifications w' =
           notifications w
             ++ [Notification.mk (Request.teacher_id request) user_id
                   "Schedule Change Approved"
                   "Your schedule change request has been approved. No changes were needed."
                   ["in_app"] "custom" (Request.course_id request)]
      /\ emitted w' =
           emitted w
             ++ (if io env
                 then [Event.mk "teacher-notifications-refresh"
                         [("teacherId", Some (Request.teacher_id request))]]
                 else [])
      /\ schedule_change_requests w' =
           map (fun r => if Request.id r =? requestId then approved r else r)
               (schedule_change_requests w)
      /\ In (approved request) (schedule_change_requests w'))
  /\ (any_requested request = true ->
      (forall op, outcome env op = Succeeds) ->
      forall s, is_teacher_slot w (Request.slot_id request) s ->
      let updatedSlot :=
        Slot.mk (Slot.id s) (Slot.teacher_id s) (Slot.course_id s)
          (if Js.truthy (Request.requested_day_of_week request)
           then Request.requested_day_of_week request else Slot.day_of_week s)
          (if Js.truthy (Request.requested_start_time request)
           then Request.requested_start_time request else Slot.start_time s)
          (if Js.truthy (Request.requested_end_time request)
           then Request.requested_end_time request else Slot.end_time s)
          (Slot.location s) (Slot.notes s) in
      result (approve env requestId user_id) w
        = Val (mkResponse 200 "Schedule change approved and slot updated successfully"
                          (Some updatedSlot) None)
      /\ teacher_schedule_slots w' =
           map (fun r => if Slot.id r =? Request.slot_id request then updatedSlot else r)
               (teacher_schedule_slots w)
      /\ In updatedSlot (teacher_schedule_slots w')
      /\ schedule_change_requests w' =
           map (fun r => if Request.id r =? requestId then approved r else r)
               (schedule_change_requests w)
      /\ In (approved request) (schedule_change_requests w')).
Proof.
  intros Hs Hq Hp w' approved. subst w' approved. split; [|split].
  - unfold after.
    rewrite (approve_pending env requestId user_id request w Hs Hq Hp).
    fold (after (try_catch
                   (if any_requested request
                    then approve_with_changes env requestId user_id request
                           (approve_updates request)
                    else approve_without_changes env requestId user_id request)
                   (fun error => ret (mkResponse 500 "Server error" None (Some error)))) w).
    rewrite (after_try_catch_ret _
               (fun error => mkResponse 500 "Server error" None (Some error))).
    destruct (any_requested request) eqn:Hany.
    + destruct (approve_with_changes_issued env requestId user_id request
                  (approve_updates request) w) as [rest Hrest].
      eexists. split; [exact Hrest|]. split; [eauto|discriminate].
    + destruct (approve_without_changes_issued env requestId user_id request w)
        as [ws [Hws Hin]].
      exists ws. split; [exact Hws|]. split; [discriminate|auto].
  - intros Hany H2 H3. unfold after, result.
    rewrite (approve_pending env requestId user_id request w Hs Hq Hp), Hany.
    unfold try_catch, approve_without_changes, bind, statement, when,
      emit, modify, ret.
    rewrite H2. simpl. rewrite H3. simpl.
    destruct Hp as [Hin [Hid _]].
    pose proof (approved_rows requestId user_id (now env)
                  (schedule_change_requests w)) as Hrows.
    pose proof (approved_row_in requestId user_id (now env)
                  (schedule_change_requests w) request Hin Hid) as Hrow.
    pose proof (in_update_where_id Request.id requestId
                  (Request.set_approved user_id (now env))
                  (schedule_change_requests w) request Hin Hid) as Hset.
    destruct (io env); simpl;
      (split; [reflexivity|]); (split; [reflexivity|]); (split; [reflexivity|]);
      (split; [reflexivity|]); (split; [exact Hset|]); (split; [reflexivity|]);
      (split; [now rewrite ?app_nil_r|]); (split; [exact Hrows|exact Hrow]).
  - intros Hany H s Hslot updatedSlot. subst updatedSlot.
    destruct (approve_with_changes_outcome env requestId user_id request s w
                Hs H Hp Hany Hslot) as [H1 [H2 [H3 H4]]].
    rewrite (apply_approve_updates request s) in H1, H2, H3.
    destruct Hp as [Hin [Hid _]].
    split; [exact H1|]. split; [exact H2|]. split; [exact H3|].
    rewrite H4.
    split; [exact (approved_rows requestId user_id (now env) (schedule_change_requests w))|].
    exact (approved_row_in requestId user_id (now env)
             (schedule_change_requests w) request Hin Hid).
Qed.

Lemma approve_updates_slot_iff_requested_witness :
  (let r := Sample.request (Some "Tuesday") None None in
   let w' := after (approve Sample.env "R1" "A1") (Sample.school r) in
   exists rest,
     issued w' = update_teacher_schedule_slots "S1"
                   (Updates.mk (Some "Tuesday") None None None None None) :: rest)
  /\ (let r := Sample.request None None None in
      let w' := after (approve Sample.env "R1" "A1") (Sample.school r) in
      result (approve Sample.env "R1" "A1") (Sample.school r)
        = Val (json 200 "Schedule change request approved")
      /\ teacher_schedule_slots w' = [Sample.teacher_slot]
      /\ schedule_change_requests w' =
           [Request.mk "R1" "S1" "T1" (Some "C1")
              (Some "Tuesday") (Some "10:00") (Some "11:00")
              None None None
              "room conflict" "approved"
              (Some "A1") (Some "2024-03-01T08:00:00.000Z") None None None]
      /\ map Event.topic (emitted w') = ["teacher-notifications-refresh"])
  /\ (let r := Sample.request (Some "Wednesday") None (Some "15:00") in
      let w' := after (approve Sample.env "R1" "A1") (Sample.school r) in
      result (approve Sample.env "R1" "A1") (Sample.school r)
        = Val (mkResponse 200 "Schedule change approved and slot updated successfully"
                 (Some (Sample.slot "S1" "Wednesday" "10:00" "15:00")) None)
      /\ teacher_schedule_slots w' = [Sample.slot "S1" "Wednesday" "10:00" "15:00"]
      /\ schedule_change_requests w' =
           [Request.mk "R1" "S1" "T1" (Some "C1")
              (Some "Tuesday") (Some "10:00") (Some "11:00")
              (Some "Wednesday") None (Some "15:00")
              "room conflict" "approved"
              (Some "A1") (Some "2024-03-01T08:00:00.000Z") None None None]).
Proof.
  split; [|split].
  - destruct (approve_updates_slot_iff_requested Sample.env "R1" "A1"
                (Sample.request (Some "Tuesday") None None)
                (Sample.school (Sample.request (Some "Tuesday") None None))
                eq_refl eq_refl
                (sample_pending (Sample.request (Some "Tuesday") None None) eq_refl eq_refl))
      as [[ws [H1 [H2 _]]] _].
    destruct (H2 eq_refl) as [rest Hrest]. exists rest.
    rewrite H1, Hrest. reflexivity.
  - destruct (approve_updates_slot_iff_requested Sample.env "R1" "A1"
                (Sample.request None None None)
                (Sample.school (Sample.request None None None))
                eq_refl eq_refl
                (sample_pending (Sample.request None None None) eq_refl eq_refl))
      as [_ [H _]].
    destruct (H eq_refl eq_refl eq_refl) as [H1 [H2 [_ [_ [_ [_ [H7 [H8 _]]]]]]]].
    split; [exact H1|]. split; [exact H2|]. split; [exact H8|].
    now rewrite H7.
  - destruct (approve_updates_slot_iff_requested Sample.env "R1" "A1"
                (Sample.request (Some "Wednesday") None (Some "15:00"))
                (Sample.school (Sample.request (Some "Wednesday") None (Some "15:00")))
                eq_refl eq_refl
                (sample_pending (Sample.request (Some "Wednesday") None (Some "15:00"))
                   eq_refl eq_refl))
      as [_ [_ H]].
    destruct (H eq_refl (fun _ => eq_refl) Sample.teacher_slot
                (sample_teacher_slot (Sample.request (Some "Wednesday") None (Some "15:00"))))
      as [H1 [H2 [_ [H4 _]]]].
    split; [exact H1|]. split; [exact H2|exact H4].
Defined.

(** Scenario of an approved move. With the store working, approving a
    pending request that asks for at least one change answers 200 with the
    updated slot; that slot is the teacher's slot with each requested field
    written over it and the other fields (teacher, course, location, notes,
    and the day, start or end not asked for) kept; the other teacher slots
    are untouched, and the request row is now approved by the caller at the
    current time: the rows of the request's key get status "approved", the
    caller as [approved_by] and the current time as [approved_at], every
    other column and every other row being kept. *)
Theorem approve_applies_requested_fields env requestId user_id request s w :
  supabase env = true ->
  (forall op, outcome env op = Succeeds) ->
  is_pending w requestId request ->
  any_requested request = true ->
  is_teacher_slot w (Request.slot_id request) s ->
  let updatedSlot :=
    Slot.mk (Slot.id s) (Slot.teacher_id s) (Slot.course_id s)
      (if Js.truthy (Request.requested_day_of_week request)
       then Request.requested_day_of_week request else Slot.day_of_week s)
      (if Js.truthy (Request.requested_start_time request)
       then Request.requested_start_time request else Slot.start_time s)
      (if Js.truthy (Request.requested_end_time request)
       then Request.requested_end_time request else Slot.end_time s)
      (Slot.location s) (Slot.notes s) in
  let approved (r : Request.t) :=
    Request.mk (Request.id r) (Request.slot_id r) (Request.teacher_id r)
      (Request.course_id r) (Request.current_day_of_week r)
      (Request.current_start_time r) (Request.current_end_time r)
      (Request.requested_day_of_week r) (Request.requested_start_time r)
      (Request.requested_end_time r) (Request.reason r)
      "approved" (Some user_id) (Some (now env))
      (Request.declined_by r) (Request.declined_at r) (Request.declined_reason r) in
  let w' := after (approve env requestId user_id) w in
  result (approve env requestId user_id) w
  = Val (mkResponse 200 "Schedule change approved and slot updated successfully"
                    (Some updatedSlot) None)
  /\ teacher_schedule_slots w' =
       map (fun r => if Slot.id r =? Request.slot_id request then updatedSlot else r)
           (teacher_schedule_slots w)
  /\ In updatedSlot (teacher_schedule_slots w')
  /\ In (Request.set_approved user_id (now env) request) (schedule_change_requests w')
  /\ schedule_change_requests w' =
       map (fun r => if Request.id r =? requestId then approved r else r)
           (schedule_change_requests w)
  /\ In (approved request) (schedule_change_requests w').
Proof.
  intros Hs H Hp Hany Hslot updatedSlot approved w'. subst updatedSlot approved w'.
  destruct (approve_with_changes_outcome env requestId user_id request s w
              Hs H Hp Hany Hslot) as [H1 [H2 [H3 H4]]].
  rewrite (apply_approve_updates request s) in H1, H2, H3.
  destruct Hp as [Hin [Hid _]].
  split; [exact H1|]. split; [exact H2|]. split; [exact H3|].
  rewrite H4.
  split; [now apply in_update_where_id|].
  split; [exact (approved_rows requestId user_id (now env) (schedule_change_requests w))|].
  exact (approved_row_in requestId user_id (now env)
           (schedule_change_requests w) request Hin Hid).
Qed.

Lemma approve_applies_requested_fields_witness :
  let r := Sample.request None (Some "14:00") None in
  let w' := after (approve Sample.env "R1" "A1") (Sample.school r) in
  result (approve Sample.env "R1" "A1") (Sample.school r)
  = Val (mkResponse 200 "Schedule change approved and slot updated successfully"
                    (Some (Sample.slot "S1" "Tuesday" "14:00" "11:00")) None)
  /\ teacher_schedule_slots w' = [Sample.slot "S1" "Tuesday" "14:00" "11:00"]
  /\ schedule_change_requests w' =
       [Request.mk "R1" "S1" "T1" (Some "C1")
          (Some "Tuesday") (Some "10:00") (Some "11:00")
          None (Some "14:00") None
          "room conflict" "approved"
          (Some "A1") (Some "2024-03-01T08:00:00.000Z") None None None].
Proof.
  destruct (approve_applies_requested_fields Sample.env "R1" "A1"
              (Sample.request None (Some "14:00") None) Sample.teacher_slot
              (Sample.school (Sample.request None (Some "14:00") None))
              eq_refl (fun _ => eq_refl)
              (sample_pending (Sample.request None (Some "14:00") None) eq_refl eq_refl)
              eq_refl
              (sample_teacher_slot (Sample.request None (Some "14:00") None)))
    as [H1 [H2 [_ [_ [H5 _]]]]].
  split; [exact H1|]. split; [exact H2|exact H5].
Defined.

(** The fan-out of an approved move. With the store working, approving a
    pending request that asks for a change adds, in this order, one
    notification for the requesting teacher and one for each enrolled
    student of the request's course whose id is set (none when the request
    has no course), each with the old and the new schedule in its text; it
    publishes the schedule update, the teacher refresh and the admin
    refresh, followed by the two student refreshes when the request has a
    course, and nothing when the live channel is missing. *)
Theorem approve_fans_out env requestId user_id request s w :
  supabase env = true ->
  (forall op, outcome env op = Succeeds) ->
  is_pending w requestId request ->
  any_requested request = true ->
  is_teacher_slot w (Request.slot_id request) s ->
  let updatedSlot := apply_updates (approve_updates request) s in
  let w' := after (approve env requestId user_id) w in
  notifications w' =
    notifications w
      ++ approved_notification user_id request
           ("Your schedule change request has been approved. Your slot has been updated from "
              ++ old_schedule request ++ " to " ++ new_schedule updatedSlot ++ ".")%string
         :: map (student_notification user_id request (approval_course_name request w)
                   (old_schedule request) (new_schedule updatedSlot))
                (notified_students request w)
  /\ map Notification.recipient_id (notifications w') =
       map Notification.recipient_id (notifications w)
         ++ Request.teacher_id request :: notified_students request w
  /\ emitted w' = emitted w ++ (if io env then approval_events request else []).
Proof.
  intros Hs H Hp Hany Hslot updatedSlot w'. subst w'.
  rewrite (approve_with_changes_runs env requestId user_id request w Hs
             (H SelectRequest) Hp Hany).
  destruct (approve_with_changes_world env requestId user_id request s w H Hslot)
    as [_ [_ [_ [Hn He]]]].
  split; [exact Hn|]. split; [|exact He].
  rewrite Hn, map_app. simpl. f_equal. f_equal.
  rewrite map_map. simpl. apply map_id.
Qed.

Lemma approve_fans_out_witness :
  let r := Sample.request (Some "Wednesday") (Some "14:00") (Some "15:00") in
  let w' := after (approve Sample.env "R1" "A1") (Sample.school r) in
  map Notification.recipient_id (notifications w') = ["T1"; "P1"]
  /\ map Notification.message (notifications w') =
       ["Your schedule change request has been approved. Your slot has been updated from Tuesday 10:00-11:00 to Wednesday 14:00-15:00.";
        ("Your class " ++ quote ++ "Algebra" ++ quote
           ++ " schedule has been rescheduled from Tuesday 10:00-11:00 to Wednesday 14:00-15:00. Please update your calendar accordingly.")%string]
  /\ map Event.topic (emitted w') =
       ["schedule-updated"; "teacher-notifications-refresh";
        "admin-notifications-refresh"; "student-timetable-refresh";
        "student-notifications-refresh"].
Proof.
  destruct (approve_fans_out Sample.env "R1" "A1"
              (Sample.request (Some "Wednesday") (Some "14:00") (Some "15:00"))
              Sample.teacher_slot
              (Sample.school
                 (Sample.request (Some "Wednesday") (Some "14:00") (Some "15:00")))
              eq_refl (fun _ => eq_refl)
              (sample_pending
                 (Sample.request (Some "Wednesday") (Some "14:00") (Some "15:00"))
                 eq_refl eq_refl)
              eq_refl
              (sample_teacher_slot
                 (Sample.request (Some "Wednesday") (Some "14:00") (Some "15:00"))))
    as [H1 [H2 H3]].
  split; [exact H2|]. split; [now rewrite H1 | now rewrite H3].
Defined.

Lemma candidates_same_pair ts ts' w w' :
  Slot.course_id ts' = Slot.course_id ts ->
  Slot.teacher_id ts' = Slot.teacher_id ts ->
  course_schedule_slots w' = course_schedule_slots w ->
  candidates ts' w' = candidates ts w.
Proof. intros Hc Ht Hw. unfold candidates. now rewrite Hc, Ht, Hw. Qed.

(** An approved move reaches the course timetable. With the store working,
    when the teacher's slot has a course and a teacher, the snapshot of the
    request is complete and a course slot of the pair carries exactly that
    snapshot, approving the request rewrites that course slot (the first
    such one) with the day, start, end, location and notes of the updated
    teacher slot, and the course table has no row more or less. *)
Theorem approve_moves_the_course_slot env requestId user_id request s c w :
  supabase env = true ->
  (forall op, outcome env op = Succeeds) ->
  is_pending w requestId request ->
  any_requested request = true ->
  is_teacher_slot w (Request.slot_id request) s ->
  Js.truthy (Slot.course_id s) = true ->
  Js.truthy (Slot.teacher_id s) = true ->
  complete (Some (snapshot request)) = true ->
  find_old (snapshot request) (candidates s w) = Some c ->
  let updatedSlot := apply_updates (approve_updates request) s in
  let w' := after (approve env requestId user_id) w in
  course_schedule_slots w' =
    map (fun r =>
           if Slot.id r =? Candidate.id c
           then Slot.mk (Slot.id r) (Slot.teacher_id r) (Slot.course_id r)
                        (Slot.day_of_week updatedSlot) (Slot.start_time updatedSlot)
                        (Slot.end_time updatedSlot)
                        (Js.or_null (Slot.location s)) (Js.or_null (Slot.notes s))
           else r)
        (course_schedule_slots w).
Proof.
  intros Hs H Hp Hany Hslot Hc Ht Ho Hfind updatedSlot w'. subst w'.
  rewrite (approve_with_changes_runs env requestId user_id request w Hs
             (H SelectRequest) Hp Hany).
  destruct (approve_with_changes_world env requestId user_id request s w H Hslot)
    as [_ [Hcs _]].
  rewrite Hcs. unfold after.
  assert (Hsame : Slot.course_id updatedSlot = Slot.course_id s
                  /\ Slot.teacher_id updatedSlot = Slot.teacher_id s
                  /\ Slot.location updatedSlot = Slot.location s
                  /\ Slot.notes updatedSlot = Slot.notes s).
  { unfold updatedSlot. rewrite apply_approve_updates. now repeat split. }
  destruct Hsame as [Ec [Et [El En]]].
  fold updatedSlot.
  rewrite (sync_run env updatedSlot (Some (snapshot request)) _);
    [|now rewrite Ec|now rewrite Et|apply H].
  match goal with
  | |- context [candidates updatedSlot ?w1] =>
      rewrite (candidates_same_pair s updatedSlot w w1 Ec Et eq_refl)
  end.
  rewrite (choose_complete updatedSlot _ _ Ho), (strategy_old_exact _ _ c Hfind).
  simpl. unfold after_update. rewrite (H UpdateCourseSlot). simpl.
  unfold update_where_id, apply_update, courseSlotUpdate. simpl.
  reflexivity.
Qed.

Lemma approve_moves_the_course_slot_witness :
  let r := Sample.request (Some "Wednesday") (Some "14:00") (Some "15:00") in
  let w' := after (approve Sample.env "R1" "A1") (Sample.school r) in
  course_schedule_slots w' = [Sample.slot "k" "Wednesday" "14:00" "15:00"].
Proof.
  exact (approve_moves_the_course_slot Sample.env "R1" "A1"
           (Sample.request (Some "Wednesday") (Some "14:00") (Some "15:00"))
           Sample.teacher_slot
           (Candidate.of_row (Sample.slot "k" "Tuesday" "10:00" "11:00"))
           (Sample.school
              (Sample.request (Some "Wednesday") (Some "14:00") (Some "15:00")))
           eq_refl (fun _ => eq_refl)
           (sample_pending
              (Sample.request (Some "Wednesday") (Some "14:00") (Some "15:00"))
              eq_refl eq_refl)
           eq_refl
           (sample_teacher_slot
              (Sample.request (Some "Wednesday") (Some "14:00") (Some "15:00")))
           eq_refl eq_refl eq_refl eq_refl).
Defined.

(** * Deciding a request twice *)

Lemma patched_rows_are_closed i p l r :
  In r (update_where_id Request.id i (apply_patch p) l) ->
  Request.id r = i ->
  Request.status r = "approved" \/ Request.status r = "declined".
Proof.
  unfold update_where_id. intros Hin Hid. apply in_map_iff in Hin as [x [Hx _]].
  destruct (String.eqb_spec (Request.id x) i) as [E|E].
  - subst r. destruct p; simpl; auto.
  - subst r. contradiction.
Qed.

Lemma closed_request_is_left_alone env requestId user_id declineReason w :
  (forall r, In r (schedule_change_requests w) -> Request.id r = requestId ->
             Request.status r = "approved" \/ Request.status r = "declined") ->
  approve env requestId user_id w
  = (if supabase env
     then match outcome env SelectRequest with
          | Succeeds =>
              Val (json 404 "Schedule change request not found or already processed")
          | ReturnsError e | Throws e =>
              Val (mkResponse 500 "Server error" None (Some e))
          end
     else Val (json 500 "Supabase client is not configured"), w)
  /\ decline env requestId user_id declineReason w
     = (if supabase env
        then match outcome env SelectRequest with
             | Succeeds =>
                 Val (json 404 "Schedule change request not found or already processed")
             | ReturnsError e | Throws e =>
                 Val (mkResponse 500 "Server error" None (Some e))
             end
        else Val (json 500 "Supabase client is not configured"), w).
Proof.
  intros H. pose proof (select_pending_processed w requestId H) as Hsel.
  unfold approve, decline.
  destruct (supabase env); simpl; [|now split].
  unfold try_catch, bind, query. rewrite Hsel.
  destruct (outcome env SelectRequest); simpl; now split.
Qed.

Lemma approve_without_changes_requests env requestId user_id request w :
  outcome env UpdateRequest = Succeeds ->
  schedule_change_requests
    (after (approve_without_changes env requestId user_id request) w)
  = update_where_id Request.id requestId (Request.set_approved user_id (now env))
                    (schedule_change_requests w).
Proof.
  intros H. unfold after, approve_without_changes, bind, statement, when, emit,
    modify, ret.
  rewrite H. simpl.
  destruct (outcome env InsertTeacherNotification); simpl;
    destruct (io env); reflexivity.
Qed.

Lemma approve_marks_the_request env requestId user_id request w :
  supabase env = true ->
  (forall op, outcome env op = Succeeds) ->
  is_pending w requestId request ->
  (any_requested request = true ->
   exists s, is_teacher_slot w (Request.slot_id request) s) ->
  schedule_change_requests (after (approve env requestId user_id) w)
  = update_where_id Request.id requestId
      (apply_patch (MarkApproved user_id (now env))) (schedule_change_requests w).
Proof.
  intros Hs H Hp Hslot.
  destruct (any_requested request) eqn:Hany.
  - destruct (Hslot eq_refl) as [s Hfound].
    rewrite (approve_with_changes_runs env requestId user_id request w Hs
               (H SelectRequest) Hp Hany).
    now destruct (approve_with_changes_world env requestId user_id request s w H Hfound)
      as [_ [_ [Hr _]]].
  - unfold after at 1.
    rewrite (approve_pending env requestId user_id request w Hs (H SelectRequest) Hp), Hany.
    fold (after (try_catch (approve_without_changes env requestId user_id request)
                   (fun error => ret (mkResponse 500 "Server error" None (Some error)))) w).
    rewrite (after_try_catch_ret _
               (fun error => mkResponse 500 "Server error" None (Some error))).
    apply approve_without_changes_requests. apply H.
Qed.

Lemma decline_marks_the_request env requestId user_id declineReason request w :
  supabase env = true ->
  (forall op, outcome env op = Succeeds) ->
  is_pending w requestId request ->
  schedule_change_requests (after (decline env requestId user_id declineReason) w)
  = update_where_id Request.id requestId
      (apply_patch (MarkDeclined user_id (now env) (Js.or_null declineReason)))
      (schedule_change_requests w).
Proof.
  intros Hs H Hp. unfold after, decline. rewrite Hs. simpl.
  unfold try_catch, bind, query, statement, or_throw, when, emit, modify, ret.
  rewrite !H, (select_pending_found w requestId request Hp). simpl.
  now destruct (io env).
Qed.

(** A decision is final. Once approve or decline has gone through on a
    pending request with the store working, any later approve or decline of
    the same request, by any admin and whatever the store then answers,
    changes nothing at all; with the client configured and the lookup
    working it answers 404. *)
Theorem second_decision_changes_nothing
        env requestId user_id declineReason request w env2 user2 reason2 :
  supabase env = true ->
  (forall op, outcome env op = Succeeds) ->
  is_pending w requestId request ->
  (any_requested request = true ->
   exists s, is_teacher_slot w (Request.slot_id request) s) ->
  forall w1,
    w1 = after (approve env requestId user_id) w
    \/ w1 = after (decline env requestId user_id declineReason) w ->
    after (approve env2 requestId user2) w1 = w1
    /\ after (decline env2 requestId user2 reason2) w1 = w1
    /\ (supabase env2 = true -> outcome env2 SelectRequest = Succeeds ->
        result (approve env2 requestId user2) w1
          = Val (json 404 "Schedule change request not found or already processed")
        /\ result (decline env2 requestId user2 reason2) w1
          = Val (json 404 "Schedule change request not found or already processed")).
Proof.
  intros Hs H Hp Hslot w1 Hw1.
  assert (Hclosed : forall r, In r (schedule_change_requests w1) ->
                      Request.id r = requestId ->
                      Request.status r = "approved" \/ Request.status r = "declined").
  { intros r Hin Hid. destruct Hw1 as [-> | ->].
    - rewrite (approve_marks_the_request env requestId user_id request w Hs H Hp Hslot)
        in Hin.
      exact (patched_rows_are_closed _ _ _ r Hin Hid).
    - rewrite (decline_marks_the_request env requestId user_id declineReason request w
                 Hs H Hp) in Hin.
      exact (patched_rows_are_closed _ _ _ r Hin Hid). }
  destruct (closed_request_is_left_alone env2 requestId user2 reason2 w1 Hclosed)
    as [Ha Hd].
  unfold after, result. rewrite Ha, Hd. simpl.
  split; [reflexivity|]. split; [reflexivity|].
  intros -> ->. now split.
Qed.

Lemma second_decision_changes_nothing_witness :
  let r := Sample.request (Some "Wednesday") (Some "14:00") (Some "15:00") in
  let w1 := after (approve Sample.env "R1" "A1") (Sample.school r) in
  after (decline Sample.env_sync_down "R1" "A2" (Some "changed my mind")) w1 = w1
  /\ result (approve Sample.env "R1" "A2") w1
     = Val (json 404 "Schedule change request not found or already processed").
Proof.
  destruct (second_decision_changes_nothing Sample.env "R1" "A1" None
              (Sample.request (Some "Wednesday") (Some "14:00") (Some "15:00"))
              (Sample.school
                 (Sample.request (Some "Wednesday") (Some "14:00") (Some "15:00")))
              Sample.env_sync_down "A2" (Some "changed my mind")
              eq_refl (fun _ => eq_refl)
              (sample_pending
                 (Sample.request (Some "Wednesday") (Some "14:00") (Some "15:00"))
                 eq_refl eq_refl)
              (fun _ => ex_intro _ Sample.teacher_slot
                          (sample_teacher_slot
                             (Sample.request (Some "Wednesday") (Some "14:00")
                                             (Some "15:00"))))
              _ (or_introl eq_refl))
    as [_ [Hd _]].
  destruct (second_decision_changes_nothing Sample.env "R1" "A1" None
              (Sample.request (Some "Wednesday") (Some "14:00") (Some "15:00"))
              (Sample.school
                 (Sample.request (Some "Wednesday") (Some "14:00") (Some "15:00")))
              Sample.env "A2" None
              eq_refl (fun _ => eq_refl)
              (sample_pending
                 (Sample.request (Some "Wednesday") (Some "14:00") (Some "15:00"))
                 eq_refl eq_refl)
              (fun _ => ex_intro _ Sample.teacher_slot
                          (sample_teacher_slot
                             (Sample.request (Some "Wednesday") (Some "14:00")
                                             (Some "15:00"))))
              _ (or_introl eq_refl))
    as [_ [_ H404]].
  split; [exact Hd|]. exact (proj1 (H404 eq_refl eq_refl)).
Defined.

(** * Error replies on the secondary writes *)

Lemma total_query_quiet {A} env op (q : World -> Reply A) :
  (forall e, outcome env op <> Throws e) -> total (query env op q).
Proof.
  intros H w. unfold result, query.
  destruct (outcome env op) eqn:E; simpl; eauto. now destruct (H e).
Qed.

Lemma total_statement_quiet {A} env op s (run : World -> Reply A * World) :
  (forall e, outcome env op <> Throws e) -> total (statement env op s run).
Proof.
  intros H w. unfold result, statement.
  destruct (outcome env op) eqn:E; simpl; eauto.
  - destruct (run (record s w)). simpl. eauto.
  - now destruct (H e).
Qed.

Ltac quiet_step H :=
  first
    [ apply total_ret | apply total_emit | apply total_sync
    | apply total_query_quiet; apply H
    | apply total_statement_quiet; apply H
    | apply total_when
    | apply total_bind; [|intros]
    | match goal with
      | |- total (match ?x with _ => _ end) => destruct x
      end ].

Ltac quiet_returns H :=
  cbv zeta;
  repeat (apply returns_bind; [repeat quiet_step H | intros]);
  apply returns_ret.

Lemma approve_with_changes_returns_quiet env requestId user_id request s w :
  outcome env UpdateTeacherSlot = Succeeds ->
  (forall op e, outcome env op <> Throws e) ->
  is_teacher_slot w (Request.slot_id request) s ->
  result (approve_with_changes env requestId user_id request (approve_updates request)) w
  = Val (mkResponse 200 "Schedule change approved and slot updated successfully"
                    (Some (apply_updates (approve_updates request) s)) None).
Proof.
  intros Hu H Hs. unfold approve_with_changes.
  rewrite (result_bind_val _ _ w _ _
             (update_teacher_slot_statement_runs env (Request.slot_id request)
                (approve_updates request) s w Hu Hs)).
  match goal with |- result _ ?w1 = _ => generalize w1 end. intros w1.
  rewrite (result_bind_val _ _ w1 (apply_updates (approve_updates request) s) w1 eq_refl).
  revert w1. as_returns. quiet_returns H.
Qed.

Lemma approve_without_changes_returns_quiet env requestId user_id request :
  (forall op e, outcome env op <> Throws e) ->
  returns (json 200 "Schedule change request approved")
          (approve_without_changes env requestId user_id request).
Proof. intros H. unfold approve_without_changes. quiet_returns H. Qed.

(** Only the slot update can fail an approval. On a pending request, when
    the lookup of the request succeeds, the update of the teacher slot (if
    one is asked for) succeeds, and no store call throws, approve answers
    200 whatever error the other calls reply with: the synchronizer's, the
    write of the approved status, the course and enrolment lookups, the
    notification inserts. *)
Theorem approve_ignores_error_replies env requestId user_id request w :
  supabase env = true ->
  outcome env SelectRequest = Succeeds ->
  (forall op e, outcome env op <> Throws e) ->
  is_pending w requestId request ->
  (any_requested request = true ->
   outcome env UpdateTeacherSlot = Succeeds
   /\ exists s, is_teacher_slot w (Request.slot_id request) s) ->
  exists resp,
    result (approve env requestId user_id) w = Val resp
    /\ status resp = 200
    /\ error resp = None.
Proof.
  intros Hs Hq H Hp Hslot. unfold result.
  rewrite (approve_pending env requestId user_id request w Hs Hq Hp).
  destruct (any_requested request).
  - destruct (Hslot eq_refl) as [Hu [s Hfound]].
    eexists. split.
    + apply result_try_catch_val.
      exact (approve_with_changes_returns_quiet env requestId user_id request s w
               Hu H Hfound).
    + now split.
  - eexists. split.
    + apply result_try_catch_val.
      exact (approve_without_changes_returns_quiet env requestId user_id request H w).
    + now split.
Qed.

Lemma approve_ignores_error_replies_witness :
  exists resp,
    result (approve Cases.env_secondary_down "R1" "A1")
           (Sample.school Cases.move_to_wednesday) = Val resp
    /\ status resp = 200
    /\ error resp = None.
Proof.
  apply (approve_ignores_error_replies Cases.env_secondary_down "R1" "A1"
           Cases.move_to_wednesday (Sample.school Cases.move_to_wednesday)
           eq_refl eq_refl).
  - intros op e. destruct op; discriminate.
  - exact (sample_pending Cases.move_to_wednesday eq_refl eq_refl).
  - intros _. split; [reflexivity|].
    exists Sample.teacher_slot. exact (sample_teacher_slot Cases.move_to_wednesday).
Defined.

Ltac refused_step HU :=
  first
    [ preserves_step
    | apply preserves_statement_refused; [intros; reflexivity | exact HU] ].

Lemma approve_keeps_requests_when_refused env requestId user_id :
  outcome env UpdateRequest <> Succeeds ->
  preserves schedule_change_requests (approve env requestId user_id).
Proof.
  intros HU. unfold approve, approve_with_changes, approve_without_changes.
  cbv zeta. repeat refused_step HU.
Qed.

Lemma decline_keeps_requests_when_refused env requestId user_id declineReason :
  outcome env UpdateRequest <> Succeeds ->
  preserves schedule_change_requests (decline env requestId user_id declineReason).
Proof.
  intros HU. unfold decline. cbv zeta. repeat refused_step HU.
Qed.

Lemma decline_returns_quiet env requestId user_id declineReason request w :
  supabase env = true ->
  outcome env SelectRequest = Succeeds ->
  (forall op e, outcome env op <> Throws e) ->
  is_pending w requestId request ->
  result (decline env requestId user_id declineReason) w
  = Val (json 200 "Schedule change request declined").
Proof.
  intros Hs Hq H Hp. unfold decline. rewrite Hs. simpl.
  apply result_try_catch_val.
  assert (Hfound : query env SelectRequest (select_pending_request requestId) w
                   = (Val (Data (Some request)), w)).
  { unfold query. now rewrite Hq, (select_pending_found w requestId request Hp). }
  rewrite (result_bind_val _ _ w _ w Hfound).
  rewrite (result_bind_val _ _ w (Some request) w eq_refl).
  generalize w. as_returns. quiet_returns H.
Qed.

(** The write of the new status is not checked. When the store replies
    with an error to that write (and no call throws), approve and decline
    on a pending request still answer 200, with no error, and the request
    table is exactly as before: the request is still pending and can be
    decided again. *)
Theorem refused_status_write_goes_unnoticed
        env requestId user_id declineReason request w e :
  supabase env = true ->
  outcome env SelectRequest = Succeeds ->
  outcome env UpdateRequest = ReturnsError e ->
  (forall op e', outcome env op <> Throws e') ->
  is_pending w requestId request ->
  (any_requested request = true ->
   outcome env UpdateTeacherSlot = Succeeds
   /\ exists s, is_teacher_slot w (Request.slot_id request) s) ->
  (exists resp,
     result (approve env requestId user_id) w = Val resp
     /\ status resp = 200 /\ error resp = None)
  /\ is_pending (after (approve env requestId user_id) w) requestId request
  /\ result (decline env requestId user_id declineReason) w
     = Val (json 200 "Schedule change request declined")
  /\ is_pending (after (decline env requestId user_id declineReason) w) requestId request.
Proof.
  intros Hs Hq HU H Hp Hslot.
  assert (HU' : outcome env UpdateRequest <> Succeeds) by (rewrite HU; discriminate).
  split; [|split; [|split]].
  - unfold result.
    rewrite (approve_pending env requestId user_id request w Hs Hq Hp).
    destruct (any_requested request).
    + destruct (Hslot eq_refl) as [Hu [s Hfound]].
      eexists. split.
      * apply result_try_catch_val.
        exact (approve_with_changes_returns_quiet env requestId user_id request s w
                 Hu H Hfound).
      * now split.
    + eexists. split.
      * apply result_try_catch_val.
        exact (approve_without_changes_returns_quiet env requestId user_id request H w).
      * now split.
  - unfold is_pending.
    now rewrite (approve_keeps_requests_when_refused env requestId user_id HU' w).
  - exact (decline_returns_quiet env requestId user_id declineReason request w
             Hs Hq H Hp).
  - unfold is_pending.
    now rewrite (decline_keeps_requests_when_refused env requestId user_id
                   declineReason HU' w).
Qed.

Lemma refused_status_write_goes_unnoticed_witness :
  let w := Sample.school Cases.move_to_wednesday in
  is_pending (after (approve Cases.env_status_write_down "R1" "A1") w) "R1"
             Cases.move_to_wednesday
  /\ result (decline Cases.env_status_write_down "R1" "A1" None) w
     = Val (json 200 "Schedule change request declined").
Proof.
  destruct (refused_status_write_goes_unnoticed Cases.env_status_write_down
              "R1" "A1" None Cases.move_to_wednesday
              (Sample.school Cases.move_to_wednesday) "unavailable"
              eq_refl eq_refl eq_refl)
    as [_ [H2 [H3 _]]].
  - intros op e'. destruct op; discriminate.
  - exact (sample_pending Cases.move_to_wednesday eq_refl eq_refl).
  - intros _. split; [reflexivity|].
    exists Sample.teacher_slot. exact (sample_teacher_slot Cases.move_to_wednesday).
  - split; [exact H2 | exact H3].
Defined.

(** * Submitting a request *)

(** A submit is all or nothing. Whatever the body, the caller and the
    store, a submit that does not answer 200 has added no request and has
    changed no table and published no event. *)
Theorem failed_submit_persists_nothing env user body w resp :
  result (request_change env user body) w = Val resp ->
  status resp <> 200 ->
  let w' := after (request_change env user body) w in
  schedule_change_requests w' = schedule_change_requests w
  /\ teacher_schedule_slots w' = teacher_schedule_slots w
  /\ course_schedule_slots w' = course_schedule_slots w
  /\ notifications w' = notifications w
  /\ emitted w' = emitted w.
Proof.
  intros Hres Hst w'. subst w'.
  unfold result, after, request_change, try_catch in *.
  destruct (Js.field_or_null (SubmitBody.slotId body)) as [slotId|];
    [|destruct (Js.field_or_null (SubmitBody.reason body)); now repeat split].
  destruct (Js.field_or_null (SubmitBody.reason body)) as [why|];
    [|now repeat split].
  destruct user as [u|]; [|now repeat split].
  destruct (Js.or_null (User.id u)) as [teacher|]; [|now repeat split].
  unfold bind, query, statement, or_throw, when, emit, modify, ret, throw in *.
  destruct (outcome env SelectTeacherSlot); [|now repeat split|now repeat split].
  destruct (select_own_teacher_slot slotId (User.id u) w) as [[slotRow|]|e];
    [|now repeat split|now repeat split].
  destruct (Js.truthy (User.name u)); simpl in *;
    try destruct (outcome env SelectUser); simpl in *;
    destruct (outcome env InsertRequest); simpl in *;
    try (now repeat split);
    destruct (io env); simpl in *; injection Hres as <-; now destruct Hst.
Qed.

Lemma failed_submit_persists_nothing_witness :
  let body := SubmitBody.mk (Js.Str "S1") Js.Undefined Js.Undefined Js.Undefined
                            (Js.Str "room conflict") in
  let intruder := User.mk (Some "T2") (Some "Mr. Ode") in
  schedule_change_requests
    (after (request_change Sample.env (Some intruder) body) Sample.before_request)
  = [].
Proof.
  destruct (failed_submit_persists_nothing Sample.env
              (Some (User.mk (Some "T2") (Some "Mr. Ode")))
              (SubmitBody.mk (Js.Str "S1") Js.Undefined Js.Undefined Js.Undefined
                             (Js.Str "room conflict"))
              Sample.before_request
              (json 404 "Slot not found or you don't have permission")
              eq_refl)
    as [H _].
  - discriminate.
  - exact H.
Defined.

(** The rejections of [request_change], each with the world left as it
    was. *)
Lemma request_change_rejections env user body w :
  (Js.field_truthy (SubmitBody.slotId body) = false
   \/ Js.field_truthy (SubmitBody.reason body) = false ->
   request_change env user body w
   = (Val (json 400 "Slot ID and reason are required"), w))
  /\ (Js.field_truthy (SubmitBody.slotId body) = true ->
      Js.field_truthy (SubmitBody.reason body) = true ->
      match user with
      | Some u => Js.truthy (User.id u) = false
      | None => True
      end ->
      request_change env user body w = (Val (json 401 "User not authenticated"), w))
  /\ (forall slotId u,
        Js.field_or_null (SubmitBody.slotId body) = Some slotId ->
        Js.field_truthy (SubmitBody.reason body) = true ->
        user = Some u ->
        Js.truthy (User.id u) = true ->
        outcome env SelectTeacherSlot = Succeeds ->
        (forall r, In r (teacher_schedule_slots w) ->
                   Slot.id r = slotId -> Slot.teacher_id r <> User.id u) ->
        request_change env user body w
        = (Val (json 404 "Slot not found or you don't have permission"), w)).
Proof.
  assert (Hnull : forall f, Js.field_truthy f = false -> Js.field_or_null f = None).
  { intros [| |s]; simpl; trivial. destruct (s =? EmptyString); [trivial|discriminate]. }
  assert (Hsome : forall f, Js.field_truthy f = true -> exists s, Js.field_or_null f = Some s).
  { intros [| |s]; simpl; try discriminate.
    destruct (s =? EmptyString); [discriminate|eauto]. }
  unfold request_change, try_catch. split; [|split].
  - intros [H|H]; rewrite (Hnull _ H); [|destruct (Js.field_or_null _)]; reflexivity.
  - intros H1 H2 Hu.
    destruct (Hsome _ H1) as [s1 ->], (Hsome _ H2) as [s2 ->].
    destruct user as [u|]; [|reflexivity].
    unfold Js.or_null. now rewrite Hu.
  - intros slotId u H1 H2 -> Hu Hq Hnone.
    rewrite H1. destruct (Hsome _ H2) as [s2 ->].
    unfold Js.or_null. rewrite Hu.
    destruct (User.id u) as [teacher|] eqn:Eid; [|discriminate].
    unfold bind, query. rewrite Hq.
    unfold select_own_teacher_slot. rewrite filter_none; [reflexivity|].
    intros r Hr. destruct (String.eqb_spec (Slot.id r) slotId) as [E|]; simpl;
      [|reflexivity].
    specialize (Hnone r Hr E).
    destruct (Slot.teacher_id r) as [t|]; simpl; [|reflexivity].
    destruct (String.eqb_spec t teacher); [congruence|reflexivity].
Qed.

(** A [catch] around a [try] whose own [catch] answers has nothing to
    catch. *)
Lemma try_catch_twice {A} (m : M A) (f : string -> A) (h : string -> M A) w :
  try_catch (try_catch m (fun e => ret (f e))) h w
  = try_catch m (fun e => ret (f e)) w.
Proof. unfold try_catch, ret. destruct (m w) as [[a|e] w1]; reflexivity. Qed.

(** On a reason that is absent, null or a string, the route is
    [request_change]: the log passes, and the outer [catch] has nothing
    left to catch. *)
Lemma post_request_change_plain env not_a_function user body reason w :
  Posted.reason body = Reason.Plain reason ->
  post_request_change env not_a_function user body w
  = request_change env user
      (SubmitBody.mk (Posted.slotId body) (Posted.requestedDayOfWeek body)
                     (Posted.requestedStartTime body)
                     (Posted.requestedEndTime body) reason) w.
Proof.
  intros H. unfold post_request_change. rewrite H. unfold request_change.
  exact (try_catch_twice _
           (fun error => mkResponse 500 "Server error" None
                           (if development env then Some error else None)) _ w).
Qed.

(** The order of the checks of a submit, from the first statement of the
    route. A reason that is neither absent, null nor a string is answered
    500 "Server error" before any check, whatever the slot id and whoever
    the caller: the log of the request calls [substring] on it; the error
    message is in the answer in development only. Otherwise: a body
    without a slot id or without a reason (absent, null or the empty
    string) is answered 400 before anything else is looked at; with both, a
    caller without an id is answered 401 before the store is asked; and
    with the store answering, a slot id that names no slot of the caller
    (no such slot, or a slot of another teacher) is answered 404. None of
    these answers changes the store or publishes an event. *)
Theorem submit_rejections env not_a_function user body w :
  (Posted.reason body = Reason.NotAString ->
   post_request_change env not_a_function user body w
   = (Val (mkResponse 500 "Server error" None
             (if development env then Some not_a_function else None)), w))
  /\ (forall reason,
        Posted.reason body = Reason.Plain reason ->
        (Js.field_truthy (Posted.slotId body) = false
         \/ Js.field_truthy reason = false ->
         post_request_change env not_a_function user body w
         = (Val (json 400 "Slot ID and reason are required"), w))
        /\ (Js.field_truthy (Posted.slotId body) = true ->
            Js.field_truthy reason = true ->
            match user with
            | Some u => Js.truthy (User.id u) = false
            | None => True
            end ->
            post_request_change env not_a_function user body w
            = (Val (json 401 "User not authenticated"), w))
        /\ (forall slotId u,
              Js.field_or_null (Posted.slotId body) = Some slotId ->
              Js.field_truthy reason = true ->
              user = Some u ->
              Js.truthy (User.id u) = true ->
              outcome env SelectTeacherSlot = Succeeds ->
              (forall r, In r (teacher_schedule_slots w) ->
                         Slot.id r = slotId -> Slot.teacher_id r <> User.id u) ->
              post_request_change env not_a_function user body w
              = (Val (json 404 "Slot not found or you don't have permission"), w))).
Proof.
  split.
  - intros H. unfold post_request_change, try_catch, throw, ret. now rewrite H.
  - intros reason H.
    rewrite (post_request_change_plain env not_a_function user body reason w H).
    exact (request_change_rejections env user
             (SubmitBody.mk (Posted.slotId body) (Posted.requestedDayOfWeek body)
                            (Posted.requestedStartTime body)
                            (Posted.requestedEndTime body) reason) w).
Qed.

Lemma submit_rejections_witness :
  let w := Sample.before_request in
  let post := post_request_change Sample.env "reason?.substring is not a function" in
  let teacher2 := User.mk (Some "T2") None in
  post None (Posted.mk Js.Undefined Js.Undefined Js.Undefined Js.Undefined
                       Reason.NotAString) w
  = (Val (json 500 "Server error"), w)
  /\ post (Some Sample.teacher)
          (Posted.mk (Js.Str "S1") Js.Undefined Js.Undefined Js.Undefined
                     Reason.NotAString) w
     = (Val (json 500 "Server error"), w)
  /\ post None (Posted.mk (Js.Str "S1") Js.Undefined Js.Undefined Js.Undefined
                          (Reason.Plain Js.Null)) w
     = (Val (json 400 "Slot ID and reason are required"), w)
  /\ post None (Posted.mk (Js.Str "S1") (Js.Str "Wednesday") (Js.Str "14:00")
                          (Js.Str "15:00") (Reason.Plain (Js.Str "room conflict"))) w
     = (Val (json 401 "User not authenticated"), w)
  /\ post (Some teacher2)
          (Posted.mk (Js.Str "S1") (Js.Str "Wednesday") (Js.Str "14:00")
                     (Js.Str "15:00") (Reason.Plain (Js.Str "room conflict"))) w
     = (Val (json 404 "Slot not found or you don't have permission"), w).
Proof.
  split; [|split; [|split; [|split]]].
  - exact (proj1 (submit_rejections Sample.env "reason?.substring is not a function"
                    None
                    (Posted.mk Js.Undefined Js.Undefined Js.Undefined Js.Undefined
                               Reason.NotAString)
                    Sample.before_request) eq_refl).
  - exact (proj1 (submit_rejections Sample.env "reason?.substring is not a function"
                    (Some Sample.teacher)
                    (Posted.mk (Js.Str "S1") Js.Undefined Js.Undefined Js.Undefined
                               Reason.NotAString)
                    Sample.before_request) eq_refl).
  - exact (proj1 (proj2 (submit_rejections Sample.env
                           "reason?.substring is not a function" None
                           (Posted.mk (Js.Str "S1") Js.Undefined Js.Undefined
                                      Js.Undefined (Reason.Plain Js.Null))
                           Sample.before_request) Js.Null eq_refl)
                 (or_intror eq_refl)).
  - exact (proj1 (proj2 (proj2 (submit_rejections Sample.env
                                  "reason?.substring is not a function" None
                                  (Posted.mk (Js.Str "S1") (Js.Str "Wednesday")
                                             (Js.Str "14:00") (Js.Str "15:00")
                                             (Reason.Plain (Js.Str "room conflict")))
                                  Sample.before_request)
                               (Js.Str "room conflict") eq_refl))
                 eq_refl eq_refl I).
  - apply (proj2 (proj2 (proj2 (submit_rejections Sample.env
                                  "reason?.substring is not a function"
                                  (Some (User.mk (Some "T2") None))
                                  (Posted.mk (Js.Str "S1") (Js.Str "Wednesday")
                                             (Js.Str "14:00") (Js.Str "15:00")
                                             (Reason.Plain (Js.Str "room conflict")))
                                  Sample.before_request)
                               (Js.Str "room conflict") eq_refl))
                 "S1" (User.mk (Some "T2") None) eq_refl eq_refl eq_refl eq_refl eq_refl).
    intros r [<-|[]] _. discriminate.
Defined.

Lemma field_or_null_truthy f s : Js.field_or_null f = Some s -> Js.truthy (Some s) = true.
Proof.
  destruct f as [| |x]; simpl; try discriminate.
  destruct (x =? EmptyString) eqn:E; [discriminate|].
  intros H. injection H as <-. now rewrite E.
Qed.

Lemma select_own_teacher_slot_found w slotId teacher s :
  is_teacher_slot w slotId s ->
  Slot.teacher_id s = Some teacher ->
  select_own_teacher_slot slotId (Some teacher) w = Data (Some s).
Proof.
  intros [Hin [Hid Hn]] Ht. unfold select_own_teacher_slot.
  rewrite (filter_unique Slot.id _ (teacher_schedule_slots w) s Hn Hin).
  - reflexivity.
  - rewrite Hid, Ht, String.eqb_refl. simpl. now rewrite String.eqb_refl.
  - intros x _ Hx. apply andb_prop in Hx as [Hx _].
    apply String.eqb_eq in Hx. congruence.
Qed.

(** The world a submit leaves when it goes through. *)
Lemma request_change_runs env u body w slotId why teacher s :
  Js.field_or_null (SubmitBody.slotId body) = Some slotId ->
  Js.field_or_null (SubmitBody.reason body) = Some why ->
  User.id u = Some teacher ->
  Js.truthy (Some teacher) = true ->
  outcome env SelectTeacherSlot = Succeeds ->
  (forall e, outcome env SelectUser <> Throws e) ->
  outcome env InsertRequest = Succeeds ->
  is_teacher_slot w slotId s ->
  Slot.teacher_id s = Some teacher ->
  request_change env (Some u) body w
  = (Val (json 200 "Schedule change request submitted successfully"),
     mkWorld (schedule_change_requests w ++ [requestData env slotId teacher s body why])
             (teacher_schedule_slots w) (course_schedule_slots w) (notifications w)
             (courses w) (course_students w)
             (emitted w
                ++ (if io env
                    then [Event.mk "admin-notifications-refresh"
                            [("type", Some "schedule_change_request");
                             ("teacherId", Some teacher)]]
                    else []))
             (issued w
                ++ [insert_schedule_change_requests
                      (requestData env slotId teacher s body why)])).
Proof.
  intros H1 H2 Hid Htr Hq Hu Hi Hs Hown.
  unfold request_change, try_catch. rewrite H1, H2.
  unfold Js.or_null. rewrite Hid, Htr.
  unfold bind, query, statement, or_throw, when, emit, modify, ret, throw.
  rewrite Hq, (select_own_teacher_slot_found w slotId teacher s Hs Hown).
  destruct (Js.truthy (User.name u)); simpl;
    [|destruct (outcome env SelectUser) eqn:E; [| |now destruct (Hu e)]];
    rewrite Hi; simpl; destruct (io env); simpl; now rewrite ?app_nil_r.
Qed.

Lemma submitted_row_is_pending env u body w slotId why teacher s :
  Js.field_or_null (SubmitBody.slotId body) = Some slotId ->
  Js.field_or_null (SubmitBody.reason body) = Some why ->
  User.id u = Some teacher ->
  Js.truthy (Some teacher) = true ->
  outcome env SelectTeacherSlot = Succeeds ->
  (forall e, outcome env SelectUser <> Throws e) ->
  outcome env InsertRequest = Succeeds ->
  is_teacher_slot w slotId s ->
  Slot.teacher_id s = Some teacher ->
  NoDup (map Request.id (schedule_change_requests w)) ->
  ~ In (new_id env) (map Request.id (schedule_change_requests w)) ->
  let w' := after (request_change env (Some u) body) w in
  is_pending w' (new_id env) (requestData env slotId teacher s body why)
  /\ is_teacher_slot w' slotId s
  /\ course_schedule_slots w' = course_schedule_slots w
  /\ courses w' = courses w
  /\ course_students w' = course_students w
  /\ notifications w' = notifications w.
Proof.
  intros H1 H2 Hid Htr Hq Hu Hi Hs Hown Hn Hfresh w'. subst w'. unfold after.
  rewrite (request_change_runs env u body w slotId why teacher s
             H1 H2 Hid Htr Hq Hu Hi Hs Hown).
  simpl. split; [|split; [exact Hs|now repeat split]].
  repeat split; simpl.
  - apply in_or_app. right. now left.
  - rewrite map_app. simpl. apply NoDup_app.
    + exact Hn.
    + repeat constructor. intros [].
    + intros x Hx [<-|[]]. exact (Hfresh Hx).
Qed.

(** A submitted request can be found and carries the slot as it stands.
    When a teacher's submit goes through for one of her slots, on a request
    table with unique keys that the new key is not part of, the new row is
    the pending request of that key, which is how approve and decline look
    it up; its snapshot is the day, start and end of the slot at that
    moment, whatever is requested, and each requested field is the one of
    the body, or null when the body leaves it out or empty. *)
Theorem submitted_request_is_pending env u body w slotId why teacher s :
  Js.field_or_null (SubmitBody.slotId body) = Some slotId ->
  Js.field_or_null (SubmitBody.reason body) = Some why ->
  User.id u = Some teacher ->
  Js.truthy (Some teacher) = true ->
  outcome env SelectTeacherSlot = Succeeds ->
  (forall e, outcome env SelectUser <> Throws e) ->
  outcome env InsertRequest = Succeeds ->
  is_teacher_slot w slotId s ->
  Slot.teacher_id s = Some teacher ->
  NoDup (map Request.id (schedule_change_requests w)) ->
  ~ In (new_id env) (map Request.id (schedule_change_requests w)) ->
  let w' := after (request_change env (Some u) body) w in
  exists row,
    is_pending w' (new_id env) row
    /\ select_pending_request (new_id env) w' = Data (Some row)
    /\ Request.slot_id row = slotId
    /\ Request.teacher_id row = teacher
    /\ Request.reason row = why
    /\ Request.current_day_of_week row = Slot.day_of_week s
    /\ Request.current_start_time row = Slot.start_time s
    /\ Request.current_end_time row = Slot.end_time s
    /\ Request.requested_day_of_week row
       = Js.field_or_null (SubmitBody.requestedDayOfWeek body)
    /\ Request.requested_start_time row
       = Js.field_or_null (SubmitBody.requestedStartTime body)
    /\ Request.requested_end_time row
       = Js.field_or_null (SubmitBody.requestedEndTime body).
Proof.
  intros H1 H2 Hid Htr Hq Hu Hi Hs Hown Hn Hfresh w'.
  destruct (submitted_row_is_pending env u body w slotId why teacher s
              H1 H2 Hid Htr Hq Hu Hi Hs Hown Hn Hfresh) as [Hp _].
  exists (requestData env slotId teacher s body why).
  split; [exact Hp|]. split; [exact (select_pending_found _ _ _ Hp)|].
  now repeat split.
Qed.

Lemma submitted_request_is_pending_witness :
  let w' := after (request_change Sample.env (Some Sample.teacher) Sample.change_body)
                  Sample.before_request in
  exists row,
    select_pending_request "generated-id" w' = Data (Some row)
    /\ Request.current_day_of_week row = Some "Tuesday"
    /\ Request.requested_day_of_week row = Some "Wednesday".
Proof.
  destruct (submitted_request_is_pending Sample.env Sample.teacher Sample.change_body
              Sample.before_request "S1" "room conflict" "T1" Sample.teacher_slot
              eq_refl eq_refl eq_refl eq_refl eq_refl)
    as [row [_ [H2 [_ [_ [_ [H6 [_ [_ [H9 _]]]]]]]]]].
  - intros e. discriminate.
  - reflexivity.
  - repeat split; [now left|]. simpl. repeat constructor. intros [].
  - reflexivity.
  - constructor.
  - intros [].
  - exists row. split; [exact H2|]. split; [exact H6 | exact H9].
Defined.

Lemma requested_or_kept f v :
  (if Js.truthy (Js.field_or_null f) then Js.field_or_null f else v)
  = match Js.field_or_null f with Some x => Some x | None => v end.
Proof.
  destruct (Js.field_or_null f) as [x|] eqn:E; [|reflexivity].
  now rewrite (field_or_null_truthy f x E).
Qed.

(** From the teacher's request to the timetable. When a teacher's submit
    goes through and an admin then approves the new request, the store
    working throughout, the teacher's slot ends up with each day, start and
    end the body asked for and its former value for those the body left out
    or empty; the answer is 200 with that slot, and the request is approved:
    the request table then holds the submitted row with status "approved",
    the admin as [approved_by] and the current time as [approved_at], and
    differs from the table after the submit in the rows of the new key
    only. This needs at least one requested field in the body. *)
Theorem submit_then_approve env u body w slotId why teacher s admin :
  supabase env = true ->
  (forall op, outcome env op = Succeeds) ->
  Js.field_or_null (SubmitBody.slotId body) = Some slotId ->
  Js.field_or_null (SubmitBody.reason body) = Some why ->
  User.id u = Some teacher ->
  Js.truthy (Some teacher) = true ->
  is_teacher_slot w slotId s ->
  Slot.teacher_id s = Some teacher ->
  NoDup (map Request.id (schedule_change_requests w)) ->
  ~ In (new_id env) (map Request.id (schedule_change_requests w)) ->
  Js.field_truthy (SubmitBody.requestedDayOfWeek body)
  || Js.field_truthy (SubmitBody.requestedStartTime body)
  || Js.field_truthy (SubmitBody.requestedEndTime body) = true ->
  let updatedSlot :=
    Slot.mk (Slot.id s) (Slot.teacher_id s) (Slot.course_id s)
      match Js.field_or_null (SubmitBody.requestedDayOfWeek body) with
      | Some d => Some d
      | None => Slot.day_of_week s
      end
      match Js.field_or_null (SubmitBody.requestedStartTime body) with
      | Some b => Some b
      | None => Slot.start_time s
      end
      match Js.field_or_null (SubmitBody.requestedEndTime body) with
      | Some e => Some e
      | None => Slot.end_time s
      end
      (Slot.location s) (Slot.notes s) in
  let approved (r : Request.t) :=
    Request.mk (Request.id r) (Request.slot_id r) (Request.teacher_id r)
      (Request.course_id r) (Request.current_day_of_week r)
      (Request.current_start_time r) (Request.current_end_time r)
      (Request.requested_day_of_week r) (Request.requested_start_time r)
      (Request.requested_end_time r) (Request.reason r)
      "approved" (Some admin) (Some (now env))
      (Request.declined_by r) (Request.declined_at r) (Request.declined_reason r) in
  let w1 := after (request_change env (Some u) body) w in
  let w2 := after (approve env (new_id env) admin) w1 in
  result (approve env (new_id env) admin) w1
  = Val (mkResponse 200 "Schedule change approved and slot updated successfully"
                    (Some updatedSlot) None)
  /\ In updatedSlot (teacher_schedule_slots w2)
  /\ In (Request.set_approved admin (now env) (requestData env slotId teacher s body why))
        (schedule_change_requests w2)
  /\ In (Request.mk (new_id env) slotId teacher (Js.or_null (Slot.course_id s))
           (Slot.day_of_week s) (Slot.start_time s) (Slot.end_time s)
           (Js.field_or_null (SubmitBody.requestedDayOfWeek body))
           (Js.field_or_null (SubmitBody.requestedStartTime body))
           (Js.field_or_null (SubmitBody.requestedEndTime body))
           why "approved" (Some admin) (Some (now env)) None None None)
        (schedule_change_requests w2)
  /\ schedule_change_requests w2 =
       map (fun r => if Request.id r =? new_id env then approved r else r)
           (schedule_change_requests w1).
Proof.
  intros Hs H H1 H2 Hid Htr Hslot Hown Hn Hfresh Hany updatedSlot approved w1 w2.
  subst approved.
  assert (Hquiet : forall e, outcome env SelectUser <> Throws e)
    by (intros e; rewrite H; discriminate).
  destruct (submitted_row_is_pending env u body w slotId why teacher s
              H1 H2 Hid Htr (H SelectTeacherSlot) Hquiet
              (H InsertRequest) Hslot Hown Hn Hfresh)
    as [Hp [Hslot1 _]].
  fold w1 in Hp, Hslot1.
  set (row := requestData env slotId teacher s body why) in *.
  assert (Hreq : any_requested row = true).
  { unfold any_requested, row, requestData. simpl.
    assert (Ht : forall f, Js.truthy (Js.field_or_null f) = Js.field_truthy f).
    { intros [| |x]; simpl; trivial. now destruct (x =? EmptyString) eqn:E; simpl; rewrite ?E. }
    now rewrite !Ht. }
  assert (Hu : apply_updates (approve_updates row) s = updatedSlot).
  { rewrite apply_approve_updates. unfold row, requestData, updatedSlot. simpl.
    now rewrite !requested_or_kept. }
  assert (Hsid : Request.slot_id row = slotId) by reflexivity.
  rewrite <- Hsid in Hslot1.
  split; [|split; [|split; [|split]]].
  - unfold result.
    rewrite (approve_pending env (new_id env) admin row w1 Hs (H SelectRequest) Hp), Hreq.
    apply result_try_catch_val. rewrite <- Hu.
    exact (approve_with_changes_returns env (new_id env) admin row s w1
             (all_succeed_but_sync env H) Hslot1).
  - unfold w2.
    rewrite (approve_with_changes_runs env (new_id env) admin row w1 Hs
               (H SelectRequest) Hp Hreq).
    destruct (approve_with_changes_world env (new_id env) admin row s w1 H Hslot1)
      as [Ht _].
    rewrite Ht, <- Hu. destruct Hslot1 as [Hin [Hid1 _]].
    now apply in_update_where_id.
  - unfold w2.
    rewrite (approve_with_changes_runs env (new_id env) admin row w1 Hs
               (H SelectRequest) Hp Hreq).
    destruct (approve_with_changes_world env (new_id env) admin row s w1 H Hslot1)
      as [_ [_ [Hr _]]].
    rewrite Hr. destruct Hp as [Hin [Hid1 _]]. now apply in_update_where_id.
  - unfold w2.
    rewrite (approve_with_changes_runs env (new_id env) admin row w1 Hs
               (H SelectRequest) Hp Hreq).
    destruct (approve_with_changes_world env (new_id env) admin row s w1 H Hslot1)
      as [_ [_ [Hr _]]].
    rewrite Hr. destruct Hp as [Hin [Hid1 _]].
    exact (approved_row_in (new_id env) admin (now env)
             (schedule_change_requests w1) row Hin Hid1).
  - unfold w2.
    rewrite (approve_with_changes_runs env (new_id env) admin row w1 Hs
               (H SelectRequest) Hp Hreq).
    destruct (approve_with_changes_world env (new_id env) admin row s w1 H Hslot1)
      as [_ [_ [Hr _]]].
    rewrite Hr.
    exact (approved_rows (new_id env) admin (now env) (schedule_change_requests w1)).
Qed.

Lemma submit_then_approve_witness :
  let body := SubmitBody.mk (Js.Str "S1") Js.Undefined (Js.Str "14:00") Js.Null
                            (Js.Str "room conflict") in
  let w1 := after (request_change Sample.env (Some Sample.teacher) body)
                  Sample.before_request in
  let w2 := after (approve Sample.env "generated-id" "A1") w1 in
  result (approve Sample.env "generated-id" "A1") w1
  = Val (mkResponse 200 "Schedule change approved and slot updated successfully"
                    (Some (Sample.slot "S1" "Tuesday" "14:00" "11:00")) None)
  /\ In (Sample.slot "S1" "Tuesday" "14:00" "11:00") (teacher_schedule_slots w2)
  /\ schedule_change_requests w2 =
       [Request.mk "generated-id" "S1" "T1" (Some "C1")
          (Some "Tuesday") (Some "10:00") (Some "11:00")
          None (Some "14:00") None
          "room conflict" "approved"
          (Some "A1") (Some "2024-03-01T08:00:00.000Z") None None None].
Proof.
  assert (Hslot : is_teacher_slot Sample.before_request "S1" Sample.teacher_slot).
  { repeat split; [now left|]. simpl. repeat constructor. intros []. }
  destruct (submit_then_approve Sample.env Sample.teacher
              (SubmitBody.mk (Js.Str "S1") Js.Undefined (Js.Str "14:00") Js.Null
                             (Js.Str "room conflict"))
              Sample.before_request "S1" "room conflict" "T1" Sample.teacher_slot
              "A1" eq_refl (fun _ => eq_refl) eq_refl eq_refl eq_refl eq_refl
              Hslot eq_refl (NoDup_nil string) (fun x => x) eq_refl)
    as [H1 [H2 [_ [_ H5]]]].
  split; [exact H1|]. split; [exact H2|exact H5].
Defined.

(** * Editing a teacher slot *)

Lemma edit_runs env slotId body existing courseRow w :
  supabase env = true ->
  outcome env SelectTeacherSlot = Succeeds ->
  outcome env SelectCourse = Succeeds ->
  is_teacher_slot w slotId existing ->
  course_lookup w body courseRow ->
  edit_teacher_slot env slotId body w
  = try_catch (edit_after_lookup env slotId body existing courseRow)
              (fun error => ret (json 500 "Server error")) w.
Proof.
  intros Hs Hq Hc Hslot Hlook. unfold edit_teacher_slot. rewrite Hs. simpl.
  unfold try_catch, bind at 1. unfold bind at 1. unfold query at 1. rewrite Hq.
  rewrite (select_teacher_slot_found w slotId existing Hslot). simpl.
  destruct courseRow as [c|]; simpl in Hlook.
  - destruct Hlook as [Ht Hsel]. rewrite Ht.
    unfold bind at 1. unfold bind at 1. unfold query. rewrite Hc, Hsel. reflexivity.
  - now rewrite Hlook.
Qed.

Lemma edit_after_lookup_world env slotId body existing courseRow w :
  outcome env UpdateTeacherSlot = Succeeds ->
  is_teacher_slot w slotId existing ->
  let payload := edit_payload body existing courseRow in
  let slotRow := apply_updates payload existing in
  let w1 :=
    set_teacher_schedule_slots
      (update_where_id Slot.id slotId (apply_updates payload) (teacher_schedule_slots w))
      (record (update_teacher_schedule_slots slotId payload) w) in
  let w' := after (edit_after_lookup env slotId body existing courseRow) w in
  teacher_schedule_slots w' =
    update_where_id Slot.id slotId (apply_updates payload) (teacher_schedule_slots w)
  /\ course_schedule_slots w' =
       course_schedule_slots
         (after (syncTeacherSlotToCourseSlot env slotRow (Some (old_values existing))) w1)
  /\ schedule_change_requests w' = schedule_change_requests w
  /\ notifications w' = notifications w
  /\ emitted w' =
       emitted w
         ++ (if io env
             then Event.mk "admin-timetable-refresh"
                    [("scope", Some "teacher"); ("teacherId", Slot.teacher_id slotRow);
                     ("slotId", Some (Slot.id slotRow)); ("action", Some "update")]
                  :: (if Js.truthy (Slot.course_id slotRow)
                      then [Event.mk "student-timetable-refresh"
                              [("courseId", Slot.course_id slotRow)]]
                      else [])
             else []).
Proof.
  intros Hu Hslot payload slotRow w1 w'. subst w'. unfold edit_after_lookup.
  cbv zeta. fold payload.
  rewrite (after_bind_val _ _ w _ _
             (update_teacher_slot_statement_runs env slotId payload existing w Hu Hslot)).
  fold w1. fold slotRow.
  rewrite (after_bind_val _ _ w1 slotRow w1 eq_refl).
  rewrite (after_bind_val _ _ w1 tt _ (sync_runs env _ _ w1)).
  fold (old_values existing).
  destruct (sync_frame env slotRow (Some (old_values existing)) w1)
    as [Hr [Ht [Hn [_ [_ He]]]]].
  set (w2 := after (syncTeacherSlotToCourseSlot env slotRow
                      (Some (old_values existing))) w1) in *.
  clearbody w2. simpl in Hr, Ht, Hn, He.
  unfold after, bind, when, emit, modify, ret.
  destruct (io env); destruct (Js.truthy (Slot.course_id slotRow)); simpl;
    rewrite ?Hr, ?Ht, ?Hn, ?He, <- ?app_assoc, ?app_nil_r; now repeat split.
Qed.

(** When an edit is turned away. With the client configured: an id that
    names no teacher slot is answered 404 and a body that names a course
    that does not exist is answered 404, both leaving the store as it was;
    and when the store refuses the update of the slot, the answer is 500,
    the synchronizer is not run and no table or event changes. *)
Theorem edit_rejections env slotId body w :
  supabase env = true ->
  outcome env SelectTeacherSlot = Succeeds ->
  ((forall r, In r (teacher_schedule_slots w) -> Slot.id r <> slotId) ->
   edit_teacher_slot env slotId body w = (Val (json 404 "Slot not found"), w))
  /\ (forall existing,
        is_teacher_slot w slotId existing ->
        Js.field_truthy (EditBody.courseId body) = true ->
        outcome env SelectCourse = Succeeds ->
        (forall c, In c (courses w) ->
                   Some (Course.id c) <> Js.field_or_null (EditBody.courseId body)) ->
        edit_teacher_slot env slotId body w = (Val (json 404 "Course not found"), w))
  /\ (forall existing courseRow,
        is_teacher_slot w slotId existing ->
        course_lookup w body courseRow ->
        outcome env SelectCourse = Succeeds ->
        outcome env UpdateTeacherSlot <> Succeeds ->
        let w' := after (edit_teacher_slot env slotId body) w in
        result (edit_teacher_slot env slotId body) w = Val (json 500 "Server error")
        /\ teacher_schedule_slots w' = teacher_schedule_slots w
        /\ course_schedule_slots w' = course_schedule_slots w
        /\ emitted w' = emitted w).
Proof.
  intros Hs Hq. split; [|split].
  - intros Hnone. unfold edit_teacher_slot. rewrite Hs. simpl.
    unfold try_catch, bind, query. rewrite Hq.
    unfold select_teacher_slot. rewrite filter_none; [reflexivity|].
    intros r Hr. apply String.eqb_neq. exact (Hnone r Hr).
  - intros existing Hslot Ht Hc Hnone. unfold edit_teacher_slot. rewrite Hs. simpl.
    unfold try_catch, bind, query. rewrite Hq.
    rewrite (select_teacher_slot_found w slotId existing Hslot). simpl.
    rewrite Ht, Hc. unfold select_course. rewrite filter_none; [reflexivity|].
    intros c Hin. specialize (Hnone c Hin).
    destruct (Js.field_or_null (EditBody.courseId body)) as [i|]; simpl; [|reflexivity].
    apply String.eqb_neq. congruence.
  - intros existing courseRow Hslot Hlook Hc Hu w'. subst w'.
    unfold result, after.
    rewrite (edit_runs env slotId body existing courseRow w Hs Hq Hc Hslot Hlook).
    unfold try_catch, edit_after_lookup, bind at 1. cbv zeta. unfold bind at 1.
    unfold statement.
    destruct (outcome env UpdateTeacherSlot); [congruence| |]; now repeat split.
Qed.

Lemma edit_rejections_witness :
  edit_teacher_slot Sample.env "no-such-slot" empty_body Sample.before_request
  = (Val (json 404 "Slot not found"), Sample.before_request).
Proof.
  apply (proj1 (edit_rejections Sample.env "no-such-slot" empty_body
                  Sample.before_request eq_refl eq_refl)).
  intros r [<-|[]]. discriminate.
Defined.

Lemma update_the_teacher_slot w slotId s f :
  is_teacher_slot w slotId s ->
  update_where_id Slot.id slotId f (teacher_schedule_slots w)
  = map (fun r => if Slot.id r =? slotId then f s else r) (teacher_schedule_slots w).
Proof.
  intros [Hin [Hid Hn]]. unfold update_where_id. apply map_ext_in. intros r Hr.
  destruct (String.eqb_spec (Slot.id r) slotId) as [E|]; [|reflexivity].
  f_equal. apply (NoDup_map_eq Slot.id (teacher_schedule_slots w)); trivial.
  congruence.
Qed.

Lemma map_if_same {A} (p : A -> bool) (s : A) (l : list A) :
  (forall r, In r l -> p r = true -> r = s) ->
  map (fun r => if p r then s else r) l = l.
Proof.
  intros H. rewrite <- (map_id l) at 2. apply map_ext_in. intros r Hr.
  destruct (p r) eqn:E; [|reflexivity]. symmetry. exact (H r Hr E).
Qed.

(** An edit writes the fields the body names and keeps the rest. With the
    store working (the synchronizer's calls apart), the slot answered, which
    replaces the edited row and no other, has the key and the teacher of
    the row found; its day, start and end are those of the body when
    non-empty and those of the row otherwise; its course is the course
    looked up, none when the body's course id is the empty string, and the
    row's course otherwise; its location and notes are kept when the body
    leaves them out, cleared when it gives null, and set when it gives a
    string. A body that names nothing leaves the table of teacher slots
    as it was. *)
Theorem edit_writes_only_named_fields env slotId body existing courseRow w :
  supabase env = true ->
  (forall op, sync_op op = false -> outcome env op = Succeeds) ->
  is_teacher_slot w slotId existing ->
  course_lookup w body courseRow ->
  let updated :=
    Slot.mk (Slot.id existing) (Slot.teacher_id existing)
      match courseRow with
      | Some c => Some (Course.id c)
      | None => match EditBody.courseId body with
                | Js.Str EmptyString => None
                | _ => Slot.course_id existing
                end
      end
      match Js.field_or_null (EditBody.dayOfWeek body) with
      | Some d => Some d
      | None => Slot.day_of_week existing
      end
      match Js.field_or_null (EditBody.startTime body) with
      | Some b => Some b
      | None => Slot.start_time existing
      end
      match Js.field_or_null (EditBody.endTime body) with
      | Some e => Some e
      | None => Slot.end_time existing
      end
      match EditBody.location body with
      | Js.Undefined => Slot.location existing
      | Js.Null => None
      | Js.Str s => Some s
      end
      match EditBody.notes body with
      | Js.Undefined => Slot.notes existing
      | Js.Null => None
      | Js.Str s => Some s
      end in
  let w' := after (edit_teacher_slot env slotId body) w in
  result (edit_teacher_slot env slotId body) w
  = Val (mkResponse 200 "Slot updated successfully" (Some updated) None)
  /\ teacher_schedule_slots w' =
       map (fun r => if Slot.id r =? slotId then updated else r)
           (teacher_schedule_slots w)
  /\ (body = empty_body -> teacher_schedule_slots w' = teacher_schedule_slots w).
Proof.
  intros Hs H Hslot Hlook updated w'. subst w'.
  assert (Hu : apply_updates (edit_payload body existing courseRow) existing = updated)
    by reflexivity.
  assert (Ht : teacher_schedule_slots (after (edit_teacher_slot env slotId body) w)
               = map (fun r => if Slot.id r =? slotId then updated else r)
                     (teacher_schedule_slots w)).
  { unfold after.
    rewrite (edit_runs env slotId body existing courseRow w Hs
               (H SelectTeacherSlot eq_refl) (H SelectCourse eq_refl) Hslot Hlook).
    fold (after (try_catch (edit_after_lookup env slotId body existing courseRow)
                   (fun error => ret (json 500 "Server error"))) w).
    rewrite (after_try_catch_ret _ (fun _ => json 500 "Server error")).
    destruct (edit_after_lookup_world env slotId body existing courseRow w
                (H UpdateTeacherSlot eq_refl) Hslot) as [Ht _].
    rewrite Ht, <- Hu. exact (update_the_teacher_slot w slotId existing _ Hslot). }
  split; [|split].
  - unfold result.
    rewrite (edit_runs env slotId body existing courseRow w Hs
               (H SelectTeacherSlot eq_refl) (H SelectCourse eq_refl) Hslot Hlook).
    apply result_try_catch_val. rewrite <- Hu.
    exact (edit_after_lookup_returns env slotId body existing courseRow w H Hslot).
  - exact Ht.
  - intros ->. rewrite Ht. apply map_if_same. intros r Hr E.
    apply String.eqb_eq in E. destruct Hslot as [Hin [Hid Hn]].
    simpl in Hlook. destruct courseRow as [c|]; [now destruct Hlook|].
    subst updated. simpl.
    transitivity existing; [|now destruct existing].
    apply (NoDup_map_eq Slot.id (teacher_schedule_slots w)); trivial. congruence.
Qed.

Lemma edit_writes_only_named_fields_witness :
  let body := EditBody.mk Js.Undefined (Js.Str "09:30") Js.Undefined Js.Undefined
                          (Js.Str "Room 4") Js.Null in
  let w' := after (edit_teacher_slot Sample.env "S1" body) Sample.before_request in
  teacher_schedule_slots w' =
    [Slot.mk "S1" (Some "T1") (Some "C1") (Some "Tuesday") (Some "09:30")
             (Some "11:00") (Some "Room 4") None].
Proof.
  destruct (edit_writes_only_named_fields Sample.env "S1"
              (EditBody.mk Js.Undefined (Js.Str "09:30") Js.Undefined Js.Undefined
                           (Js.Str "Room 4") Js.Null)
              Sample.teacher_slot None Sample.before_request
              eq_refl (fun _ _ => eq_refl))
    as [_ [H _]].
  - repeat split; [now left|]. simpl. repeat constructor. intros [].
  - reflexivity.
  - exact H.
Defined.

Lemma edit_course_slots env slotId body existing w :
  supabase env = true ->
  (forall op, outcome env op = Succeeds) ->
  is_teacher_slot w slotId existing ->
  EditBody.courseId body = Js.Undefined ->
  let updated := apply_updates (edit_payload body existing None) existing in
  exists w1,
    course_schedule_slots (after (edit_teacher_slot env slotId body) w)
    = course_schedule_slots
        (after (syncTeacherSlotToCourseSlot env updated (Some (old_values existing))) w1)
    /\ course_schedule_slots w1 = course_schedule_slots w
    /\ Slot.course_id updated = Slot.course_id existing
    /\ Slot.teacher_id updated = Slot.teacher_id existing.
Proof.
  intros Hs H Hslot Hc updated.
  assert (Hlook : course_lookup w body None) by (simpl; now rewrite Hc).
  unfold after at 1.
  rewrite (edit_runs env slotId body existing None w Hs
             (H SelectTeacherSlot) (H SelectCourse) Hslot Hlook).
  fold (after (try_catch (edit_after_lookup env slotId body existing None)
                 (fun error => ret (json 500 "Server error"))) w).
  rewrite (after_try_catch_ret _ (fun _ => json 500 "Server error")).
  destruct (edit_after_lookup_world env slotId body existing None w
              (H UpdateTeacherSlot) Hslot) as [_ [Hcs _]].
  eexists. split; [exact Hcs|]. split; [reflexivity|].
  unfold updated. simpl. now rewrite Hc.
Qed.

(** A direct edit reaches the course timetable. With the store working,
    when the edited teacher slot keeps its course, has a course and a
    teacher and complete day, start and end, and a course slot of the pair
    carries exactly those old values, the edit rewrites that course slot
    (the first such one) with the day, start, end, location and notes of
    the updated teacher slot; the course table has no row more or less. *)
Theorem edit_moves_the_course_slot env slotId body existing c w :
  supabase env = true ->
  (forall op, outcome env op = Succeeds) ->
  is_teacher_slot w slotId existing ->
  EditBody.courseId body = Js.Undefined ->
  Js.truthy (Slot.course_id existing) = true ->
  Js.truthy (Slot.teacher_id existing) = true ->
  complete (Some (old_values existing)) = true ->
  find_old (old_values existing) (candidates existing w) = Some c ->
  let updated := apply_updates (edit_payload body existing None) existing in
  course_schedule_slots (after (edit_teacher_slot env slotId body) w) =
    map (fun r =>
           if Slot.id r =? Candidate.id c
           then Slot.mk (Slot.id r) (Slot.teacher_id r) (Slot.course_id r)
                        (Slot.day_of_week updated) (Slot.start_time updated)
                        (Slot.end_time updated)
                        (Js.or_null (Slot.location updated))
                        (Js.or_null (Slot.notes updated))
           else r)
        (course_schedule_slots w).
Proof.
  intros Hs H Hslot Hcid Hc Ht Ho Hfind updated.
  destruct (edit_course_slots env slotId body existing w Hs H Hslot Hcid)
    as [w1 [Hcs [Hw1 [Ec Et]]]].
  fold updated in Hcs, Ec, Et. rewrite Hcs. unfold after.
  rewrite (sync_run env updated (Some (old_values existing)) w1);
    [|now rewrite Ec|now rewrite Et|apply H].
  rewrite (candidates_same_pair existing updated w w1 Ec Et Hw1).
  rewrite (choose_complete updated _ _ Ho), (strategy_old_exact _ _ c Hfind).
  simpl. unfold after_update. rewrite (H UpdateCourseSlot). simpl.
  now rewrite Hw1.
Qed.

Lemma edit_moves_the_course_slot_witness :
  let body := EditBody.mk (Js.Str "Friday") Js.Undefined Js.Undefined Js.Undefined
                          (Js.Str "Room 4") Js.Undefined in
  course_schedule_slots
    (after (edit_teacher_slot Sample.env "S1" body) Sample.before_request)
  = [Slot.mk "k" (Some "T1") (Some "C1") (Some "Friday") (Some "10:00")
             (Some "11:00") (Some "Room 4") None].
Proof.
  apply (edit_moves_the_course_slot Sample.env "S1"
           (EditBody.mk (Js.Str "Friday") Js.Undefined Js.Undefined Js.Undefined
                        (Js.Str "Room 4") Js.Undefined)
           Sample.teacher_slot
           (Candidate.of_row (Sample.slot "k" "Tuesday" "10:00" "11:00"))
           Sample.before_request eq_refl (fun _ => eq_refl)).
  - repeat split; [now left|]. simpl. repeat constructor. intros [].
  - reflexivity.
  - reflexivity.
  - reflexivity.
  - reflexivity.
  - reflexivity.
Defined.

(** A direct edit creates the missing course slot. With the store working,
    when the edited teacher slot keeps its course, has a course and a
    teacher, and the course table has no slot for the pair, the edit
    appends one course slot for the pair with the day, start, end, location
    and notes of the updated teacher slot. *)
Theorem edit_creates_the_missing_course_slot env slotId body existing w :
  supabase env = true ->
  (forall op, outcome env op = Succeeds) ->
  is_teacher_slot w slotId existing ->
  EditBody.courseId body = Js.Undefined ->
  Js.truthy (Slot.course_id existing) = true ->
  Js.truthy (Slot.teacher_id existing) = true ->
  candidates existing w = [] ->
  let updated := apply_updates (edit_payload body existing None) existing in
  course_schedule_slots (after (edit_teacher_slot env slotId body) w) =
    course_schedule_slots w
      ++ [Slot.mk (new_id env) (Slot.teacher_id existing) (Slot.course_id existing)
            (Slot.day_of_week updated) (Slot.start_time updated)
            (Slot.end_time updated)
            (Js.or_null (Slot.location updated)) (Js.or_null (Slot.notes updated))].
Proof.
  intros Hs H Hslot Hcid Hc Ht Hnone updated.
  destruct (edit_course_slots env slotId body existing w Hs H Hslot Hcid)
    as [w1 [Hcs [Hw1 [Ec Et]]]].
  fold updated in Hcs, Ec, Et. rewrite Hcs. unfold after.
  rewrite (sync_run env updated (Some (old_values existing)) w1);
    [|now rewrite Ec|now rewrite Et|apply H].
  rewrite (candidates_same_pair existing updated w w1 Ec Et Hw1), Hnone.
  assert (Hch : choose updated (Some (old_values existing)) [] = Go None).
  { unfold choose. now destruct (complete (Some (old_values existing))). }
  rewrite Hch. simpl. unfold after_insert. rewrite (H InsertCourseSlot). simpl.
  unfold inserted_row. simpl. now rewrite Hw1, Hcid.
Qed.

Lemma edit_creates_the_missing_course_slot_witness :
  let w := mkWorld [] [Sample.slot "S1" "Monday" "09:00" "10:00"] [] [] [] [] [] [] in
  let body := EditBody.mk Js.Undefined (Js.Str "11:00") (Js.Str "12:00") Js.Undefined
                          Js.Undefined Js.Undefined in
  course_schedule_slots (after (edit_teacher_slot Sample.env "S1" body) w)
  = [Sample.slot "generated-id" "Monday" "11:00" "12:00"].
Proof.
  apply (edit_creates_the_missing_course_slot Sample.env "S1"
           (EditBody.mk Js.Undefined (Js.Str "11:00") (Js.Str "12:00") Js.Undefined
                        Js.Undefined Js.Undefined)
           (Sample.slot "S1" "Monday" "09:00" "10:00")
           (mkWorld [] [Sample.slot "S1" "Monday" "09:00" "10:00"] [] [] [] [] [] [])
           eq_refl (fun _ => eq_refl)).
  - repeat split; [now left|]. simpl. repeat constructor. intros [].
  - reflexivity.
  - reflexivity.
  - reflexivity.
  - reflexivity.
Defined.

(** * Approving when something is missing or breaks late *)

(** Approving a request whose slot is gone. On a pending request that asks
    for a change, when no teacher slot has the key the request names, and
    the store otherwise works, approve answers 500; the request stays
    pending and no table and no event changes. *)
Theorem approve_of_a_vanished_slot env requestId user_id request w :
  supabase env = true ->
  outcome env SelectRequest = Succeeds ->
  outcome env UpdateTeacherSlot = Succeeds ->
  is_pending w requestId request ->
  any_requested request = true ->
  (forall r, In r (teacher_schedule_slots w) -> Slot.id r <> Request.slot_id request) ->
  let w' := after (approve env requestId user_id) w in
  result (approve env requestId user_id) w
  = Val (mkResponse 500 "Server error" None
           (Some "JSON object requested, multiple (or no) rows returned"))
  /\ is_pending w' requestId request
  /\ teacher_schedule_slots w' = teacher_schedule_slots w
  /\ course_schedule_slots w' = course_schedule_slots w
  /\ notifications w' = notifications w
  /\ emitted w' = emitted w.
Proof.
  intros Hs Hq Hu Hp Hany Hnone w'. subst w'.
  assert (Hrun : approve env requestId user_id w
                 = (Val (mkResponse 500 "Server error" None
                           (Some "JSON object requested, multiple (or no) rows returned")),
                    record (update_teacher_schedule_slots (Request.slot_id request)
                              (approve_updates request)) w)).
  { rewrite (approve_pending env requestId user_id request w Hs Hq Hp), Hany.
    unfold try_catch, approve_with_changes, bind at 1. unfold bind at 1.
    unfold statement. rewrite Hu. unfold run_update_teacher_slot.
    rewrite filter_update_where_id by reflexivity.
    rewrite filter_none.
    - simpl. unfold update_where_id.
      rewrite (map_ext_in _ (fun r => r)), map_id; [now destruct w|].
      intros r Hr. simpl.
      now rewrite (proj2 (String.eqb_neq _ _) (Hnone r Hr)).
    - intros r Hr. apply String.eqb_neq. exact (Hnone r Hr). }
  unfold result, after. rewrite Hrun. simpl.
  split; [reflexivity|]. split; [exact Hp|]. now repeat split.
Qed.

Lemma approve_of_a_vanished_slot_witness :
  result (approve Sample.env "R1" "A1") Cases.slot_gone
  = Val (mkResponse 500 "Server error" None
           (Some "JSON object requested, multiple (or no) rows returned"))
  /\ schedule_change_requests (after (approve Sample.env "R1" "A1") Cases.slot_gone)
     = [Cases.move_to_wednesday].
Proof.
  destruct (approve_of_a_vanished_slot Sample.env "R1" "A1" Cases.move_to_wednesday
              Cases.slot_gone eq_refl eq_refl eq_refl)
    as [H1 _].
  - repeat split; [now left|]. simpl. repeat constructor. intros [].
  - reflexivity.
  - intros r [].
  - split; [exact H1|reflexivity].
Defined.

Lemma bind_val {A B} (m : M A) (k : A -> M B) w a w1 :
  m w = (Val a, w1) -> bind m k w = k a w1.
Proof. intros H. unfold bind. now rewrite H. Qed.

(** An approval is not all or nothing. When the insert of the teacher's
    notification throws and every other call succeeds, approving a pending
    request that asks for a change answers 500 with the error, although the
    teacher slot has already been updated and the request already marked
    approved; no notification is stored and no event is published. The
    slot holds each requested field and its former value elsewhere; the
    rows of the request's key have status "approved", the caller as
    [approved_by] and the current time as [approved_at], every other
    column and every other row being kept. *)
Theorem late_throw_after_the_writes env requestId user_id request s e w :
  supabase env = true ->
  (forall op, op <> InsertTeacherNotification -> outcome env op = Succeeds) ->
  outcome env InsertTeacherNotification = Throws e ->
  is_pending w requestId request ->
  any_requested request = true ->
  is_teacher_slot w (Request.slot_id request) s ->
  let updatedSlot :=
    Slot.mk (Slot.id s) (Slot.teacher_id s) (Slot.course_id s)
      (if Js.truthy (Request.requested_day_of_week request)
       then Request.requested_day_of_week request else Slot.day_of_week s)
      (if Js.truthy (Request.requested_start_time request)
       then Request.requested_start_time request else Slot.start_time s)
      (if Js.truthy (Request.requested_end_time request)
       then Request.requested_end_time request else Slot.end_time s)
      (Slot.location s) (Slot.notes s) in
  let approved (r : Request.t) :=
    Request.mk (Request.id r) (Request.slot_id r) (Request.teacher_id r)
      (Request.course_id r) (Request.current_day_of_week r)
      (Request.current_start_time r) (Request.current_end_time r)
      (Request.requested_day_of_week r) (Request.requested_start_time r)
      (Request.requested_end_time r) (Request.reason r)
      "approved" (Some user_id) (Some (now env))
      (Request.declined_by r) (Request.declined_at r) (Request.declined_reason r) in
  let w' := after (approve env requestId user_id) w in
  result (approve env requestId user_id) w
  = Val (mkResponse 500 "Server error" None (Some e))
  /\ teacher_schedule_slots w' =
       update_where_id Slot.id (Request.slot_id request)
                       (apply_updates (approve_updates request))
                       (teacher_schedule_slots w)
  /\ In (apply_updates (approve_updates request) s) (teacher_schedule_slots w')
  /\ In (Request.set_approved user_id (now env) request) (schedule_change_requests w')
  /\ notifications w' = notifications w
  /\ emitted w' = emitted w
  /\ In updatedSlot (teacher_schedule_slots w')
  /\ teacher_schedule_slots w' =
       map (fun r => if Slot.id r =? Request.slot_id request then updatedSlot else r)
           (teacher_schedule_slots w)
  /\ schedule_change_requests w' =
       map (fun r => if Request.id r =? requestId then approved r else r)
           (schedule_change_requests w)
  /\ In (approved request) (schedule_change_requests w').
Proof.
  intros Hs H HT Hp Hany Hslot updatedSlot approved w'. subst updatedSlot approved w'.
  assert (Hq : outcome env SelectRequest = Succeeds) by (apply H; discriminate).
  assert (Hrun : exists w2,
             approve env requestId user_id w = (Val (mkResponse 500 "Server error" None (Some e)), w2)
             /\ teacher_schedule_slots w2 =
                  update_where_id Slot.id (Request.slot_id request)
                                  (apply_updates (approve_updates request))
                                  (teacher_schedule_slots w)
             /\ schedule_change_requests w2 =
                  update_where_id Request.id requestId
                                  (Request.set_approved user_id (now env))
                                  (schedule_change_requests w)
             /\ notifications w2 = notifications w
             /\ emitted w2 = emitted w).
  { rewrite (approve_pending env requestId user_id request w Hs Hq Hp), Hany.
    unfold try_catch, approve_with_changes.
    rewrite (bind_val _ _ w _ _
               (update_teacher_slot_statement_runs env (Request.slot_id request)
                  (approve_updates request) s w
                  (H UpdateTeacherSlot ltac:(discriminate)) Hslot)).
    match goal with |- context [bind (or_throw _) _ ?w1] => set (w1' := w1) end.
    rewrite (bind_val _ _ w1' (apply_updates (approve_updates request) s) w1' eq_refl).
    rewrite (bind_val _ _ w1' tt _ (sync_runs env _ _ w1')).
    destruct (sync_frame env (apply_updates (approve_updates request) s)
                (Some (OldValues.mk (Request.current_day_of_week request)
                                    (Request.current_start_time request)
                                    (Request.current_end_time request))) w1')
      as [Hr [Ht [Hn [_ [_ He]]]]].
    match goal with
    | |- context [after ?m w1'] => set (w2 := after m w1') in *
    end.
    clearbody w2. simpl in Hr, Ht, Hn, He.
    unfold bind, statement, query, ret.
    rewrite (H UpdateRequest ltac:(discriminate)), HT.
    destruct (Js.truthy (Request.course_id request)); simpl.
    - rewrite (H SelectCourse ltac:(discriminate)).
      destruct (data_of _); simpl; eexists; (split; [reflexivity|]); simpl;
        now rewrite Hr, Ht, Hn, He.
    - eexists. split; [reflexivity|]. simpl. now rewrite Hr, Ht, Hn, He. }
  destruct Hrun as [w2 [Hrun [Ht [Hr [Hn He]]]]].
  unfold result, after. rewrite Hrun. simpl.
  split; [reflexivity|]. split; [exact Ht|]. rewrite Ht, Hr.
  pose proof (update_the_teacher_slot w (Request.slot_id request) s
                (apply_updates (approve_updates request)) Hslot) as Hmap.
  rewrite (apply_approve_updates request s) in Hmap.
  destruct Hslot as [Hsin [Hsid _]]. destruct Hp as [Hin [Hid _]].
  pose proof (in_update_where_id Slot.id (Request.slot_id request)
                (apply_updates (approve_updates request))
                (teacher_schedule_slots w) s Hsin Hsid) as Hnew.
  split; [exact Hnew|].
  split; [now apply in_update_where_id|].
  split; [exact Hn|]. split; [exact He|].
  rewrite (apply_approve_updates request s) in Hnew.
  split; [exact Hnew|]. split; [exact Hmap|].
  split; [exact (approved_rows requestId user_id (now env) (schedule_change_requests w))|].
  exact (approved_row_in requestId user_id (now env)
           (schedule_change_requests w) request Hin Hid).
Qed.

Lemma late_throw_after_the_writes_witness :
  let w := Sample.school Cases.move_to_wednesday in
  let w' := after (approve Cases.env_notification_throws "R1" "A1") w in
  result (approve Cases.env_notification_throws "R1" "A1") w
  = Val (mkResponse 500 "Server error" None (Some "socket hang up"))
  /\ teacher_schedule_slots w' = [Sample.slot "S1" "Wednesday" "14:00" "15:00"]
  /\ notifications w' = []
  /\ schedule_change_requests w' =
       [Request.mk "R1" "S1" "T1" (Some "C1")
          (Some "Tuesday") (Some "10:00") (Some "11:00")
          (Some "Wednesday") (Some "14:00") (Some "15:00")
          "room conflict" "approved"
          (Some "A1") (Some "2024-03-01T08:00:00.000Z") None None None].
Proof.
  destruct (late_throw_after_the_writes Cases.env_notification_throws "R1" "A1"
              Cases.move_to_wednesday Sample.teacher_slot "socket hang up"
              (Sample.school Cases.move_to_wednesday) eq_refl)
    as [H1 [H2 [_ [_ [H5 [_ [_ [_ [H9 _]]]]]]]]].
  - intros op Hop. destruct op; try reflexivity. now destruct Hop.
  - reflexivity.
  - exact (sample_pending Cases.move_to_wednesday eq_refl eq_refl).
  - reflexivity.
  - exact (sample_teacher_slot Cases.move_to_wednesday).
  - split; [exact H1|]. split; [exact H2|]. split; [exact H5|exact H9].
Defined.

(** * Notification channels *)

Lemma allowed_inv c : allowed c = true -> c = "in_app" \/ c = "email".
Proof.
  unfold allowed. intros H. apply orb_prop in H as [H|H];
    apply String.eqb_eq in H; auto.
Qed.

Lemma normalizeChannels_allowed channels :
  Forall (fun c => c = "in_app" \/ c = "email") (normalizeChannels channels).
Proof.
  assert (Hdef : Forall (fun c => c = "in_app" \/ c = "email") ["in_app"])
    by (repeat constructor).
  destruct channels as [[|x l]|]; trivial.
  unfold normalizeChannels.
  assert (Hf : Forall (fun c => c = "in_app" \/ c = "email")
                      (filter allowed (map toLowerCase (x :: l)))).
  { apply Forall_forall. intros c Hc.
    apply filter_In in Hc as [_ Hc]. now apply allowed_inv. }
  now destruct (filter allowed (map toLowerCase (x :: l))).
Qed.

(** Whatever it is given (no array, an empty one, any strings in any
    letter case), [normalizeChannels] answers a list that is not empty and
    holds nothing but "in_app" and "email". *)
Theorem normalizeChannels_range channels :
  normalizeChannels channels <> []
  /\ Forall (fun c => c = "in_app" \/ c = "email") (normalizeChannels channels).
Proof.
  split; [|apply normalizeChannels_allowed].
  destruct channels as [[|x l]|]; try discriminate.
  unfold normalizeChannels.
  destruct (filter allowed (map toLowerCase (x :: l))); discriminate.
Qed.

(** Normalizing twice is normalizing once: what [normalizeChannels]
    answers is left as it is by a second pass. *)
Theorem normalizeChannels_idempotent channels :
  normalizeChannels (Some (normalizeChannels channels)) = normalizeChannels channels.
Proof.
  assert (Hfix : forall l, Forall (fun c => c = "in_app" \/ c = "email") l ->
                           filter allowed (map toLowerCase l) = l).
  { induction l as [|c l IH]; intros H; [reflexivity|].
    inversion H as [|? ? Hc Hl]; subst. simpl.
    destruct Hc as [-> | ->]; simpl; now rewrite IH. }
  pose proof (normalizeChannels_allowed channels) as Hall.
  destruct (normalizeChannels channels) as [|c r] eqn:E.
  - destruct channels as [[|x l]|]; try discriminate.
    unfold normalizeChannels in E.
    destruct (filter allowed (map toLowerCase (x :: l))); discriminate.
  - unfold normalizeChannels. now rewrite (Hfix (c :: r) Hall).
Qed.

(** * Ownership of a course *)

Lemma sql_eq_inv a b : sql_eq a b = true -> a = b /\ exists x, b = Some x.
Proof.
  destruct a as [x|], b as [y|]; simpl; try discriminate.
  intros H. apply String.eqb_eq in H. subst. eauto.
Qed.

Lemma maybeSingle_inv {R} (rows : list R) r :
  maybeSingle rows = Data (Some r) -> rows = [r].
Proof. destruct rows as [|a [|b l]]; simpl; congruence. Qed.

(** A course is only ever granted to its teacher. Whatever the two lookups
    do and whatever the table holds, when [ensureCourseOwnership] answers a
    course, the first lookup succeeded and that course is a row of the
    table with the id asked for whose teacher is the caller. *)
Theorem ownership_is_never_granted_wrongly first second table teacherId courseId course :
  ensureCourseOwnership first second table teacherId courseId = Val (Owned course) ->
  first = Succeeds
  /\ In course table
  /\ courseId = Some (OwnedCourse.id course)
  /\ OwnedCourse.teacher_id course = teacherId
  /\ teacherId <> None.
Proof.
  unfold ensureCourseOwnership, lookup.
  destruct first; try discriminate.
  destruct (maybeSingle _) as [[c|]|e] eqn:E; try discriminate.
  - intros H. injection H as ->. apply maybeSingle_inv in E.
    assert (Hin : In course (filter
                     (fun c => sql_eq (Some (OwnedCourse.id c)) courseId
                               && sql_eq (OwnedCourse.teacher_id c) teacherId) table))
      by (rewrite E; now left).
    apply filter_In in Hin as [Hin Hc]. apply andb_prop in Hc as [H1 H2].
    apply sql_eq_inv in H1 as [H1 _]. apply sql_eq_inv in H2 as [H2 [x Hx]].
    repeat split; trivial; [congruence|]. congruence.
  - clear E. destruct second; simpl; try discriminate.
    destruct (maybeSingle _) as [[c|]|e]; simpl; discriminate.
Qed.

Lemma ownership_is_never_granted_wrongly_witness :
  let table := [OwnedCourse.mk "C1" (Some "Algebra") (Some "T1");
                OwnedCourse.mk "C2" (Some "Logic") (Some "T2")] in
  In (OwnedCourse.mk "C1" (Some "Algebra") (Some "T1")) table
  /\ OwnedCourse.teacher_id (OwnedCourse.mk "C1" (Some "Algebra") (Some "T1")) = Some "T1".
Proof.
  destruct (ownership_is_never_granted_wrongly Succeeds Succeeds
              [OwnedCourse.mk "C1" (Some "Algebra") (Some "T1");
               OwnedCourse.mk "C2" (Some "Logic") (Some "T2")]
              (Some "T1") (Some "C1")
              (OwnedCourse.mk "C1" (Some "Algebra") (Some "T1")) eq_refl)
    as [_ [H1 [_ [H2 _]]]].
  split; [exact H1 | exact H2].
Defined.

(** The three answers of the ownership check. With course ids unique and
    both lookups working, a teacher asking for a course id gets: the course
    when a course has that id and she teaches it; 403 when a course has
    that id and she does not; 404 when no course has that id. *)
Theorem ownership_answers table teacher courseId :
  NoDup (map OwnedCourse.id table) ->
  ensureCourseOwnership Succeeds Succeeds table (Some teacher) (Some courseId)
  = Val match find (fun c => OwnedCourse.id c =? courseId) table with
        | Some c =>
            if sql_eq (OwnedCourse.teacher_id c) (Some teacher)
            then Owned c
            else Refused 403 "You do not manage this course"
        | None => Refused 404 "Course not found"
        end.
Proof.
  intros Hn. unfold ensureCourseOwnership, lookup.
  destruct (find (fun c => OwnedCourse.id c =? courseId) table) as [c|] eqn:E.
  - apply find_some in E as [Hin Hid]. apply String.eqb_eq in Hid.
    assert (Hall : filter (fun c => sql_eq (Some (OwnedCourse.id c)) (Some courseId)) table
                   = [c]).
    { apply (filter_unique OwnedCourse.id _ table c Hn Hin).
      - simpl. rewrite Hid. apply String.eqb_refl.
      - intros x _ Hx. simpl in Hx. apply String.eqb_eq in Hx. congruence. }
    destruct (sql_eq (OwnedCourse.teacher_id c) (Some teacher)) eqn:Et.
    + rewrite (filter_unique OwnedCourse.id _ table c Hn Hin).
      * reflexivity.
      * simpl. rewrite Hid, String.eqb_refl. exact Et.
      * intros x _ Hx. apply andb_prop in Hx as [Hx _]. simpl in Hx.
        apply String.eqb_eq in Hx. congruence.
    + rewrite filter_none.
      * simpl. simpl in Hall. now rewrite Hall.
      * intros x Hx. destruct (String.eqb_spec (OwnedCourse.id x) courseId) as [Ex|].
        -- assert (x = c) as ->
             by (apply (NoDup_map_eq OwnedCourse.id table); trivial; congruence).
           simpl. rewrite Et. apply andb_false_r.
        -- simpl. apply andb_false_iff. left. now apply String.eqb_neq.
  - assert (Hnone : forall x, In x table ->
              sql_eq (Some (OwnedCourse.id x)) (Some courseId) = false).
    { intros x Hx. exact (find_none _ _ E x Hx). }
    rewrite filter_none.
    + simpl. rewrite filter_none; [reflexivity|exact Hnone].
    + intros x Hx. now rewrite (Hnone x Hx).
Qed.

Lemma ownership_answers_witness :
  let table := [OwnedCourse.mk "C1" (Some "Algebra") (Some "T1");
                OwnedCourse.mk "C2" (Some "Logic") (Some "T2")] in
  ensureCourseOwnership Succeeds Succeeds table (Some "T1") (Some "C2")
  = Val (Refused 403 "You do not manage this course")
  /\ ensureCourseOwnership Succeeds Succeeds table (Some "T1") (Some "C9")
     = Val (Refused 404 "Course not found").
Proof.
  assert (Hn : NoDup (map OwnedCourse.id
                        [OwnedCourse.mk "C1" (Some "Algebra") (Some "T1");
                         OwnedCourse.mk "C2" (Some "Logic") (Some "T2")])).
  { simpl. repeat constructor; simpl; intuition discriminate. }
  split.
  - exact (ownership_answers _ "T1" "C2" Hn).
  - exact (ownership_answers _ "T1" "C9" Hn).
Defined.

(** * The list of pending requests *)

Lemma fetched_runs {R} env op ids (q : list string -> World -> Reply (list R)) w :
  (forall e, outcome env op <> Throws e) ->
  exists rows, fetched env op ids q w = (Val rows, w).
Proof.
  intros H. unfold fetched. destruct (0 <? List.length ids)%nat; [|now exists []].
  unfold bind, query, ret. destruct (outcome env op) eqn:E.
  - destruct (q ids w); simpl; eauto.
  - simpl. eauto.
  - now destruct (H e).
Qed.

Lemma listing_runs env users newest_first w :
  supabase env = true ->
  outcome env SelectRequest = Succeeds ->
  (forall e, outcome env SelectUser <> Throws e) ->
  (forall e, outcome env SelectCourse <> Throws e) ->
  exists teachers found,
    list_schedule_change_requests env users newest_first w
    = (Val (Requests
              (map (mappedRequest teachers found)
                   (newest_first (filter is_pending_row (schedule_change_requests w))))),
       w).
Proof.
  intros Hs Hq Hu Hc. unfold list_schedule_change_requests. rewrite Hs. simpl.
  unfold try_catch, bind at 1. unfold bind at 1. unfold query at 1. rewrite Hq.
  unfold select_pending. simpl.
  destruct (newest_first (filter is_pending_row (schedule_change_requests w)))
    as [|r l]; [exists [], []; reflexivity|].
  cbv zeta.
  destruct (fetched_runs env SelectUser
              (distinct (map (fun r => Some (Request.teacher_id r)) (r :: l)))
              (select_users_in users) w Hu) as [teachers Ht].
  destruct (fetched_runs env SelectCourse
              (distinct (map Request.course_id (r :: l)))
              select_courses_in w Hc) as [found Hf].
  exists teachers, found.
  unfold bind. now rewrite Ht, Hf.
Qed.

(** The list shows the pending requests and nothing else. With the client
    configured, the read of the requests working and no lookup throwing
    (an error reply of the teacher or course lookup only leaves names out),
    the route answers one entry per pending row, in the order the store
    returns them: a key is listed exactly when it is the key of a pending
    row, and each entry carries the slot key, the reason and the snapshot
    of its row, with for each requested field the requested value, or the
    current one when nothing is requested for it. *)
Theorem listing_shows_the_pending_requests env users newest_first w :
  supabase env = true ->
  outcome env SelectRequest = Succeeds ->
  (forall e, outcome env SelectUser <> Throws e) ->
  (forall e, outcome env SelectCourse <> Throws e) ->
  (forall l, Permutation (newest_first l) l) ->
  exists entries,
    list_schedule_change_requests env users newest_first w = (Val (Requests entries), w)
    /\ map Listed.id entries
       = map Request.id (newest_first (filter is_pending_row (schedule_change_requests w)))
    /\ (forall i, In i (map Listed.id entries) <->
                  exists r, In r (schedule_change_requests w)
                            /\ Request.id r = i /\ Request.status r = "pending")
    /\ (forall entry, In entry entries ->
          exists r, In r (schedule_change_requests w)
            /\ Request.status r = "pending"
            /\ Listed.id entry = Request.id r
            /\ Listed.slotId entry = Request.slot_id r
            /\ Listed.reason entry = Request.reason r
            /\ Listed.status entry = "pending"
            /\ Listed.currentSlot entry
               = SlotTimes.mk (Request.current_day_of_week r)
                              (Request.current_start_time r)
                              (Request.current_end_time r)
            /\ Listed.requestedSlot entry
               = SlotTimes.mk
                   (if Js.truthy (Request.requested_day_of_week r)
                    then Request.requested_day_of_week r
                    else Request.current_day_of_week r)
                   (if Js.truthy (Request.requested_start_time r)
                    then Request.requested_start_time r
                    else Request.current_start_time r)
                   (if Js.truthy (Request.requested_end_time r)
                    then Request.requested_end_time r
                    else Request.current_end_time r)).
Proof.
  intros Hs Hq Hu Hc Hperm.
  destruct (listing_runs env users newest_first w Hs Hq Hu Hc)
    as [teachers [found Hrun]].
  eexists. split; [exact Hrun|].
  assert (Hpending : forall r,
            In r (newest_first (filter is_pending_row (schedule_change_requests w)))
            <-> In r (schedule_change_requests w) /\ Request.status r = "pending").
  { intros r. split.
    - intros H. apply (Permutation_in _ (Hperm _)) in H.
      apply filter_In in H as [H1 H2]. split; [exact H1|].
      now apply String.eqb_eq.
    - intros [H1 H2]. apply (Permutation_in _ (Permutation_sym (Hperm _))).
      apply filter_In. split; [exact H1|]. unfold is_pending_row.
      rewrite H2. reflexivity. }
  split; [|split].
  - rewrite map_map. reflexivity.
  - intros i. rewrite map_map. simpl. split.
    + intros H. apply in_map_iff in H as [r [Hid Hr]].
      apply Hpending in Hr as [H1 H2]. now exists r.
    + intros [r [H1 [Hid H2]]]. apply in_map_iff. exists r. split; [exact Hid|].
      apply Hpending. now split.
  - intros entry H. apply in_map_iff in H as [r [<- Hr]].
    apply Hpending in Hr as [H1 H2]. exists r.
    repeat split; trivial.
Qed.

Lemma listing_shows_the_pending_requests_witness :
  let decided := Request.set_declined "A1" "2024-02-01T00:00:00.000Z" None
                   (Request.mk "R0" "S1" "T1" (Some "C1") (Some "Tuesday") (Some "10:00")
                      (Some "11:00") None None None "earlier" "pending"
                      None None None None None) in
  let w := mkWorld [decided; Sample.request None (Some "14:00") None]
                   [Sample.teacher_slot] [] [] [] [] [] [] in
  exists entries,
    list_schedule_change_requests Sample.env [] (fun l => l) w = (Val (Requests entries), w)
    /\ map Listed.id entries = ["R1"].
Proof.
  destruct (listing_shows_the_pending_requests Sample.env [] (fun l => l)
              (mkWorld
                 [Request.set_declined "A1" "2024-02-01T00:00:00.000Z" None
                    (Request.mk "R0" "S1" "T1" (Some "C1") (Some "Tuesday") (Some "10:00")
                       (Some "11:00") None None None "earlier" "pending"
                       None None None None None);
                  Sample.request None (Some "14:00") None]
                 [Sample.teacher_slot] [] [] [] [] [] [])
              eq_refl eq_refl)
    as [entries [H1 [H2 _]]].
  - intros e. discriminate.
  - intros e. discriminate.
  - intros l. apply Permutation_refl.
  - exists entries. split; [exact H1 | exact H2].
Defined.

Lemma listed_are_pending env users newest_first w entries :
  (forall l, Permutation (newest_first l) l) ->
  result (list_schedule_change_requests env users newest_first) w
  = Val (Requests entries) ->
  forall i, In i (map Listed.id entries) ->
    exists r, In r (schedule_change_requests w)
              /\ Request.id r = i /\ Request.status r = "pending".
Proof.
  intros Hperm. unfold result, list_schedule_change_requests.
  destruct (supabase env); simpl; [|discriminate].
  unfold try_catch, bind at 1. unfold bind at 1. unfold query at 1.
  destruct (outcome env SelectRequest); simpl; try discriminate.
  destruct (newest_first (filter is_pending_row (schedule_change_requests w)))
    as [|r l] eqn:E.
  - simpl. intros H. injection H as <-. intros i [].
  - cbv beta iota zeta. rewrite <- E. unfold bind.
    destruct (fetched env SelectUser _ (select_users_in users) w) as [[teachers|e] w2];
      [|discriminate].
    destruct (fetched env SelectCourse _ select_courses_in w2) as [[found|e] w3];
      [|discriminate].
    unfold ret. cbv beta iota. unfold fst.
    intros H. injection H as <-. intros i Hi.
    rewrite map_map in Hi. simpl in Hi.
    apply in_map_iff in Hi as [x [Hid Hx]]. exists x.
    apply (Permutation_in _ (Hperm _)) in Hx.
    apply filter_In in Hx as [H1 H2]. repeat split; trivial.
    now apply String.eqb_eq.
Qed.

(** A decided request leaves the list. Once approve or decline has gone
    through on a pending request with the store working, the request is
    not in any later answer of the list of pending requests. *)
Theorem decided_request_leaves_the_list
        env requestId user_id declineReason request w env2 users newest_first :
  supabase env = true ->
  (forall op, outcome env op = Succeeds) ->
  is_pending w requestId request ->
  (any_requested request = true ->
   exists s, is_teacher_slot w (Request.slot_id request) s) ->
  (forall l, Permutation (newest_first l) l) ->
  forall w1 entries,
    w1 = after (approve env requestId user_id) w
    \/ w1 = after (decline env requestId user_id declineReason) w ->
    result (list_schedule_change_requests env2 users newest_first) w1
    = Val (Requests entries) ->
    ~ In requestId (map Listed.id entries).
Proof.
  intros Hs H Hp Hslot Hperm w1 entries Hw1 Hres Hin.
  destruct (listed_are_pending env2 users newest_first w1 entries Hperm Hres
              requestId Hin) as [r [Hr [Hid Hst]]].
  assert (Hclosed : Request.status r = "approved" \/ Request.status r = "declined").
  { destruct Hw1 as [-> | ->].
    - rewrite (approve_marks_the_request env requestId user_id request w Hs H Hp Hslot)
        in Hr.
      exact (patched_rows_are_closed _ _ _ r Hr Hid).
    - rewrite (decline_marks_the_request env requestId user_id declineReason request w
                 Hs H Hp) in Hr.
      exact (patched_rows_are_closed _ _ _ r Hr Hid). }
  rewrite Hst in Hclosed. destruct Hclosed; discriminate.
Qed.

Lemma decided_request_leaves_the_list_witness :
  let w1 := after (decline Sample.env "R1" "A1" None)
                  (Sample.school Cases.move_to_wednesday) in
  result (list_schedule_change_requests Sample.env [] (fun l => l)) w1
  = Val (Requests [])
  /\ ~ In "R1" (map Listed.id []).
Proof.
  split; [reflexivity|].
  apply (decided_request_leaves_the_list Sample.env "R1" "A1" None
           Cases.move_to_wednesday (Sample.school Cases.move_to_wednesday)
           Sample.env [] (fun l => l) eq_refl (fun _ => eq_refl)
           (sample_pending Cases.move_to_wednesday eq_refl eq_refl)
           (fun _ => ex_intro _ Sample.teacher_slot
                       (sample_teacher_slot Cases.move_to_wednesday))
           (fun l => Permutation_refl l)
           (after (decline Sample.env "R1" "A1" None)
                  (Sample.school Cases.move_to_wednesday))
           [] (or_intror eq_refl) eq_refl).
Defined.

(** A submitted request enters the list. When a teacher's submit goes
    through, the next answer of the list of pending requests (client
    configured, reads working) has an entry for the new request, with the
    slot's day, start and end as its current slot. *)
Theorem submitted_request_enters_the_list
        env u body w slotId why teacher s env2 users newest_first :
  Js.field_or_null (SubmitBody.slotId body) = Some slotId ->
  Js.field_or_null (SubmitBody.reason body) = Some why ->
  User.id u = Some teacher ->
  Js.truthy (Some teacher) = true ->
  outcome env SelectTeacherSlot = Succeeds ->
  (forall e, outcome env SelectUser <> Throws e) ->
  outcome env InsertRequest = Succeeds ->
  is_teacher_slot w slotId s ->
  Slot.teacher_id s = Some teacher ->
  supabase env2 = true ->
  outcome env2 SelectRequest = Succeeds ->
  (forall e, outcome env2 SelectUser <> Throws e) ->
  (forall e, outcome env2 SelectCourse <> Throws e) ->
  (forall l, Permutation (newest_first l) l) ->
  let w1 := after (request_change env (Some u) body) w in
  exists entries entry,
    result (list_schedule_change_requests env2 users newest_first) w1
    = Val (Requests entries)
    /\ In entry entries
    /\ Listed.id entry = new_id env
    /\ Listed.slotId entry = slotId
    /\ Listed.reason entry = why
    /\ Listed.currentSlot entry
       = SlotTimes.mk (Slot.day_of_week s) (Slot.start_time s) (Slot.end_time s).
Proof.
  intros H1 H2 Hid Htr Hq Hu Hi Hslot Hown Hs2 Hq2 Hu2 Hc2 Hperm w1.
  destruct (listing_runs env2 users newest_first w1 Hs2 Hq2 Hu2 Hc2)
    as [teachers [found Hrun]].
  exists (map (mappedRequest teachers found)
              (newest_first (filter is_pending_row (schedule_change_requests w1)))),
         (mappedRequest teachers found (requestData env slotId teacher s body why)).
  split; [unfold result; now rewrite Hrun|].
  split; [|now repeat split].
  apply in_map. apply (Permutation_in _ (Permutation_sym (Hperm _))).
  apply filter_In. split; [|reflexivity].
  unfold w1, after.
  rewrite (request_change_runs env u body w slotId why teacher s
             H1 H2 Hid Htr Hq Hu Hi Hslot Hown).
  simpl. apply in_or_app. right. now left.
Qed.

Lemma submitted_request_enters_the_list_witness :
  let w1 := after (request_change Sample.env (Some Sample.teacher) Sample.change_body)
                  Sample.before_request in
  exists entries entry,
    result (list_schedule_change_requests Sample.env [] (fun l => l)) w1
    = Val (Requests entries)
    /\ In entry entries
    /\ Listed.id entry = "generated-id"
    /\ Listed.slotId entry = "S1"
    /\ Listed.reason entry = "room conflict"
    /\ Listed.currentSlot entry
       = SlotTimes.mk (Some "Tuesday") (Some "10:00") (Some "11:00").
Proof.
  apply (submitted_request_enters_the_list Sample.env Sample.teacher Sample.change_body
           Sample.before_request "S1" "room conflict" "T1" Sample.teacher_slot
           Sample.env [] (fun l => l) eq_refl eq_refl eq_refl eq_refl eq_refl).
  - intros e. discriminate.
  - reflexivity.
  - repeat split; [now left|]. simpl. repeat constructor. intros [].
  - reflexivity.
  - reflexivity.
  - reflexivity.
  - intros e. discriminate.
  - intros e. discriminate.
  - intros l. apply Permutation_refl.
Defined.
